(** * LuxeClean API (app-functions/index.js): pricing, validation and
      document lifecycle, embedded in Rocq.

    The development follows the source file top-down:
    - [Num]      JavaScript numbers (IEEE 754 binary64, from [SpecFloat]);
    - [Str]      the string primitives the handlers use ([trim], and the
                 string-to-number conversion behind [Number(...)]);
    - [Js]       JavaScript values, [typeof], truthiness, [Number(...)],
                 property access, object literals and spread;
    - [Pricing]  [PRICING] and [computeTurnoverPrice];
    - [Store]    the Firestore collections and the handler monad;
    - [Api]      the Express handlers;
    - [Spec]     the vocabulary in which the properties are stated;
    - [Http]     the content-type check in front of the handlers;
    - [Life]     the vocabulary of the properties of whole runs;
    then the properties of the specification, claim by claim, and the
    further properties of the handlers. *)

From Stdlib Require Import ZArith Bool List String Ascii Lia.
From Stdlib Require Import SpecFloat.
From stdpp Require Import gmap strings list fin_maps pretty.

Set Warnings "-register-all".

Local Open Scope string_scope.
Local Open Scope Z_scope.

(* ===================================================================== *)
(** ** JavaScript numbers *)
(* ===================================================================== *)

Module Num.

(** A JavaScript number is an IEEE 754 binary64 value. *)
Definition number : Type := spec_float.

Definition prec : Z := 53.
Definition emax : Z := 1024.

Definition NaN : number := S754_nan.
Definition pzero : number := S754_zero false.

(** The double nearest to an integer (round to nearest, ties to even). *)
Definition of_Z (z : Z) : number := binary_normalize prec emax z 0 false.

(** [x + y] and [x * y]. *)
Definition add (x y : number) : number := SFadd prec emax x y.
Definition mul (x y : number) : number := SFmul prec emax x y.

(** [x >= y]: false as soon as one side is NaN. *)
Definition ge (x y : number) : bool := SFleb y x.
Definition lt (x y : number) : bool := SFltb x y.

(** ToBoolean on numbers: NaN, +0 and -0 are falsy. *)
Definition truthy (x : number) : bool :=
  match x with
  | S754_zero _ | S754_nan => false
  | _ => true
  end.

(** The mathematical integer a number denotes, when it denotes one. *)
Definition intValue (x : number) : option Z :=
  match x with
  | S754_zero _ => Some 0
  | S754_finite s m e =>
      if 0 <=? e then Some (cond_Zopp s (Zpos m * 2 ^ e))
      else if Zpos m mod 2 ^ (- e) =? 0
           then Some (cond_Zopp s (Zpos m / 2 ^ (- e)))
           else None
  | _ => None
  end.

(** [Number.isInteger(x)]. *)
Definition isInteger (x : number) : bool :=
  match intValue x with Some _ => true | None => false end.

(** Array elements are printed before they are parsed again; printing
    loses the sign of zero and nothing else. *)
Definition through_string (x : number) : number :=
  match x with
  | S754_zero _ => pzero
  | _ => x
  end.

(** Sum of a list of numbers, left to right, as
    [values.reduce((a, b) => a + b, 0)] computes it. *)
Definition sum (l : list number) : number := fold_left add l pzero.

End Num.

(* ===================================================================== *)
(** ** Strings *)
(* ===================================================================== *)

Module Str.

(** Strings are kept as their UTF-8 bytes. *)
Definition bytes (l : list nat) : string :=
  string_of_list_ascii (map ascii_of_nat l).

(** The code points [String.prototype.trim] and the numeric-string grammar
    treat as white space (WhiteSpace and LineTerminator), UTF-8 encoded. *)
Definition whitespace : list string :=
  map bytes
    [ [9%nat]; [10%nat]; [11%nat]; [12%nat]; [13%nat]; [32%nat];
      [194; 160]%nat;            (* U+00A0 *)
      [225; 154; 128]%nat;       (* U+1680 *)
      [226; 128; 128]%nat; [226; 128; 129]%nat; [226; 128; 130]%nat;
      [226; 128; 131]%nat; [226; 128; 132]%nat; [226; 128; 133]%nat;
      [226; 128; 134]%nat; [226; 128; 135]%nat; [226; 128; 136]%nat;
      [226; 128; 137]%nat; [226; 128; 138]%nat;  (* U+2000 .. U+200A *)
      [226; 128; 168]%nat; [226; 128; 169]%nat;  (* U+2028, U+2029 *)
      [226; 128; 175]%nat;       (* U+202F *)
      [226; 129; 159]%nat;       (* U+205F *)
      [227; 128; 128]%nat;       (* U+3000 *)
      [239; 187; 191]%nat ].     (* U+FEFF *)

(** [strip_prefix p s] is the rest of [s] after the prefix [p]. *)
Fixpoint strip_prefix (p s : string) : option string :=
  match p, s with
  | EmptyString, _ => Some s
  | String a p', String b s' =>
      if Ascii.eqb a b then strip_prefix p' s' else None
  | String _ _, EmptyString => None
  end.

(** Drop one leading white-space code point, if there is one. *)
Fixpoint drop_one (ws : list string) (s : string) : option string :=
  match ws with
  | [] => None
  | w :: ws' =>
      match strip_prefix w s with
      | Some r => Some r
      | None => drop_one ws' s
      end
  end.

Fixpoint trim_start_fuel (fuel : nat) (ws : list string) (s : string) : string :=
  match fuel with
  | O => s
  | S fuel' =>
      match drop_one ws s with
      | Some r => trim_start_fuel fuel' ws r
      | None => s
      end
  end.

Definition rev_string (s : string) : string :=
  string_of_list_ascii (rev (list_ascii_of_string s)).

Definition trimStart (s : string) : string :=
  trim_start_fuel (String.length s) whitespace s.

Definition trimEnd (s : string) : string :=
  rev_string
    (trim_start_fuel (String.length s) (map rev_string whitespace) (rev_string s)).

(** [s.trim()]. *)
Definition trim (s : string) : string := trimEnd (trimStart s).

(** *** Numeric strings: the grammar behind [Number(s)] *)

Definition digit_of (base : Z) (c : ascii) : option Z :=
  let n := Z.of_nat (nat_of_ascii c) in
  let d :=
    if (48 <=? n) && (n <=? 57) then Some (n - 48)
    else if (97 <=? n) && (n <=? 102) then Some (n - 87)
    else if (65 <=? n) && (n <=? 70) then Some (n - 55)
    else None in
  match d with
  | Some k => if k <? base then Some k else None
  | None => None
  end.

(** Longest run of digits at the head of [s]: the digits read so far (most
    significant first, as a number), how many were read, and the rest. *)
Fixpoint digits (base : Z) (s : string) (acc : Z) (len : Z) : Z * Z * string :=
  match s with
  | EmptyString => (acc, len, s)
  | String c s' =>
      match digit_of base c with
      | Some d => digits base s' (acc * base + d) (len + 1)
      | None => (acc, len, s)
      end
  end.

(** [0x..], [0o..], [0b..] (either case of the letter), no sign. *)
Definition nonDecimalLiteral (s : string) : option Z :=
  match s with
  | String "0"%char (String c r) =>
      let base :=
        if Ascii.eqb c "x"%char || Ascii.eqb c "X"%char then Some 16
        else if Ascii.eqb c "o"%char || Ascii.eqb c "O"%char then Some 8
        else if Ascii.eqb c "b"%char || Ascii.eqb c "B"%char then Some 2
        else None in
      match base with
      | Some b =>
          match digits b r 0 0 with
          | (n, len, EmptyString) => if 0 <? len then Some n else None
          | _ => None
          end
      | None => None
      end
  | _ => None
  end.

(** The exponent part, [e] or [E] followed by a signed integer; [Some 0]
    when the string is empty. *)
Definition exponentPart (s : string) : option Z :=
  match s with
  | EmptyString => Some 0
  | String c r =>
      if Ascii.eqb c "e"%char || Ascii.eqb c "E"%char then
        let '(neg, r') :=
          match r with
          | String "+"%char r' => (false, r')
          | String "-"%char r' => (true, r')
          | _ => (false, r)
          end in
        match digits 10 r' 0 0 with
        | (n, len, EmptyString) =>
            if 0 <? len then Some (if neg then - n else n) else None
        | _ => None
        end
      else None
  end.

(** An unsigned decimal literal as (mantissa, power of ten). *)
Definition unsignedDecimal (s : string) : option (Z * Z) :=
  let '(ip, ilen, r) := digits 10 s 0 0 in
  match r with
  | String "."%char r' =>
      let '(m, flen, r'') := digits 10 r' ip 0 in
      if (0 <? ilen) || (0 <? flen) then
        match exponentPart r'' with
        | Some e => Some (m, e - flen)
        | None => None
        end
      else None
  | _ =>
      if 0 <? ilen then
        match exponentPart r with
        | Some e => Some (ip, e)
        | None => None
        end
      else None
  end.

(** The double nearest to [m * 10 ^ e], with the given sign. *)
Definition decimalValue (neg : bool) (m e : Z) : Num.number :=
  match m with
  | Zpos p =>
      if 0 <=? e then Num.of_Z (cond_Zopp neg (m * 10 ^ e))
      else SFdiv Num.prec Num.emax
             (S754_finite neg p 0)
             (S754_finite false (Z.to_pos (10 ^ (- e))) 0)
  | _ => S754_zero neg
  end.

Definition signedDecimal (s : string) : option Num.number :=
  let '(neg, r) :=
    match s with
    | String "+"%char r => (false, r)
    | String "-"%char r => (true, r)
    | _ => (false, s)
    end in
  if String.eqb r "Infinity" then Some (S754_infinity neg)
  else
    match unsignedDecimal r with
    | Some (m, e) => Some (decimalValue neg m e)
    | None => None
    end.

(** StringToNumber: white space is trimmed, the empty string is [+0], a
    string outside the grammar is NaN. *)
Definition StringToNumber (s : string) : Num.number :=
  let t := trim s in
  if String.eqb t "" then Num.pzero
  else
    match nonDecimalLiteral t with
    | Some n => Num.of_Z n
    | None =>
        match signedDecimal t with
        | Some x => x
        | None => Num.NaN
        end
    end.

(** *** Dates *)

(** [n] in decimal, padded with zeros to at least [width] digits. *)
Definition pad (width : nat) (n : Z) : string :=
  let digits := pretty (Z.to_N n) in
  String.concat "" (repeat "0" (width - String.length digits)) ++ digits.

(** [new Date(ms).toISOString()] for a time [ms] in milliseconds since the
    epoch: the proleptic Gregorian date in UTC, years after 9999 written
    with a sign and six digits. *)
Definition toISOString (ms : Z) : string :=
  let days := ms / 86400000 in
  let rest := ms mod 86400000 in
  let z := days + 719468 in
  let era := z / 146097 in
  let doe := z mod 146097 in
  let yoe := (doe - doe / 1460 + doe / 36524 - doe / 146096) / 365 in
  let doy := doe - (365 * yoe + yoe / 4 - yoe / 100) in
  let mp := (5 * doy + 2) / 153 in
  let day := doy - (153 * mp + 2) / 5 + 1 in
  let month := if mp <? 10 then mp + 3 else mp - 9 in
  let year := yoe + era * 400 + (if month <=? 2 then 1 else 0) in
  (if year <=? 9999 then pad 4 year else "+" ++ pad 6 year)
  ++ "-" ++ pad 2 month ++ "-" ++ pad 2 day
  ++ "T" ++ pad 2 (rest / 3600000)
  ++ ":" ++ pad 2 (rest / 60000 mod 60)
  ++ ":" ++ pad 2 (rest / 1000 mod 60)
  ++ "." ++ pad 3 (rest mod 1000) ++ "Z".

End Str.
(* ===================================================================== *)
(** ** JavaScript values *)
(* ===================================================================== *)

Module Js.

(** Request bodies are parsed JSON; documents additionally hold the values
    [serverTimestamp()] can return.  An object is the list of its own
    properties in [Object.entries] order (keys are unique in an object
    built by JSON.parse or by the handlers). *)
Inductive value : Type :=
| VUndefined
| VNull
| VBool (b : bool)
| VNum (n : Num.number)
| VStr (s : string)
| VArr (items : list value)
| VObj (fields : list (string * value))
| VServerTimestamp            (* the FieldValue.serverTimestamp() sentinel *)
| VTimestamp (t : nat).       (* a Firestore Timestamp, in milliseconds *)

(** [typeof v]. *)
Definition typeof (v : value) : string :=
  match v with
  | VUndefined => "undefined"
  | VBool _ => "boolean"
  | VNum _ => "number"
  | VStr _ => "string"
  | VNull | VArr _ | VObj _ | VServerTimestamp | VTimestamp _ => "object"
  end.

(** ToBoolean, written [!!v] in the source. *)
Definition truthy (v : value) : bool :=
  match v with
  | VUndefined | VNull => false
  | VBool b => b
  | VNum n => Num.truthy n
  | VStr s => negb (String.eqb s "")
  | _ => true
  end.

(** [a || b]. *)
Definition or_else (a b : value) : value := if truthy a then a else b.

(** ToNumber of the primitive that [v] converts to.  An array is converted
    through its string form, the elements joined by commas: only the empty
    array and a one-element array can be numeric, and a number survives
    printing and parsing up to the sign of zero; an object without a
    [toString] of its own prints as ["[object Object]"]. *)
Fixpoint ToNumber (v : value) : Num.number :=
  match v with
  | VUndefined => Num.NaN
  | VNull => Num.pzero
  | VBool b => if b then Num.of_Z 1 else Num.pzero
  | VNum n => n
  | VStr s => Str.StringToNumber s
  | VArr [] => Num.pzero
  | VArr [e] =>
      match e with
      | VUndefined | VNull => Num.pzero
      | VNum n => Num.through_string n
      | VStr s => Str.StringToNumber s
      | VArr _ => ToNumber e
      | _ => Num.NaN
      end
  | VArr _ => Num.NaN
  | VObj _ | VServerTimestamp | VTimestamp _ => Num.NaN
  end.

(** Whether an object has a property [k] of its own. *)
Definition has_own (k : string) (fields : list (string * value)) : bool :=
  existsb (fun kv => String.eqb k (fst kv)) fields.

(** Whether the conversion of [v] to a primitive throws a TypeError.  On
    an object the conversion calls [valueOf] and then [toString], and
    keeps the first primitive result: [Object.prototype.valueOf] returns
    the object itself, and a property [toString] of the object's own
    shadows [Object.prototype.toString] with a value that is not callable
    (a parsed value never is), so nothing is left to call.  An array is
    joined, which converts each of its elements but [null] and
    [undefined] to a string, in the same way. *)
Fixpoint no_primitive (v : value) : bool :=
  match v with
  | VObj fields => has_own "toString" fields
  | VArr items => existsb no_primitive items
  | _ => false
  end.

(** [Number(v)]; [None] is the TypeError of a value without a primitive. *)
Definition Number (v : value) : option Num.number :=
  if no_primitive v then None else Some (ToNumber v).

(** Own property lookup in an object. *)
Fixpoint lookup (k : string) (fields : list (string * value)) : value :=
  match fields with
  | [] => VUndefined
  | (k', v) :: rest => if String.eqb k k' then v else lookup k rest
  end.

(** [v.k] for the property names the program reads (none of them is an
    array index or a built-in property): [None] is the TypeError raised on
    [null] and [undefined]. *)
Definition get (v : value) (k : string) : option value :=
  match v with
  | VUndefined | VNull => None
  | VObj fields => Some (lookup k fields)
  | _ => Some VUndefined
  end.

(** A destructuring default, [{ k = d }]: used when the property is
    [undefined]. *)
Definition default_to (d v : value) : value :=
  match v with
  | VUndefined => d
  | _ => v
  end.

(** [o[k] = v]: replaces in place, otherwise appends. *)
Fixpoint set (k : string) (v : value) (fields : list (string * value))
  : list (string * value) :=
  match fields with
  | [] => [(k, v)]
  | (k', v') :: rest =>
      if String.eqb k k' then (k, v) :: rest else (k', v') :: set k v rest
  end.

(** [{ ...a, ...b }]. *)
Definition spread (a b : list (string * value)) : list (string * value) :=
  fold_left (fun acc kv => set (fst kv) (snd kv) acc) b a.

(** [Object.entries(v)] for a value whose [typeof] is ["object"]. *)
Definition entries (v : value) : list (string * value) :=
  match v with
  | VObj fields => fields
  | VArr items => imap (fun i x => (pretty i, x)) items
  | _ => []
  end.

(** [Object.values(v)] of an object, as numbers. *)
Definition numeric_values (v : value) : list Num.number :=
  map (fun kv => ToNumber (snd kv)) (entries v).

(** [String(v)]: every call in the program is on a value that passed
    [isNonEmptyString], hence on a string, where it is the identity. *)
Definition String_ (v : value) : string :=
  match v with
  | VStr s => s
  | _ => ""
  end.

End Js.

(* ===================================================================== *)
(** ** Constants / Pricing (AUD) *)
(* ===================================================================== *)

Module Pricing.
Import Js.

Record pricing_table : Type := {
  base : Num.number;
  perBedroom : Num.number;
  perBathroom : Num.number;
  deepClean : Num.number;
  linenAddon : Num.number;
  linenStandalone : Num.number;
  currency : string
}.

Definition PRICING : pricing_table := {|
  base := Num.of_Z 85;
  perBedroom := Num.of_Z 20;
  perBathroom := Num.of_Z 15;
  deepClean := Num.of_Z 90;
  linenAddon := Num.of_Z 35;
  linenStandalone := Num.of_Z 45;
  currency := "AUD"
|}.

(** [x || 0] on a number. *)
Definition or_zero (x : Num.number) : Num.number :=
  if Num.truthy x then x else Num.pzero.

(** [computeTurnoverPrice({ bedrooms = 0, bathrooms = 0, addOns = {} })];
    [None] is a TypeError (the argument or [addOns] is [null], or a count
    has no primitive). *)
Definition computeTurnoverPrice (arg : value) : option value :=
  match get arg "bedrooms", get arg "bathrooms", get arg "addOns" with
  | Some bedrooms0, Some bathrooms0, Some addOns0 =>
      let bedrooms := default_to (VNum Num.pzero) bedrooms0 in
      let bathrooms := default_to (VNum Num.pzero) bathrooms0 in
      let addOns := default_to (VObj []) addOns0 in
      match get addOns "deepClean", get addOns "premiumLinen" with
      | Some dc, Some pl =>
          let deep := truthy dc in
          let linen := truthy pl in
          let base := base PRICING in
          match Number bedrooms, Number bathrooms with
          | Some bedroomsN, Some bathroomsN =>
              let bedroomsCost := Num.mul (or_zero bedroomsN) (perBedroom PRICING) in
              let bathroomsCost := Num.mul (or_zero bathroomsN) (perBathroom PRICING) in
              let deepCost := if deep then deepClean PRICING else Num.pzero in
              let linenCost := if linen then linenAddon PRICING else Num.pzero in
              let total :=
                Num.add (Num.add (Num.add (Num.add base bedroomsCost) bathroomsCost)
                           deepCost) linenCost in
              Some (VObj [ ("total", VNum total);
                           ("breakdown",
                             VObj [ ("base", VNum base);
                                    ("bedroomsCost", VNum bedroomsCost);
                                    ("bathroomsCost", VNum bathroomsCost);
                                    ("deepClean", VNum deepCost);
                                    ("premiumLinen", VNum linenCost) ]);
                           ("currency", VStr (currency PRICING)) ])
          | _, _ => None
          end
      | _, _ => None
      end
  | _, _, _ => None
  end.

(** Minimal field guards. *)
Definition isNonEmptyString (v : value) : bool :=
  String.eqb (typeof v) "string" &&
  match v with
  | VStr s => 0 <? Z.of_nat (String.length (Str.trim s))
  | _ => false
  end.

Definition isPositiveInt (v : Num.number) : bool :=
  Num.isInteger v && Num.ge v Num.pzero.

End Pricing.

(* ===================================================================== *)
(** ** The document store and the handler monad *)
(* ===================================================================== *)

Module Store.
Import Js.

(** What a handler asked of the store, in order. *)
Inductive op : Type :=
| OpAdd (coll id : string)
| OpGet (coll id : string)
| OpUpdate (coll id : string).

(** What [admin.firestore] exposes: the source probes for
    [FieldValue.serverTimestamp] and [Timestamp.now] before using them. *)
Record admin_sdk : Type := {
  has_FieldValue_serverTimestamp : bool;
  has_Timestamp_now : bool
}.

(** The world a handler runs in.  [docs] maps (collection, id) to the
    stored fields, the collection given by its path from the root; [now]
    is the current time in milliseconds and [ticks] how much time passes
    after each later observation of it; [online] tells whether the store
    answers the calls made on it (it does not when it cannot be reached,
    nor when it refuses a call). *)
Record world : Type := {
  docs : gmap (string * string) value;
  counter : nat;
  now : nat;
  ticks : list nat;
  online : bool;
  sdk : admin_sdk;
  trace : list op
}.

Definition with_docs (d : gmap (string * string) value) (w : world) : world :=
  {| docs := d; counter := counter w; now := now w; ticks := ticks w;
     online := online w; sdk := sdk w; trace := trace w |}.

Definition with_counter (c : nat) (w : world) : world :=
  {| docs := docs w; counter := c; now := now w; ticks := ticks w;
     online := online w; sdk := sdk w; trace := trace w |}.

Definition logged (o : op) (w : world) : world :=
  {| docs := docs w; counter := counter w; now := now w; ticks := ticks w;
     online := online w; sdk := sdk w; trace := trace w ++ [o] |}.

(** Time moves on by the next pending tick. *)
Definition advance (w : world) : world :=
  {| docs := docs w; counter := counter w;
     now := (now w + hd 0 (ticks w))%nat; ticks := tl (ticks w);
     online := online w; sdk := sdk w; trace := trace w |}.

(** A computation returns or throws. *)
Inductive outcome (A : Type) : Type :=
| Returned (a : A)
| Thrown.
Arguments Returned {A} a.
Arguments Thrown {A}.

Definition M (A : Type) : Type := world -> outcome A * world.

Definition ret {A} (a : A) : M A := fun w => (Returned a, w).

Definition bind {A B} (m : M A) (k : A -> M B) : M B :=
  fun w =>
    match m w with
    | (Returned a, w') => k a w'
    | (Thrown, w') => (Thrown, w')
    end.

Definition throw {A} : M A := fun w => (Thrown, w).

(** [try { m } catch (err) { h }]. *)
Definition try_catch {A} (m h : M A) : M A :=
  fun w =>
    match m w with
    | (Returned a, w') => (Returned a, w')
    | (Thrown, w') => h w'
    end.

(** A value that may be a TypeError. *)
Definition lift {A} (o : option A) : M A :=
  match o with
  | Some a => ret a
  | None => throw
  end.

(** [v.k] inside a handler. *)
Definition prop (v : value) (k : string) : M value := lift (get v k).

(** Reading the local clock ([Timestamp.now()], [new Date()]). *)
Definition read_clock : M nat := fun w => (Returned (now w), advance w).

(** On commit the store replaces every server-timestamp sentinel of the
    written data by the commit time. *)
Fixpoint resolve (t : nat) (v : value) : value :=
  match v with
  | VServerTimestamp => VTimestamp t
  | VObj fields => VObj (map (fun '(k, x) => (k, resolve t x)) fields)
  | _ => v
  end.

(** A key of an update is a field path, its segments separated by dots. *)
Fixpoint split_path (s : string) : list string :=
  match s with
  | EmptyString => [ "" ]
  | String c rest =>
      let l := split_path rest in
      if Ascii.eqb c "."%char then "" :: l
      else match l with
           | h :: t => String c h :: t
           | [] => [ String c "" ]
           end
  end.

Definition fields_of (v : value) : list (string * value) :=
  match v with
  | VObj fields => fields
  | _ => []
  end.

(** Set the field at a path, creating the maps on the way. *)
Fixpoint set_path (path : list string) (v : value) (doc : value) : value :=
  match path with
  | [] => v
  | k :: rest =>
      let fields := fields_of doc in
      VObj (set k (set_path rest v (lookup k fields)) fields)
  end.

Definition apply_update (t : nat) (upd : list (string * value)) (doc : value)
  : value :=
  fold_left (fun d kv => set_path (split_path (fst kv)) (resolve t (snd kv)) d)
            upd doc.

(** [s.split("/")]. *)
Fixpoint split_slash (s : string) : list string :=
  match s with
  | EmptyString => [ "" ]
  | String c rest =>
      let l := split_slash rest in
      if Ascii.eqb c "/"%char then "" :: l
      else match l with
           | h :: t => String c h :: t
           | [] => [ String c "" ]
           end
  end.

(** [s.indexOf("//") >= 0]. *)
Fixpoint double_slash (s : string) : bool :=
  match s with
  | String a (String b _ as rest) =>
      (Ascii.eqb a "/"%char && Ascii.eqb b "/"%char) || double_slash rest
  | _ => false
  end.

(** A document reference: the collection and the id the handler asked
    for, and the document they name, as its collection and its own id. *)
Record reference : Type := {
  asked : string * string;
  target : string * string
}.

(** [db.collection(coll).doc(id)], as the Firestore client resolves it:
    the id is a path relative to the collection; it must not be empty nor
    hold [//]; its empty segments (a leading or a trailing slash) are
    dropped; and the whole path must name a document, that is, have an
    even number of segments.  [None] is the Error the client throws
    otherwise, before anything is sent to the store. *)
Definition doc (coll id : string) : option reference :=
  if String.eqb id "" then None
  else if double_slash id then None
  else
    let segments :=
      List.filter (fun x => negb (String.eqb x "")) (split_slash id) in
    if Nat.even (length segments) then None
    else Some {| asked := (coll, id);
                 target := (String.concat "/" (coll :: List.removelast segments),
                            List.last segments "") |}.

(** [ref.id]. *)
Definition ref_id (r : reference) : string := snd (target r).

(** [await db.collection(coll).add(data)]: the id of the new document. *)
Definition db_add (coll : string) (data : value) : M string :=
  fun w =>
    let id := pretty (counter w) in
    let w1 := logged (OpAdd coll id) w in
    if online w then
      (Returned id,
       advance (with_counter (S (counter w))
                  (with_docs (<[(coll, id) := resolve (now w) data]> (docs w)) w1)))
    else (Thrown, w1).

(** [await docRef.get()]: the fields when the snapshot exists. *)
Definition db_get (r : reference) : M (option value) :=
  fun w =>
    let w1 := logged (OpGet (fst (asked r)) (snd (asked r))) w in
    if online w then (Returned (docs w !! target r), w1) else (Thrown, w1).

(** [await docRef.update(upd)]: fails when the document does not exist. *)
Definition db_update (r : reference) (upd : list (string * value)) : M unit :=
  fun w =>
    let w1 := logged (OpUpdate (fst (asked r)) (snd (asked r))) w in
    if online w then
      match docs w !! target r with
      | Some old =>
          (Returned tt,
           advance (with_docs (<[target r := apply_update (now w) upd old]> (docs w)) w1))
      | None => (Thrown, w1)
      end
    else (Thrown, w1).

End Store.

Declare Scope handler_scope.
Delimit Scope handler_scope with handler.
Notation "x <- m ;; k" := (Store.bind m (fun x => k))
  (at level 100, m at next level, right associativity) : handler_scope.

(* ===================================================================== *)
(** ** The Express handlers *)
(* ===================================================================== *)

Module Api.
Import Js Pricing Store.
Local Open Scope handler_scope.

Record response : Type := {
  status : Z;
  body : value
}.

(** [res.status(code).json(payload)]. *)
Definition json (code : Z) (payload : value) : M response :=
  ret {| status := code; body := payload |}.

(** Standard error responder. *)
Definition sendError (code : Z) (message : string)
  (extra : list (string * value)) : M response :=
  json code (VObj (spread [ ("ok", VBool false); ("error", VStr message) ] extra)).

Definition serverTimestamp : M value :=
  fun w =>
    if has_FieldValue_serverTimestamp (sdk w) then ret VServerTimestamp w
    else if has_Timestamp_now (sdk w) then
      (t <- read_clock ;; ret (VTimestamp t)) w
    else (t <- read_clock ;; ret (VStr (Str.toISOString (Z.of_nat t)))) w.

(** [!x || typeof x !== "object"]. *)
Definition not_an_object (x : value) : bool :=
  negb (truthy x) || negb (String.eqb (typeof x) "object").

(** [isNonEmptyString(x) ? String(x).trim() : null]. *)
Definition trimmed_or_null (x : value) : value :=
  if isNonEmptyString x then VStr (Str.trim (String_ x)) else VNull.

(** POST /quotes *)
Definition postQuotes (req_body : value) : M response :=
  try_catch
    (let body := or_else req_body (VObj []) in
     hostName <- prop body "hostName" ;;
     email <- prop body "email" ;;
     phone <- prop body "phone" ;;
     property <- prop body "property" ;;
     preferences0 <- prop body "preferences" ;;
     let preferences := default_to (VObj []) preferences0 in
     notes <- prop body "notes" ;;
     if negb (isNonEmptyString hostName) then
       sendError 400 "hostName is required" []
     else if negb (isNonEmptyString email) then
       sendError 400 "email is required" []
     else if not_an_object property then
       sendError 400 "property is required" []
     else
       address <- prop property "address" ;;
       bedrooms <- prop property "bedrooms" ;;
       bathrooms <- prop property "bathrooms" ;;
       if negb (isNonEmptyString address) then
         sendError 400 "property.address is required" []
       else
       bedroomsChecked <- lift (Number bedrooms) ;;
       if negb (isPositiveInt bedroomsChecked) then
         sendError 400 "property.bedrooms must be a non-negative integer" []
       else
       bathroomsChecked <- lift (Number bathrooms) ;;
       if negb (isPositiveInt bathroomsChecked) then
         sendError 400 "property.bathrooms must be a non-negative integer" []
       else
         addOns0 <- (if truthy preferences then prop preferences "addOns"
                     else ret preferences) ;;
         let addOns := or_else addOns0 (VObj []) in
         bedroomsPriced <- lift (Number bedrooms) ;;
         bathroomsPriced <- lift (Number bathrooms) ;;
         pricing <- lift (computeTurnoverPrice
                            (VObj [ ("bedrooms", VNum bedroomsPriced);
                                    ("bathrooms", VNum bathroomsPriced);
                                    ("addOns", addOns) ])) ;;
         bedroomsN <- lift (Number bedrooms) ;;
         bathroomsN <- lift (Number bathrooms) ;;
         deep <- prop addOns "deepClean" ;;
         linen <- prop addOns "premiumLinen" ;;
         createdAt <- serverTimestamp ;;
         updatedAt <- serverTimestamp ;;
         let data :=
           [ ("hostName", VStr (Str.trim (String_ hostName)));
             ("email", VStr (Str.trim (String_ email)));
             ("phone", trimmed_or_null phone);
             ("property",
               VObj [ ("address", VStr (Str.trim (String_ address)));
                      ("bedrooms", VNum bedroomsN);
                      ("bathrooms", VNum bathroomsN) ]);
             ("preferences",
               VObj [ ("addOns",
                        VObj [ ("deepClean", VBool (truthy deep));
                               ("premiumLinen", VBool (truthy linen)) ]) ]);
             ("notes", trimmed_or_null notes);
             ("pricing", pricing);
             ("currency", VStr (currency PRICING));
             ("status", VStr "quoted");
             ("createdAt", createdAt);
             ("updatedAt", updatedAt) ] in
         id <- db_add "quotes" (VObj data) ;;
         json 201 (VObj (spread [ ("ok", VBool true); ("id", VStr id) ] data)))
    (sendError 500 "Failed to create quote" []).

(** GET /quotes/:id, GET /jobs/:id and GET /linen/orders/:id differ in the
    collection and in the two messages. *)
Definition getById (coll missing failed : string) (id : string) : M response :=
  try_catch
    (ref <- lift (doc coll id) ;;
     snap <- db_get ref ;;
     match snap with
     | None => sendError 404 missing []
     | Some data =>
         json 200 (VObj (spread [ ("ok", VBool true); ("id", VStr (ref_id ref)) ]
                           (fields_of data)))
     end)
    (sendError 500 failed []).

Definition getQuote : string -> M response :=
  getById "quotes" "Quote not found" "Failed to fetch quote".

(** The pricing of a job: the caller's price when it is a number, the
    computed turnover price otherwise. *)
Definition jobPricing (price bedrooms bathrooms addOns : value) : option value :=
  if String.eqb (typeof price) "number" then
    match Number price, Number price with
    | Some total, Some customOverride =>
        Some (VObj [ ("total", VNum total);
                     ("breakdown", VObj [ ("customOverride", VNum customOverride) ]);
                     ("currency", VStr (currency PRICING)) ])
    | _, _ => None
    end
  else
    match Number bedrooms, Number bathrooms with
    | Some bedroomsN, Some bathroomsN =>
        computeTurnoverPrice
          (VObj [ ("bedrooms", VNum bedroomsN);
                  ("bathrooms", VNum bathroomsN);
                  ("addOns", addOns) ])
    | _, _ => None
    end.

(** POST /jobs *)
Definition postJobs (req_body : value) : M response :=
  try_catch
    (let body := or_else req_body (VObj []) in
     quoteId <- prop body "quoteId" ;;
     schedule <- prop body "schedule" ;;
     property <- prop body "property" ;;
     addOns0 <- prop body "addOns" ;;
     let addOns := default_to (VObj []) addOns0 in
     price <- prop body "price" ;;
     notes <- prop body "notes" ;;
     if not_an_object schedule then
       sendError 400 "schedule is required" []
     else
       start <- prop schedule "start" ;;
       end_ <- prop schedule "end" ;;
       if negb (isNonEmptyString start) then
         sendError 400 "schedule.start is required (ISO string)" []
       else if negb (isNonEmptyString end_) then
         sendError 400 "schedule.end is required (ISO string)" []
       else if not_an_object property then
         sendError 400 "property is required" []
       else
         address <- prop property "address" ;;
         bedrooms <- prop property "bedrooms" ;;
         bathrooms <- prop property "bathrooms" ;;
         if negb (isNonEmptyString address) then
           sendError 400 "property.address is required" []
         else
         bedroomsChecked <- lift (Number bedrooms) ;;
         if negb (isPositiveInt bedroomsChecked) then
           sendError 400 "property.bedrooms must be a non-negative integer" []
         else
         bathroomsChecked <- lift (Number bathrooms) ;;
         if negb (isPositiveInt bathroomsChecked) then
           sendError 400 "property.bathrooms must be a non-negative integer" []
         else
           pricing <- lift (jobPricing price bedrooms bathrooms addOns) ;;
           linenFlag <- prop addOns "premiumLinen" ;;
           let checklistDefault :=
             VObj [ ("bathroomsDone", VBool false);
                    ("kitchenDone", VBool false);
                    ("floorsDone", VBool false);
                    ("trashOut", VBool false);
                    ("linensChanged", VBool (truthy linenFlag));
                    ("restockSupplies", VBool false);
                    ("photosTaken", VBool false) ] in
           bedroomsN <- lift (Number bedrooms) ;;
           bathroomsN <- lift (Number bathrooms) ;;
           deep <- prop addOns "deepClean" ;;
           linen <- prop addOns "premiumLinen" ;;
           createdAt <- serverTimestamp ;;
           updatedAt <- serverTimestamp ;;
           let data :=
             [ ("quoteId", trimmed_or_null quoteId);
               ("schedule",
                 VObj [ ("start", VStr (String_ start));
                        ("end", VStr (String_ end_)) ]);
               ("property",
                 VObj [ ("address", VStr (Str.trim (String_ address)));
                        ("bedrooms", VNum bedroomsN);
                        ("bathrooms", VNum bathroomsN) ]);
               ("addOns",
                 VObj [ ("deepClean", VBool (truthy deep));
                        ("premiumLinen", VBool (truthy linen)) ]);
               ("pricing", pricing);
               ("currency", VStr (currency PRICING));
               ("status", VStr "scheduled");
               ("checklist", checklistDefault);
               ("notes", trimmed_or_null notes);
               ("createdAt", createdAt);
               ("updatedAt", updatedAt) ] in
           id <- db_add "jobs" (VObj data) ;;
           json 201 (VObj (spread [ ("ok", VBool true); ("id", VStr id) ] data)))
    (sendError 500 "Failed to create job" []).

Definition allowedKeys : list string :=
  [ "bathroomsDone"; "kitchenDone"; "floorsDone"; "trashOut";
    "linensChanged"; "restockSupplies"; "photosTaken" ].

(** [allowedKeys.includes(k)]. *)
Definition includes (keys : list string) (k : string) : bool :=
  existsb (String.eqb k) keys.

(** The loop over [Object.entries(body)] that builds the dot-path update:
    [inl k] when it returns early on the non-boolean field [k], otherwise
    the update object and [hasAny]. *)
Fixpoint checklistLoop (es : list (string * value))
  (update : list (string * value)) (hasAny : bool)
  : string + list (string * value) * bool :=
  match es with
  | [] => inr (update, hasAny)
  | (k, v) :: rest =>
      if negb (includes allowedKeys k) then checklistLoop rest update hasAny
      else if negb (String.eqb (typeof v) "boolean") then inl k
      else checklistLoop rest (set ("checklist." ++ k) v update) true
  end.

(** PATCH /jobs/:id/checklist *)
Definition patchChecklist (id : string) (req_body : value) : M response :=
  try_catch
    (let body := or_else req_body (VObj []) in
     if not_an_object body then
       sendError 400 "Request body must be an object" []
     else
       match checklistLoop (entries body) [] false with
       | inl k =>
           sendError 400 ("Checklist field " ++ k ++ " must be boolean") []
       | inr (update0, hasAny) =>
           if negb hasAny then
             sendError 400 "No valid checklist fields provided" []
           else
             stamp <- serverTimestamp ;;
             let update := set "updatedAt" stamp update0 in
             docRef <- lift (doc "jobs" id) ;;
             snap <- db_get docRef ;;
             match snap with
             | None => sendError 404 "Job not found" []
             | Some _ =>
                 _ <- db_update docRef update ;;
                 updated <- db_get docRef ;;
                 json 200
                   (VObj (spread [ ("ok", VBool true);
                                   ("id", VStr (ref_id docRef)) ]
                            (fields_of (default (VObj []) updated))))
             end
       end)
    (sendError 500 "Failed to update checklist" []).

Definition getJob : string -> M response :=
  getById "jobs" "Job not found" "Failed to fetch job".

(** [Number(items.k) || 0]. *)
Definition itemCount (items : value) (k : string) : M value :=
  x <- prop items k ;; n <- lift (Number x) ;; ret (VNum (or_zero n)).

(** POST /linen/orders *)
Definition postLinenOrders (req_body : value) : M response :=
  try_catch
    (let body := or_else req_body (VObj []) in
     jobId <- prop body "jobId" ;;
     property <- prop body "property" ;;
     items0 <- prop body "items" ;;
     let items := default_to (VObj []) items0 in
     pickupAt <- prop body "pickupAt" ;;
     returnAt <- prop body "returnAt" ;;
     notes <- prop body "notes" ;;
     if not_an_object property then
       json 400 (VObj [ ("ok", VBool false); ("error", VStr "property is required") ])
     else
       address <- prop property "address" ;;
       if negb (isNonEmptyString address) then
         json 400 (VObj [ ("ok", VBool false);
                          ("error", VStr "property.address is required") ])
       else if negb (isNonEmptyString pickupAt) || negb (isNonEmptyString returnAt) then
         json 400 (VObj [ ("ok", VBool false);
                          ("error", VStr "pickupAt and returnAt are required") ])
       else
         let pricing :=
           VObj [ ("total", VNum (linenStandalone PRICING));
                  ("breakdown",
                    VObj [ ("pickup", VNum (Num.of_Z 10));
                           ("processing", VNum (Num.of_Z 25));
                           ("delivery", VNum (Num.of_Z 10)) ]);
                  ("currency", VStr (currency PRICING)) ] in
         queenSets <- itemCount items "queenSets" ;;
         doubleSets <- itemCount items "doubleSets" ;;
         singleSets <- itemCount items "singleSets" ;;
         towelSets <- itemCount items "towelSets" ;;
         bathMats <- itemCount items "bathMats" ;;
         teaTowels <- itemCount items "teaTowels" ;;
         createdAt <- serverTimestamp ;;
         updatedAt <- serverTimestamp ;;
         let data :=
           [ ("jobId", trimmed_or_null jobId);
             ("property", VObj [ ("address", VStr (Str.trim (String_ address))) ]);
             ("items",
               VObj [ ("queenSets", queenSets);
                      ("doubleSets", doubleSets);
                      ("singleSets", singleSets);
                      ("towelSets", towelSets);
                      ("bathMats", bathMats);
                      ("teaTowels", teaTowels) ]);
             ("schedule",
               VObj [ ("pickupAt", VStr (String_ pickupAt));
                      ("returnAt", VStr (String_ returnAt)) ]);
             ("pricing", pricing);
             ("currency", VStr (currency PRICING));
             ("status", VStr "scheduled");
             ("notes", trimmed_or_null notes);
             ("createdAt", createdAt);
             ("updatedAt", updatedAt) ] in
         id <- db_add "linen_orders" (VObj data) ;;
         json 201 (VObj (spread [ ("ok", VBool true); ("id", VStr id) ] data)))
    (json 500 (VObj [ ("ok", VBool false); ("error", VStr "linen_order_failed") ])).

Definition getLinenOrder : string -> M response :=
  getById "linen_orders" "Linen order not found" "Failed to fetch linen order".

(** JSON 404 fallback. *)
Definition notFound (path : string) : M response :=
  json 404 (VObj [ ("ok", VBool false); ("error", VStr "Not Found");
                   ("path", VStr path) ]).

(** The routes that reach the store, and the fallback.  The content-type
    check and the root and health routes answer without calling the
    store. *)
Inductive request : Type :=
| PostQuotes (req_body : value)
| GetQuote (id : string)
| PostJobs (req_body : value)
| PatchChecklist (id : string) (req_body : value)
| GetJob (id : string)
| PostLinenOrders (req_body : value)
| GetLinenOrder (id : string)
| Unmatched (path : string).

Definition handle (r : request) : M response :=
  match r with
  | PostQuotes b => postQuotes b
  | GetQuote id => getQuote id
  | PostJobs b => postJobs b
  | PatchChecklist id b => patchChecklist id b
  | GetJob id => getJob id
  | PostLinenOrders b => postLinenOrders b
  | GetLinenOrder id => getLinenOrder id
  | Unmatched path => notFound path
  end.

End Api.

(* ===================================================================== *)
(** ** Vocabulary of the specification *)
(* ===================================================================== *)

Module Spec.
Import Js Pricing Store Api.

(** [v.k] where the claims read a field of a request or of a document:
    [undefined] when there is nothing to read from. *)
Definition read (v : value) (k : string) : value :=
  match get v k with
  | Some x => x
  | None => VUndefined
  end.

(** [null] and [undefined], on which a property access throws. *)
Definition nullish (v : value) : bool :=
  match v with
  | VUndefined | VNull => true
  | _ => false
  end.

(** A positive mantissa [m] and an exponent [e] denote the integer [n]:
    [m * 2^e = n], stated without negative powers. *)
Definition repr (m : positive) (e n : Z) : Prop :=
  exists K, 0 <= K /\ 0 <= e + K /\ Zpos m * 2 ^ (e + K) = n * 2 ^ K.

(** Zero, positive finite, [+Infinity] or NaN: what sums of fees are. *)
Definition unsigned (x : Num.number) : Prop :=
  match x with
  | S754_zero true | S754_infinity true | S754_finite true _ _ => False
  | _ => True
  end.

(** The same, or [-0]. *)
Definition not_negative (x : Num.number) : Prop :=
  match x with
  | S754_infinity true | S754_finite true _ _ => False
  | _ => True
  end.

(** The argument object of [computeTurnoverPrice]. *)
Definition turnoverArg (bedrooms bathrooms addOns : value) : value :=
  VObj [ ("bedrooms", bedrooms); ("bathrooms", bathrooms); ("addOns", addOns) ].

Definition addOnFlags (deep linen : bool) : value :=
  VObj [ ("deepClean", VBool deep); ("premiumLinen", VBool linen) ].

(** The fee of an add-on, as an integer. *)
Definition flagFee (flag : bool) (fee : Z) : Z := if flag then fee else 0.

(** The price override of a job. *)
Definition overridePricing (p : Num.number) : value :=
  VObj [ ("total", VNum p);
         ("breakdown", VObj [ ("customOverride", VNum p) ]);
         ("currency", VStr "AUD") ].

(** The flat pricing of a linen order. *)
Definition flatLinenPricing : value :=
  VObj [ ("total", VNum (Num.of_Z 45));
         ("breakdown",
           VObj [ ("pickup", VNum (Num.of_Z 10));
                  ("processing", VNum (Num.of_Z 25));
                  ("delivery", VNum (Num.of_Z 10)) ]);
         ("currency", VStr "AUD") ].

(** The checklist of a new job. *)
Definition checklistOf (linensChanged : bool) : value :=
  VObj [ ("bathroomsDone", VBool false); ("kitchenDone", VBool false);
         ("floorsDone", VBool false); ("trashOut", VBool false);
         ("linensChanged", VBool linensChanged);
         ("restockSupplies", VBool false); ("photosTaken", VBool false) ].

(** An error body, [{ ok: false, error: message }]. *)
Definition errorBody (message : string) : value :=
  VObj [ ("ok", VBool false); ("error", VStr message) ].

Definition rejected (code : Z) (message : string) : response :=
  {| status := code; body := errorBody message |}.

(** An id that is a single path segment: not empty, without a slash. *)
Fixpoint has_slash (s : string) : bool :=
  match s with
  | EmptyString => false
  | String c rest => Ascii.eqb c "/"%char || has_slash rest
  end.

Definition plain_id (id : string) : bool :=
  negb (String.eqb id "") && negb (has_slash id).

(** The reference to the document [id] of the collection [coll]. *)
Definition plain_ref (coll id : string) : reference :=
  {| asked := (coll, id); target := (coll, id) |}.

(** What holds of the response and of the world after it when a creation
    handler answers 201. *)
Definition on_created (r : outcome response * world)
  (Q : response -> world -> Prop) : Prop :=
  match r with
  | (Returned resp, w') => status resp = 201 -> Q resp w'
  | (Thrown, _) => True
  end.

(** The handler answers 201, and [Q] holds of the response and of the
    world after it. *)
Definition created_with (r : outcome response * world)
  (Q : response -> world -> Prop) : Prop :=
  exists resp w', r = (Returned resp, w') /\ status resp = 201 /\ Q resp w'.

(** The response of a run, for runs that return one. *)
Definition response_of (r : outcome response * world) : response :=
  match fst r with
  | Returned resp => resp
  | Thrown => {| status := 0; body := VUndefined |}
  end.

(** Nothing of the store changed between two worlds (time may have). *)
Definition same_store (w w1 : world) : Prop :=
  docs w1 = docs w /\ counter w1 = counter w /\ online w1 = online w
  /\ sdk w1 = sdk w /\ trace w1 = trace w.

(** [pricing.total] is the sum of the values of [pricing.breakdown]. *)
Definition sums_up (pricing : value) : Prop :=
  Num.sum (numeric_values (read pricing "breakdown"))
  = ToNumber (read pricing "total").

(** The pricing of a document. *)
Definition pricing_of (doc : value) : value := read doc "pricing".

(** Requests that pass the guards of the creation handlers, and on which
    nothing that the handler evaluates after the guards throws. *)
Definition valid_property (property : value) : Prop :=
  isNonEmptyString (read property "address") = true
  /\ isPositiveInt (ToNumber (read property "bedrooms")) = true
  /\ isPositiveInt (ToNumber (read property "bathrooms")) = true.

Definition valid_quote (req : value) : Prop :=
  isNonEmptyString (read req "hostName") = true
  /\ isNonEmptyString (read req "email") = true
  /\ valid_property (read req "property").

Definition valid_job (req : value) : Prop :=
  isNonEmptyString (read (read req "schedule") "start") = true
  /\ isNonEmptyString (read (read req "schedule") "end") = true
  /\ valid_property (read req "property")
  /\ read req "addOns" <> VNull.

(** The six item counts of a linen order. *)
Definition itemKeys : list string :=
  [ "queenSets"; "doubleSets"; "singleSets"; "towelSets"; "bathMats";
    "teaTowels" ].

Definition valid_linen_order (req : value) : Prop :=
  isNonEmptyString (read (read req "property") "address") = true
  /\ isNonEmptyString (read req "pickupAt") = true
  /\ isNonEmptyString (read req "returnAt") = true
  /\ read req "items" <> VNull
  /\ forall k, In k itemKeys ->
       no_primitive (read (read req "items") k) = false.

(** The verdict of a creation handler on the two room counts, taken in
    order: a 400 naming the first count whose coercion is not a
    non-negative integer, the handler's 500 when the coercion of a count
    throws, and no 400 when both pass; nothing is changed on the way. *)
Definition count_verdict (run : outcome response * world) (w : world)
  (failed : string) (bedrooms bathrooms : value) : Prop :=
  (forall n, Number bedrooms = Some n -> isPositiveInt n = false ->
     run = (Returned (rejected 400
                        "property.bedrooms must be a non-negative integer"), w))
  /\ (Number bedrooms = None -> run = (Returned (rejected 500 failed), w))
  /\ (forall n, Number bedrooms = Some n -> isPositiveInt n = true ->
      (forall m, Number bathrooms = Some m -> isPositiveInt m = false ->
         run = (Returned (rejected 400
                            "property.bathrooms must be a non-negative integer"),
                w))
      /\ (Number bathrooms = None -> run = (Returned (rejected 500 failed), w))
      /\ (forall m, Number bathrooms = Some m -> isPositiveInt m = true ->
            status (response_of run) <> 400)).

(** A recognized checklist key. *)
Definition recognized (kv : string * value) : bool :=
  includes allowedKeys (fst kv).

Definition is_boolean (v : value) : bool := String.eqb (typeof v) "boolean".

(** The body of a checklist update is invalid when a recognized key holds
    a non-boolean value, or when no key is recognized. *)
Definition bad_field (es : list (string * value)) : Prop :=
  exists k v, In (k, v) es /\ recognized (k, v) = true /\ is_boolean v = false.

Definition no_field (es : list (string * value)) : Prop :=
  forall k v, In (k, v) es -> recognized (k, v) = false.

Definition invalid_checklist_body (req : value) : Prop :=
  let es := entries (or_else req (VObj [])) in bad_field es \/ no_field es.

(** The two timestamps of a document agree. *)
Definition stamps_agree (doc : value) : Prop :=
  read doc "createdAt" = read doc "updatedAt".

(** The collections without an update endpoint. *)
Definition immutable_collection (coll : string) : Prop :=
  coll = "quotes" \/ coll = "linen_orders".

Definition immutable_stamps_agree (w : world) : Prop :=
  forall coll id doc,
    immutable_collection coll -> docs w !! (coll, id) = Some doc ->
    stamps_agree doc.

(** What a handler may do to the store: nothing; or create one document
    under the next id, with timestamps that agree when it goes to an
    immutable collection; or replace one existing document outside the
    immutable collections. *)
Definition writes_ok (w w' : world) : Prop :=
  sdk w' = sdk w
  /\ ((docs w' = docs w /\ counter w' = counter w)
      \/ (exists coll doc,
            docs w' = <[(coll, pretty (counter w)) := doc]> (docs w)
            /\ counter w' = S (counter w)
            /\ (immutable_collection coll -> stamps_agree doc))
      \/ (exists key old doc,
            ~ immutable_collection (fst key)
            /\ docs w !! key = Some old
            /\ docs w' = <[key := doc]> (docs w)
            /\ counter w' = counter w)).

(** Every stored document sits under an id the store has already given
    out. *)
Definition ids_issued (w : world) : Prop :=
  forall coll id,
    is_Some (docs w !! (coll, id)) ->
    exists n, id = pretty n /\ (n < counter w)%nat.

(** The service runs: requests are handled one after the other, and
    between two of them the environment may let time pass and the store
    go off line or come back. *)
Inductive step : world -> world -> Prop :=
| step_request (r : request) (w : world) :
    step w (snd (handle r w))
| step_environment (w w' : world) :
    docs w' = docs w -> counter w' = counter w -> sdk w' = sdk w ->
    step w w'.

Inductive reachable (w0 : world) : world -> Prop :=
| reachable_start : reachable w0 w0
| reachable_step (w w' : world) :
    reachable w0 w -> step w w' -> reachable w0 w'.

(** Sample requests and a sample world, used to exercise the theorems. *)
Definition sampleProperty (bedrooms bathrooms : value) : value :=
  VObj [ ("address", VStr "1 Main St");
         ("bedrooms", bedrooms); ("bathrooms", bathrooms) ].

Definition sampleQuote : value :=
  VObj [ ("hostName", VStr "Alex"); ("email", VStr "a@b.com");
         ("property", sampleProperty (VNum (Num.of_Z 2)) (VNum (Num.of_Z 1))) ].

Definition sampleJob (extra : list (string * value)) : value :=
  VObj ([ ("schedule",
            VObj [ ("start", VStr "2026-01-05T09:00:00Z");
                   ("end", VStr "2026-01-05T11:00:00Z") ]);
          ("property", sampleProperty (VNum (Num.of_Z 2)) (VNum (Num.of_Z 1)));
          ("addOns", VObj [ ("premiumLinen", VBool true) ]) ] ++ extra).

Definition sampleLinenOrder : value :=
  VObj [ ("property", VObj [ ("address", VStr "1 Main St") ]);
         ("items", VObj [ ("queenSets", VNum (Num.of_Z 3));
                          ("towelSets", VStr "many") ]);
         ("pickupAt", VStr "2026-01-05T09:00:00Z");
         ("returnAt", VStr "2026-01-07T09:00:00Z") ].

Definition firebaseAdmin : admin_sdk :=
  {| has_FieldValue_serverTimestamp := true; has_Timestamp_now := true |}.

Definition emptyWorld : world :=
  {| docs := ∅; counter := 0; now := 1000; ticks := [ 5; 0; 7 ]%nat;
     online := true; sdk := firebaseAdmin; trace := [] |}.

End Spec.

(* ===================================================================== *)
(** ** The content-type check in front of the handlers *)
(* ===================================================================== *)

Module Http.
Import Js Pricing Store Api.

(** [s.includes(needle)]. *)
Fixpoint str_includes (s needle : string) : bool :=
  match Str.strip_prefix needle s with
  | Some _ => true
  | None =>
      match s with
      | EmptyString => false
      | String _ rest => str_includes rest needle
      end
  end.

(** The middleware that enforces a JSON content type on POST, PATCH and
    PUT: [contentType] is [req.headers["content-type"]], absent or a
    string, and [next] the rest of the chain. *)
Definition requireJson (method : string) (contentType : option string)
  (next : M response) : M response :=
  if includes [ "POST"; "PATCH"; "PUT" ] method then
    let ct := match contentType with
              | Some s => if String.eqb s "" then "" else s
              | None => ""
              end in
    if negb (str_includes ct "application/json") then
      sendError 415 "Content-Type must be application/json" []
    else next
  else next.

End Http.

(* ===================================================================== *)
(** ** Vocabulary for the life of a document *)
(* ===================================================================== *)

Module Life.
Import Js Pricing Store Api Spec.

(** The status codes the handlers answer with. *)
Definition known_status (s : Z) : Prop :=
  s = 200 \/ s = 201 \/ s = 400 \/ s = 404 \/ s = 500.

(** An error body carries [ok: false] and a message. *)
Definition error_shape (payload : value) : Prop :=
  read payload "ok" = VBool false
  /\ exists message, read payload "error" = VStr message.

(** What every run of a handler satisfies: it returns a response, with a
    known status; an error status comes with an error body; a 400
    leaves the world as it was; and with the store off line no success is
    reported and nothing is written. *)
Definition profile (w : world) (run : outcome response * world) : Prop :=
  match run with
  | (Returned resp, w') =>
      known_status (status resp)
      /\ ((400 <=? status resp) = true -> error_shape (body resp))
      /\ (status resp = 400 -> w' = w)
      /\ (online w = false ->
          status resp <> 200 /\ status resp <> 201
          /\ docs w' = docs w /\ counter w' = counter w)
  | (Thrown, _) => False
  end.

(** After a creation answered with [resp], fetching the new id answers
    200 with the same fields, the server timestamps resolved. *)
Definition fetched_back (fetch : string -> M response) (coll : string)
  (w : world) (resp : response) (w' : world) : Prop :=
  let id := pretty (counter w) in
  read (body resp) "id" = VStr id
  /\ exists t,
       fetch id w'
       = (Returned {| status := 200; body := resolve t (body resp) |},
          logged (OpGet coll id) w').

(** The stored document can be priced again from its own fields. *)
Definition reprices (doc addOns : value) : Prop :=
  computeTurnoverPrice
    (turnoverArg (read (read doc "property") "bedrooms")
                 (read (read doc "property") "bathrooms") addOns)
  = Some (pricing_of doc).

(** An entry of the dot-path update of a checklist: a recognized key under
    [checklist.], with a boolean. *)
Definition checklist_entry (kv : string * value) : Prop :=
  exists k b,
    kv = ("checklist." ++ k, VBool b) /\ includes allowedKeys k = true.

(** A checklist of the seven booleans, in the order of creation. *)
Definition checklist_shape (c : value) : Prop :=
  exists flags : list bool,
    length flags = 7%nat /\ c = VObj (combine allowedKeys (map VBool flags)).

(** The timestamps of a job at time [t]: created no later than updated,
    updated no later than [t]. *)
Definition stamps_ordered (t : nat) (doc : value) : Prop :=
  exists c u,
    read doc "createdAt" = VTimestamp c /\ read doc "updatedAt" = VTimestamp u
    /\ (c <= u <= t)%nat.

Definition job_ok (t : nat) (doc : value) : Prop :=
  stamps_ordered t doc /\ checklist_shape (read doc "checklist").

(** The two invariants of the jobs collection. *)
Definition checklists_ok (w : world) : Prop :=
  forall id doc,
    docs w !! ("jobs", id) = Some doc -> checklist_shape (read doc "checklist").

Definition stamps_ok (w : world) : Prop :=
  forall id doc,
    docs w !! ("jobs", id) = Some doc -> stamps_ordered (now w) doc.

(** What a handler does to the jobs: nothing; or create one, stamped with
    the time of the write; or apply a checklist update to an existing one,
    stamping [updatedAt] with the time of the write. *)
Definition job_writes (w w' : world) : Prop :=
  sdk w' = sdk w /\ (now w <= now w')%nat
  /\ ((forall id, docs w' !! ("jobs", id) = docs w !! ("jobs", id))
      \/ (exists doc,
            docs w' = <[("jobs", pretty (counter w)) := doc]> (docs w)
            /\ job_ok (now w) doc
            /\ read doc "createdAt" = read doc "updatedAt")
      \/ (exists id old upd,
            docs w !! ("jobs", id) = Some old
            /\ Forall checklist_entry upd
            /\ docs w' =
               <[("jobs", id) :=
                   apply_update (now w)
                     (upd ++ [ ("updatedAt", VServerTimestamp) ])%list old]>
                 (docs w))).

(** What holds of the response and of the world after it when the
    checklist update answers 200. *)
Definition on_updated (r : outcome response * world)
  (Q : response -> world -> Prop) : Prop :=
  match r with
  | (Returned resp, w') => status resp = 200 -> Q resp w'
  | (Thrown, _) => True
  end.

(** Every document of [w] is still there in [w']. *)
Definition keeps (w w' : world) : Prop :=
  forall k, is_Some (docs w !! k) -> is_Some (docs w' !! k).

(** A run of the service in which time does not go backwards. *)
Inductive forward (w0 : world) : world -> Prop :=
| forward_start : forward w0 w0
| forward_step (w w' : world) :
    forward w0 w -> step w w' -> (now w <= now w')%nat -> forward w0 w'.

End Life.

(* ===================================================================== *)
(** ** Integer arithmetic on doubles is exact below [2^53] *)
(* ===================================================================== *)

Import Js Pricing Store Api Spec.

Section NumFacts.
Lemma repr_pos m e n : repr m e n -> 0 < n.
Proof.
  intros (K & HK & HeK & H).
  assert (0 < 2 ^ (e + K)) by (apply Z.pow_pos_nonneg; lia).
  assert (0 < 2 ^ K) by (apply Z.pow_pos_nonneg; lia).
  destruct (Z.lt_ge_cases 0 n) as [|Hn]; [assumption|].
  assert (n * 2 ^ K <= 0) by (apply Z.mul_nonpos_nonneg; lia).
  assert (0 < Zpos m * 2 ^ (e + K)) by (apply Z.mul_pos_pos; lia).
  lia.
Qed.

Lemma repr_nonneg_exp m e n : 0 <= e -> repr m e n -> n = Zpos m * 2 ^ e.
Proof.
  intros He (K & HK & HeK & H).
  rewrite Z.pow_add_r in H by lia.
  assert (0 < 2 ^ K) by (apply Z.pow_pos_nonneg; lia).
  apply Z.mul_reg_r with (2 ^ K); [lia | rewrite <- H; ring].
Qed.

Lemma repr_neg_exp m e n : e < 0 -> repr m e n -> Zpos m = n * 2 ^ (- e).
Proof.
  intros He (K & HK & HeK & H).
  replace (2 ^ K) with (2 ^ (- e) * 2 ^ (e + K)) in H
    by (rewrite <- Z.pow_add_r by lia; f_equal; lia).
  assert (0 < 2 ^ (e + K)) by (apply Z.pow_pos_nonneg; lia).
  apply Z.mul_reg_r with (2 ^ (e + K)); [lia | rewrite H; ring].
Qed.

Lemma repr_of_nonneg_exp m e : 0 <= e -> repr m e (Zpos m * 2 ^ e).
Proof. intros He. exists 0. rewrite Z.add_0_r. simpl. lia. Qed.

Lemma repr_of_neg_exp m e n : e < 0 -> Zpos m = n * 2 ^ (- e) -> repr m e n.
Proof.
  intros He H. exists (- e). replace (e + - e) with 0 by lia.
  simpl (2 ^ 0). lia.
Qed.

Lemma repr_weaken m e n K K' :
  0 <= K <= K' -> 0 <= e + K ->
  Zpos m * 2 ^ (e + K) = n * 2 ^ K -> Zpos m * 2 ^ (e + K') = n * 2 ^ K'.
Proof.
  intros HK HeK H.
  replace (e + K') with ((e + K) + (K' - K)) by lia.
  replace K' with (K + (K' - K)) at 2 by lia.
  rewrite (Z.pow_add_r 2 (e + K) (K' - K)), (Z.pow_add_r 2 K (K' - K)) by lia.
  rewrite !Z.mul_assoc, H. reflexivity.
Qed.

Lemma intValue_finite s m e n :
  repr m e n -> Num.intValue (S754_finite s m e) = Some (cond_Zopp s n).
Proof.
  intros H. unfold Num.intValue.
  destruct (Z.leb_spec 0 e) as [He|He].
  - rewrite (repr_nonneg_exp _ _ _ He H). reflexivity.
  - pose proof (repr_neg_exp _ _ _ He H) as Hm.
    assert (0 < 2 ^ (- e)) by (apply Z.pow_pos_nonneg; lia).
    rewrite Hm, Z.mod_mul, Z.eqb_refl, Z.div_mul by lia. reflexivity.
Qed.

Lemma intValue_finite_inv s m e v :
  Num.intValue (S754_finite s m e) = Some v ->
  exists n, repr m e n /\ v = cond_Zopp s n.
Proof.
  unfold Num.intValue.
  destruct (Z.leb_spec 0 e) as [He|He].
  - intros [= <-]. eexists; split; [apply repr_of_nonneg_exp; lia | reflexivity].
  - destruct (Z.eqb_spec (Zpos m mod 2 ^ (- e)) 0) as [Hz|]; [|discriminate].
    intros [= <-]. eexists; split; [|reflexivity].
    apply repr_of_neg_exp; [lia|].
    assert (0 < 2 ^ (- e)) by (apply Z.pow_pos_nonneg; lia).
    rewrite Z.mul_comm. apply Z.div_exact; lia.
Qed.


Lemma digits2_size p : digits2_pos p = Pos.size p.
Proof. induction p; simpl; congruence. Qed.

Lemma digits_bounds p :
  2 ^ (Zpos (digits2_pos p) - 1) <= Zpos p < 2 ^ Zpos (digits2_pos p).
Proof.
  rewrite digits2_size.
  pose proof (Pos.size_gt p) as Hgt. pose proof (Pos.size_le p) as Hle.
  apply Pos2Z.pos_lt_pos in Hgt. apply Pos2Z.pos_le_pos in Hle.
  rewrite Pos2Z.inj_pow in Hgt, Hle.
  split; [|exact Hgt].
  replace (Zpos (Pos.size p)) with (1 + (Zpos (Pos.size p) - 1)) in Hle by lia.
  rewrite Z.pow_add_r in Hle by lia.
  change (2 ^ 1) with 2 in Hle. lia.
Qed.

Lemma digits_unique p c :
  2 ^ (c - 1) <= Zpos p < 2 ^ c -> Zpos (digits2_pos p) = c.
Proof.
  intros [Hlo Hhi]. pose proof (digits_bounds p) as [Hlo' Hhi'].
  set (d := Zpos (digits2_pos p)) in *.
  assert (0 < c).
  { destruct (Z.lt_ge_cases 0 c); [assumption|].
    assert (2 ^ c <= 2 ^ 0) by (destruct (Z.eq_dec c 0) as [->|];
      [lia | rewrite Z.pow_neg_r by lia; simpl; lia]).
    simpl in *. lia. }
  destruct (Z.lt_trichotomy d c) as [Hlt|[Heq|Hgt]]; [|assumption|].
  - assert (2 ^ d <= 2 ^ (c - 1)) by (apply Z.pow_le_mono_r; lia). lia.
  - assert (2 ^ c <= 2 ^ (d - 1)) by (apply Z.pow_le_mono_r; lia). lia.
Qed.

Lemma shr_1_even q :
  shr_1 {| shr_m := 2 * q; shr_r := false; shr_s := false |}
  = {| shr_m := q; shr_r := false; shr_s := false |}.
Proof. destruct q; reflexivity. Qed.

Lemma iter_shr_1 p : forall q,
  SpecFloat.iter_pos shr_1 p {| shr_m := q * 2 ^ Zpos p; shr_r := false; shr_s := false |}
  = {| shr_m := q; shr_r := false; shr_s := false |}.
Proof.
  induction p as [p IH|p IH|]; intros q; cbn [SpecFloat.iter_pos].
  - replace (q * 2 ^ Zpos p~1) with (2 * (q * 2 ^ Zpos p * 2 ^ Zpos p)).
    + rewrite shr_1_even, !IH. reflexivity.
    + rewrite (Pos2Z.inj_xI p), Z.pow_add_r, Z.pow_mul_r by lia.
      change (2 ^ 2) with 4. change (2 ^ 1) with 2.
      replace 4 with (2 * 2) by reflexivity.
      rewrite Z.pow_mul_l. ring.
  - replace (q * 2 ^ Zpos p~0) with (q * 2 ^ Zpos p * 2 ^ Zpos p).
    + rewrite !IH. reflexivity.
    + rewrite (Pos2Z.inj_xO p), Z.pow_mul_r by lia.
      change (2 ^ 2) with 4. replace 4 with (2 * 2) by reflexivity.
      rewrite Z.pow_mul_l. ring.
  - change (2 ^ 1) with 2. rewrite Z.mul_comm. apply shr_1_even.
Qed.

Lemma iter_xO p d : Zpos (Pos.iter xO p d) = Zpos p * 2 ^ Zpos d.
Proof.
  revert p. induction d as [|d IH] using Pos.peano_ind; intros p.
  - simpl. lia.
  - rewrite Pos.iter_succ, Pos2Z.inj_xO, IH, Pos2Z.inj_succ, Z.pow_succ_r by lia.
    ring.
Qed.

(** Rounding a positive integer below [2^53] changes nothing. *)
Lemma round_aux_exact s m e n :
  repr m e n -> n < 2 ^ 53 ->
  Num.intValue (binary_round_aux Num.prec Num.emax s (Zpos m) e loc_Exact)
  = Some (cond_Zopp s n).
Proof.
  intros Hr Hn.
  pose proof (repr_pos _ _ _ Hr) as Hpos.
  pose proof (digits_bounds m) as [Hlo Hhi].
  set (d := Zpos (digits2_pos m)) in *.
  assert (Hd1 : 1 <= d) by (unfold d; lia).
  assert (Hde : 1 <= d + e <= 53).
  { destruct (Z.lt_ge_cases e 0) as [He|He].
    - pose proof (repr_neg_exp _ _ _ He Hr) as Hm.
      assert (0 < 2 ^ (- e)) by (apply Z.pow_pos_nonneg; lia).
      split.
      + destruct (Z.lt_ge_cases (d + e) 1); [|lia].
        assert (2 ^ d <= 2 ^ (- e)) by (apply Z.pow_le_mono_r; lia). nia.
      + destruct (Z.lt_ge_cases 53 (d + e)); [|lia].
        assert (2 ^ (53 + - e) <= 2 ^ (d - 1)) by (apply Z.pow_le_mono_r; lia).
        rewrite Z.pow_add_r in * by lia. nia.
    - pose proof (repr_nonneg_exp _ _ _ He Hr) as Hm.
      assert (1 <= 2 ^ e) by (apply Z.lt_pred_le, Z.pow_pos_nonneg; lia).
      split; [lia|].
      destruct (Z.lt_ge_cases 53 (d + e)); [|lia].
      assert (2 ^ 53 <= 2 ^ (d - 1 + e)) by (apply Z.pow_le_mono_r; lia).
      rewrite Z.pow_add_r in * by lia. nia. }
  unfold binary_round_aux, shr_fexp.
  change (Zdigits2 (Zpos m)) with d.
  assert (Hfexp : fexp Num.prec Num.emax (d + e) = d + e - 53)
    by (unfold fexp, emin, Num.prec, Num.emax; lia).
  rewrite Hfexp.
  destruct (d + e - 53 - e) as [|k|k] eqn:Hk.
  - (* exactly 53 digits *)
    simpl. change (Zpos (digits2_pos m)) with d. rewrite Hfexp, Hk. simpl.
    replace (e <=? Num.emax - Num.prec) with true
      by (symmetry; apply Z.leb_le; unfold Num.emax, Num.prec; lia).
    apply intValue_finite, Hr.
  - (* more than 53 digits: the bits shifted out are zero *)
    assert (He : e < 0).
    { destruct (Z.lt_ge_cases e 0); [assumption|].
      pose proof (repr_nonneg_exp _ _ _ ltac:(eassumption) Hr).
      assert (1 <= 2 ^ e) by (apply Z.lt_pred_le, Z.pow_pos_nonneg; lia).
      assert (2 ^ 53 <= 2 ^ (d - 1)) by (apply Z.pow_le_mono_r; lia). nia. }
    pose proof (repr_neg_exp _ _ _ He Hr) as Hm.
    set (q := n * 2 ^ (- e - Zpos k)).
    assert (Hq : Zpos m = q * 2 ^ Zpos k).
    { unfold q. rewrite <- Z.mul_assoc, <- Z.pow_add_r by lia.
      rewrite Hm. do 2 f_equal. lia. }
    assert (Hqpos : 0 < q).
    { unfold q. apply Z.mul_pos_pos; [lia|]. apply Z.pow_pos_nonneg; lia. }
    unfold shr, shr_record_of_loc. rewrite Hq, iter_shr_1.
    cbn [shr_m loc_of_shr_record round_nearest_even].
    destruct q as [|qp|qp] eqn:Eq; try lia.
    assert (Hdq : Zpos (digits2_pos qp) = 53).
    { apply digits_unique.
      assert (0 < 2 ^ Zpos k) by (apply Z.pow_pos_nonneg; lia).
      replace d with (53 + Zpos k) in Hlo, Hhi by lia.
      replace (53 + Zpos k - 1) with (52 + Zpos k) in Hlo by lia.
      rewrite Z.pow_add_r in Hlo, Hhi by lia.
      change (53 - 1) with 52. nia. }
    cbn [Zdigits2]. rewrite Hdq.
    replace (fexp Num.prec Num.emax (53 + (e + Zpos k)) - (e + Zpos k)) with 0
      by (unfold fexp, emin, Num.prec, Num.emax; lia).
    cbn [shr_m].
    replace (e + Zpos k <=? Num.emax - Num.prec) with true
      by (symmetry; apply Z.leb_le; unfold Num.emax, Num.prec; lia).
    apply intValue_finite.
    exists (- (e + Zpos k)). split; [lia|]. split; [lia|].
    replace (e + Zpos k + - (e + Zpos k)) with 0 by lia.
    simpl (2 ^ 0). rewrite Z.mul_1_r.
    fold q in Eq. rewrite <- Eq. unfold q.
    do 2 f_equal. lia.
  - (* fewer than 53 digits *)
    simpl. change (Zpos (digits2_pos m)) with d. rewrite Hfexp, Hk. simpl.
    replace (e <=? Num.emax - Num.prec) with true
      by (symmetry; apply Z.leb_le; unfold Num.emax, Num.prec; lia).
    apply intValue_finite, Hr.
Qed.


Lemma repr_shift p e d n : repr p e n -> repr (Pos.iter xO p d) (e - Zpos d) n.
Proof.
  intros (K & HK & HeK & H). exists (K + Zpos d).
  split; [lia|]. split; [lia|].
  rewrite iter_xO. replace (e - Zpos d + (K + Zpos d)) with (e + K) by lia.
  rewrite (Z.pow_add_r 2 K (Zpos d)) by lia.
  rewrite Z.mul_assoc, <- H. ring.
Qed.

Lemma shl_align_repr p e e' n :
  repr p e n -> repr (fst (shl_align p e e')) (snd (shl_align p e e')) n.
Proof.
  intros H. unfold shl_align. destruct (e' - e) as [|d|d] eqn:Hd; simpl; try exact H.
  replace e' with (e - Zpos d) by lia. apply repr_shift, H.
Qed.

Lemma shl_align_min p e ez : ez <= e -> snd (shl_align p e ez) = ez.
Proof.
  intros H. unfold shl_align. destruct (ez - e) as [|d|d] eqn:Hd; simpl; lia.
Qed.

Lemma binary_round_exact s p e n :
  repr p e n -> n < 2 ^ 53 ->
  Num.intValue (binary_round Num.prec Num.emax s p e) = Some (cond_Zopp s n).
Proof.
  intros Hr Hn. unfold binary_round.
  pose proof (shl_align_repr p e
                (fexp Num.prec Num.emax (Zpos (digits2_pos p) + e)) n Hr) as H.
  destruct (shl_align p e _) as [mz ez]. simpl in H.
  apply round_aux_exact; assumption.
Qed.

Lemma cond_Zopp_mul sx sy a b :
  cond_Zopp (xorb sx sy) (a * b) = cond_Zopp sx a * cond_Zopp sy b.
Proof. destruct sx, sy; simpl; ring. Qed.

Lemma repr_mul mx ex nx my ey ny :
  repr mx ex nx -> repr my ey ny -> repr (mx * my) (ex + ey) (nx * ny).
Proof.
  intros (K1 & ? & ? & H1) (K2 & ? & ? & H2). exists (K1 + K2).
  split; [lia|]. split; [lia|].
  replace (ex + ey + (K1 + K2)) with ((ex + K1) + (ey + K2)) by lia.
  rewrite (Z.pow_add_r 2 (ex + K1) (ey + K2)), (Z.pow_add_r 2 K1 K2) by lia.
  rewrite Pos2Z.inj_mul.
  transitivity ((Zpos mx * 2 ^ (ex + K1)) * (Zpos my * 2 ^ (ey + K2))); [ring|].
  rewrite H1, H2. ring.
Qed.

(** Products of integers are exact below [2^53]. *)
Lemma mul_exact x y a b :
  Num.intValue x = Some a -> Num.intValue y = Some b ->
  Z.abs (a * b) < 2 ^ 53 ->
  Num.intValue (Num.mul x y) = Some (a * b).
Proof.
  intros Hx Hy Hb.
  destruct x as [sx|sx| |sx mx ex], y as [sy|sy| |sy my ey];
    try discriminate; simpl in Hx, Hy.
  - injection Hx as <-. reflexivity.
  - injection Hx as <-. reflexivity.
  - injection Hy as <-. rewrite Z.mul_0_r. reflexivity.
  - apply intValue_finite_inv in Hx as (nx & Hrx & ->).
    apply intValue_finite_inv in Hy as (ny & Hry & ->).
    pose proof (repr_pos _ _ _ Hrx). pose proof (repr_pos _ _ _ Hry).
    rewrite <- cond_Zopp_mul. unfold Num.mul, SFmul.
    apply round_aux_exact; [apply repr_mul; assumption|].
    rewrite <- cond_Zopp_mul in Hb. destruct (xorb sx sy); simpl in Hb; nia.
Qed.

(** Sums of integers are exact below [2^53]. *)
Lemma add_exact x y a b :
  Num.intValue x = Some a -> Num.intValue y = Some b ->
  Z.abs (a + b) < 2 ^ 53 ->
  Num.intValue (Num.add x y) = Some (a + b).
Proof.
  intros Hx Hy Hb.
  destruct x as [sx|sx| |sx mx ex], y as [sy|sy| |sy my ey];
    try discriminate.
  - simpl in Hx, Hy. injection Hx as <-. injection Hy as <-.
    destruct sx, sy; reflexivity.
  - simpl in Hx. injection Hx as <-. exact Hy.
  - simpl in Hy. injection Hy as <-. rewrite Z.add_0_r. exact Hx.
  - apply intValue_finite_inv in Hx as (nx & Hrx & ->).
    apply intValue_finite_inv in Hy as (ny & Hry & ->).
    unfold Num.add, SFadd.
    set (ez := Z.min ex ey).
    pose proof (shl_align_repr mx ex ez nx Hrx) as Hx'.
    pose proof (shl_align_repr my ey ez ny Hry) as Hy'.
    rewrite shl_align_min in Hx', Hy' by (unfold ez; lia).
    set (mx' := fst (shl_align mx ex ez)) in *.
    set (my' := fst (shl_align my ey ez)) in *.
    destruct Hx' as (K1 & ? & ? & H1). destruct Hy' as (K2 & ? & ? & H2).
    set (K := Z.max K1 K2).
    apply (repr_weaken _ _ _ K1 K) in H1; [|unfold K; lia|lia].
    apply (repr_weaken _ _ _ K2 K) in H2; [|unfold K; lia|lia].
    set (S := cond_Zopp sx (Zpos mx') + cond_Zopp sy (Zpos my')).
    assert (HS : S * 2 ^ (ez + K) = (cond_Zopp sx nx + cond_Zopp sy ny) * 2 ^ K).
    { unfold S. rewrite !Z.mul_add_distr_r.
      f_equal; [destruct sx|destruct sy]; simpl; lia. }
    assert (0 < 2 ^ (ez + K)) by (apply Z.pow_pos_nonneg; unfold K; lia).
    assert (0 < 2 ^ K) by (apply Z.pow_pos_nonneg; unfold K; lia).
    unfold binary_normalize. destruct S as [|p|p] eqn:ES.
    + simpl. f_equal. symmetry.
      assert (E0 : (cond_Zopp sx nx + cond_Zopp sy ny) * 2 ^ K = 0) by lia.
      apply Z.mul_eq_0 in E0. lia.
    + assert (Hr : repr p ez (cond_Zopp sx nx + cond_Zopp sy ny))
        by (exists K; repeat split; unfold K; try lia; exact HS).
      pose proof (repr_pos _ _ _ Hr).
      exact (binary_round_exact false p ez _ Hr ltac:(lia)).
    + assert (Hr : repr p ez (- (cond_Zopp sx nx + cond_Zopp sy ny))).
      { exists K. repeat split; unfold K; try lia. fold K.
        rewrite Z.mul_opp_l, <- HS. rewrite <- Z.mul_opp_l. reflexivity. }
      pose proof (repr_pos _ _ _ Hr).
      rewrite (binary_round_exact true p ez _ Hr) by lia.
      simpl. f_equal. lia.
Qed.

(** A number that denotes a non-negative integer is a zero or positive. *)
Lemma intValue_nonneg_cases x n :
  Num.intValue x = Some n -> 0 <= n ->
  (exists s, x = S754_zero s) \/ (exists m e, x = S754_finite false m e).
Proof.
  intros H Hn. destruct x as [s|s| |s m e]; try discriminate.
  - left. eauto.
  - right. apply intValue_finite_inv in H as (k & Hr & ->).
    pose proof (repr_pos _ _ _ Hr). destruct s; simpl in Hn; [lia|eauto].
Qed.

Lemma mul_comm x y : Num.mul x y = Num.mul y x.
Proof.
  destruct x as [sx|sx| |sx mx ex], y as [sy|sy| |sy my ey]; simpl;
    try reflexivity; try (rewrite xorb_comm; reflexivity).
  unfold Num.mul, SFmul. rewrite xorb_comm, Pos.mul_comm, Z.add_comm.
  reflexivity.
Qed.

Lemma isPositiveInt_spec x :
  isPositiveInt x = true <-> exists n, Num.intValue x = Some n /\ 0 <= n.
Proof.
  unfold isPositiveInt, Num.isInteger, Num.ge, SFleb. split.
  - intros H. apply andb_true_iff in H as [Hi Hge].
    destruct (Num.intValue x) as [n|] eqn:En; [|discriminate].
    exists n. split; [reflexivity|].
    destruct x as [s|s| |s m e]; try discriminate.
    + injection En as <-. lia.
    + apply intValue_finite_inv in En as (k & Hr & ->).
      pose proof (repr_pos _ _ _ Hr). destruct s; [discriminate|simpl; lia].
  - intros (n & En & Hn). rewrite En.
    destruct (intValue_nonneg_cases _ _ En Hn) as [[s ->]|(m & e & ->)];
      reflexivity.
Qed.

Lemma round_aux_unsigned m e l :
  unsigned (binary_round_aux Num.prec Num.emax false m e l).
Proof.
  unfold binary_round_aux.
  destruct (shr_fexp _ _ m e l) as [mrs e'].
  destruct (shr_fexp _ _ _ e' loc_Exact) as [mrs' e''].
  destruct (shr_m mrs'); simpl; try exact I.
  destruct (e'' <=? _); exact I.
Qed.

Lemma unsigned_not_negative x : unsigned x -> not_negative x.
Proof. destruct x as [[]|[]| |[] m e]; simpl; tauto. Qed.

Lemma mul_not_negative x y :
  not_negative x -> not_negative y -> not_negative (Num.mul x y).
Proof.
  destruct x as [[]|[]| |[] mx ex], y as [[]|[]| |[] my ey];
    simpl; try tauto.
  intros _ _. apply unsigned_not_negative, round_aux_unsigned.
Qed.

Lemma add_unsigned x y : unsigned x -> not_negative y -> unsigned (Num.add x y).
Proof.
  destruct x as [[]|[]| |[] mx ex], y as [[]|[]| |[] my ey];
    simpl; try tauto.
  intros _ _. unfold binary_round.
  destruct (shl_align _ _ _) as [mz ez]. apply round_aux_unsigned.
Qed.

Lemma add_zero_r x s : unsigned x -> Num.add x (S754_zero s) = x.
Proof. destruct x as [[]|[]| |[] mx ex], s; simpl; tauto. Qed.

Lemma nonneg_not_negative x n :
  Num.intValue x = Some n -> 0 <= n -> not_negative x.
Proof.
  intros H Hn.
  destruct (intValue_nonneg_cases _ _ H Hn) as [[[] ->]|(m & e & ->)]; exact I.
Qed.

(** [(x || 0) * rate] added to an unsigned amount is [rate * x] added to
    it, for a non-negative integer [x]. *)
Lemma add_cost acc x n rate :
  Num.intValue x = Some n -> 0 <= n -> unsigned acc ->
  Num.add acc (Num.mul (or_zero x) rate) = Num.add acc (Num.mul rate x).
Proof.
  intros H Hn Hacc.
  destruct (intValue_nonneg_cases _ _ H Hn) as [[s ->]|(m & e & ->)].
  - destruct rate as [sr|sr| |sr mr er]; try reflexivity.
    + cbn. rewrite !add_zero_r by assumption. reflexivity.
    + cbn. rewrite !add_zero_r by assumption. reflexivity.
  - cbn [or_zero Num.truthy]. rewrite mul_comm. reflexivity.
Qed.

Lemma flag_intValue (flag : bool) (fee : Z) :
  Num.intValue (Num.of_Z fee) = Some fee ->
  Num.intValue (if flag then Num.of_Z fee else Num.pzero) = Some (flagFee flag fee).
Proof. intros H. destruct flag; [exact H | reflexivity]. Qed.


End NumFacts.

(** C1. For non-negative integers bedrooms and bathrooms and boolean
    add-on flags, [computeTurnoverPrice] returns the total
    85 + 20*bedrooms + 15*bathrooms + (90 if deepClean) + (35 if
    premiumLinen), computed in JavaScript arithmetic, with the five
    breakdown keys, whose values sum to the total; below [2^53] that
    arithmetic is exact and the total is that integer. *)
Theorem C1_turnover_price_formula (b ba : Num.number) (nb nba : Z) (deep linen : bool) :
  Num.intValue b = Some nb -> 0 <= nb ->
  Num.intValue ba = Some nba -> 0 <= nba ->
  let total :=
    Num.add (Num.add (Num.add (Num.add (Num.of_Z 85) (Num.mul (Num.of_Z 20) b))
                        (Num.mul (Num.of_Z 15) ba))
               (if deep then Num.of_Z 90 else Num.pzero))
      (if linen then Num.of_Z 35 else Num.pzero) in
  exists breakdown,
    computeTurnoverPrice (turnoverArg (VNum b) (VNum ba) (addOnFlags deep linen))
    = Some (VObj [ ("total", VNum total); ("breakdown", VObj breakdown);
                   ("currency", VStr "AUD") ])
    /\ map fst breakdown
       = [ "base"; "bedroomsCost"; "bathroomsCost"; "deepClean"; "premiumLinen" ]
    /\ Num.sum (numeric_values (VObj breakdown)) = total
    /\ (85 + 20 * nb + 15 * nba + 90 + 35 < 2 ^ 53 ->
        Num.intValue total
        = Some (85 + 20 * nb + 15 * nba + flagFee deep 90 + flagFee linen 35)).
Proof.
  intros Hb Hnb Hba Hnba total.
  assert (E : Num.add (Num.add (Num.add (Num.add (base PRICING)
                 (Num.mul (or_zero b) (perBedroom PRICING)))
                 (Num.mul (or_zero ba) (perBathroom PRICING)))
                 (if deep then deepClean PRICING else Num.pzero))
                 (if linen then linenAddon PRICING else Num.pzero) = total).
  { unfold total. rewrite (add_cost _ b nb) by (assumption || exact I).
    rewrite (add_cost _ ba nba); try assumption; [reflexivity|].
    apply add_unsigned; [exact I|].
    apply mul_not_negative; [exact I | eapply nonneg_not_negative; eassumption]. }
  eexists. split; [|split; [|split]].
  - unfold computeTurnoverPrice, turnoverArg, addOnFlags.
    cbn [get lookup String.eqb Ascii.eqb Bool.eqb default_to truthy ToNumber
         Number no_primitive].
    rewrite E. reflexivity.
  - reflexivity.
  - unfold Num.sum, numeric_values. cbn [entries map snd ToNumber fold_left].
    change (Num.add Num.pzero (base PRICING)) with (base PRICING).
    exact E.
  - intros Hbound. unfold total.
    assert (H85 : Num.intValue (Num.of_Z 85) = Some 85) by reflexivity.
    assert (H20 : Num.intValue (Num.of_Z 20) = Some 20) by reflexivity.
    assert (H15 : Num.intValue (Num.of_Z 15) = Some 15) by reflexivity.
    pose proof (flag_intValue deep 90 eq_refl) as Hd.
    pose proof (flag_intValue linen 35 eq_refl) as Hl.
    assert (0 <= flagFee deep 90 <= 90) by (destruct deep; simpl; lia).
    assert (0 <= flagFee linen 35 <= 35) by (destruct linen; simpl; lia).
    repeat (apply add_exact || apply mul_exact); try assumption; lia.
Qed.

(* ===================================================================== *)
(** ** Running a handler *)
(* ===================================================================== *)

Lemma get_or_else req k : get (or_else req (VObj [])) k = Some (read req k).
Proof.
  unfold or_else, read. destruct req; simpl; try reflexivity;
    match goal with |- context [if ?c then _ else _] => destruct c end;
    reflexivity.
Qed.

Lemma get_not_nullish v k : nullish v = false -> get v k = Some (read v k).
Proof. unfold read. destruct v; simpl; intros; try discriminate; reflexivity. Qed.

Lemma get_nullish v k : nullish v = true -> get v k = None.
Proof. destruct v; simpl; intros; try discriminate; reflexivity. Qed.

Lemma not_an_object_nullish v : not_an_object v = false -> nullish v = false.
Proof. destruct v; simpl; intros; try discriminate; reflexivity. Qed.

Lemma read_default_to v k : read (default_to (VObj []) v) k = read v k.
Proof. destruct v; reflexivity. Qed.

Lemma default_to_nullish v :
  nullish (default_to (VObj []) v) = true <-> v = VNull.
Proof. destruct v; simpl; split; intros; congruence. Qed.

(** A non-empty string field can only be read from an object. *)
Lemma nonempty_field_object v k :
  isNonEmptyString (read v k) = true -> not_an_object v = false.
Proof.
  destruct v; try discriminate; reflexivity.
Qed.

Lemma truthy_not_nullish v : truthy v = true -> nullish v = false.
Proof. destruct v; simpl; intros; try discriminate; reflexivity. Qed.

Lemma bind_ret {A B} (a : A) (f : A -> M B) w : bind (ret a) f w = f a w.
Proof. reflexivity. Qed.

Lemma bind_prop_or_else {A} req k (f : value -> M A) w :
  bind (prop (or_else req (VObj [])) k) f w = f (read req k) w.
Proof. unfold bind, prop. rewrite get_or_else. reflexivity. Qed.

Lemma bind_prop {A} v k (f : value -> M A) w :
  nullish v = false -> bind (prop v k) f w = f (read v k) w.
Proof.
  intros H. unfold bind, prop. rewrite get_not_nullish by exact H. reflexivity.
Qed.

Lemma bind_prop_null {A} v k (f : value -> M A) w :
  nullish v = true -> bind (prop v k) f w = (Thrown, w).
Proof.
  intros H. unfold bind, prop. rewrite get_nullish by exact H. reflexivity.
Qed.

(** A value that passes the validator has a primitive: the coercion of
    one that has none would be NaN. *)
Lemma no_primitive_NaN : forall v, no_primitive v = true -> ToNumber v = Num.NaN.
Proof.
  fix IH 1. intros [| | | | |items|fields| |]; try discriminate; [|reflexivity].
  destruct items as [|e [|e' rest]]; [discriminate| |reflexivity].
  cbn [no_primitive existsb]. rewrite orb_false_r. intros He.
  pose proof (IH e He) as IHe.
  destruct e; try discriminate He; try reflexivity.
  exact IHe.
Qed.

Lemma positiveInt_primitive v :
  isPositiveInt (ToNumber v) = true -> no_primitive v = false.
Proof.
  destruct (no_primitive v) eqn:E; [|reflexivity].
  rewrite (no_primitive_NaN v E). discriminate.
Qed.

Lemma Number_primitive v : no_primitive v = false -> Number v = Some (ToNumber v).
Proof. unfold Number. intros ->. reflexivity. Qed.

Lemma Number_throws v : no_primitive v = true -> Number v = None.
Proof. unfold Number. intros ->. reflexivity. Qed.

Lemma Number_some v n : Number v = Some n -> no_primitive v = false /\ n = ToNumber v.
Proof. unfold Number. destruct (no_primitive v); [discriminate|]. intros [= <-]. auto. Qed.

Lemma Number_none v : Number v = None -> no_primitive v = true.
Proof. unfold Number. destruct (no_primitive v); [reflexivity|discriminate]. Qed.

Lemma bind_Number {A} v (f : Num.number -> M A) w :
  no_primitive v = false -> bind (lift (Number v)) f w = f (ToNumber v) w.
Proof. intros H. rewrite (Number_primitive v H). reflexivity. Qed.

Lemma bind_Number_throws {A} v (f : Num.number -> M A) w :
  no_primitive v = true -> bind (lift (Number v)) f w = (Thrown, w).
Proof. intros H. rewrite (Number_throws v H). reflexivity. Qed.

Lemma bind_itemCount {A} items k (f : value -> M A) w :
  nullish items = false ->
  bind (itemCount items k) f w
  = bind (lift (Number (read items k))) (fun n => f (VNum (or_zero n))) w.
Proof.
  intros H. unfold itemCount, bind, prop.
  rewrite get_not_nullish by exact H. cbn [lift ret].
  destruct (Number (read items k)); reflexivity.
Qed.

Lemma bind_itemCount_null {A} items k (f : value -> M A) w :
  nullish items = true -> bind (itemCount items k) f w = (Thrown, w).
Proof.
  intros H. unfold itemCount, bind, prop.
  rewrite get_nullish by exact H. reflexivity.
Qed.

(** *** Document references *)

Lemma split_slash_plain s : has_slash s = false -> split_slash s = [ s ].
Proof.
  induction s as [|c s IH]; [reflexivity|].
  cbn [has_slash split_slash]. intros H.
  apply orb_false_iff in H as [Hc Hs]. rewrite Hc, (IH Hs). reflexivity.
Qed.

Lemma double_slash_plain s : has_slash s = false -> double_slash s = false.
Proof.
  induction s as [|c s IH]; [reflexivity|].
  cbn [has_slash]. intros H. apply orb_false_iff in H as [Hc Hs].
  cbn [double_slash]. destruct s as [|c' s]; [reflexivity|].
  rewrite Hc. cbn [andb orb]. exact (IH Hs).
Qed.

(** A plain id names the document of that id in the collection. *)
Lemma doc_plain coll id :
  plain_id id = true -> doc coll id = Some (plain_ref coll id).
Proof.
  unfold plain_id, doc. intros H. apply andb_true_iff in H as [Hne Hs].
  apply negb_true_iff in Hne, Hs.
  rewrite Hne, (double_slash_plain _ Hs), (split_slash_plain _ Hs).
  cbn [List.filter]. rewrite Hne. reflexivity.
Qed.

Lemma pretty_N_go_plain x : forall s,
  has_slash s = false -> has_slash (pretty_N_go x s) = false.
Proof.
  induction (N.lt_wf_0 x) as [x _ IH]. intros s Hs.
  destruct (N.eq_dec x 0%N) as [->|Hx]; [exact Hs|].
  rewrite pretty_N_go_step by lia. apply IH; [apply N.div_lt; lia|].
  cbn [has_slash]. rewrite Hs, orb_false_r.
  unfold pretty_N_char. repeat case_match; reflexivity.
Qed.

Lemma pretty_N_go_nonempty x : forall s,
  s <> "" -> pretty_N_go x s <> "".
Proof.
  induction (N.lt_wf_0 x) as [x _ IH]. intros s Hs.
  destruct (N.eq_dec x 0%N) as [->|Hx]; [exact Hs|].
  rewrite pretty_N_go_step by lia. apply IH; [apply N.div_lt; lia|discriminate].
Qed.

(** The ids the store gives out are plain. *)
Lemma plain_pretty (n : nat) : plain_id (pretty n) = true.
Proof.
  unfold plain_id, pretty, pretty_nat, pretty, pretty_N.
  destruct (decide (N.of_nat n = 0%N)) as [_|Hn]; [reflexivity|].
  apply andb_true_iff. split; apply negb_true_iff.
  - apply String.eqb_neq.
    rewrite pretty_N_go_step by lia. apply pretty_N_go_nonempty. discriminate.
  - apply pretty_N_go_plain. reflexivity.
Qed.

Lemma doc_pretty coll (n : nat) : doc coll (pretty n) = Some (plain_ref coll (pretty n)).
Proof. apply doc_plain, plain_pretty. Qed.

Lemma doc_asked coll id r : doc coll id = Some r -> asked r = (coll, id).
Proof.
  unfold doc. destruct (String.eqb id ""); [discriminate|].
  destruct (double_slash id); [discriminate|].
  destruct (Nat.even _); [discriminate|]. intros [= <-]. reflexivity.
Qed.

(** The document a reference names lies in the collection asked for or
    below it. *)
Lemma doc_collection coll id r :
  doc coll id = Some r -> exists rest, fst (target r) = coll ++ rest.
Proof.
  unfold doc. destruct (String.eqb id ""); [discriminate|].
  destruct (double_slash id); [discriminate|].
  destruct (Nat.even _); [discriminate|]. intros [= <-]. cbn [target fst].
  destruct (List.removelast _) as [|x l]; cbn [String.concat].
  - exists "". clear. induction coll as [|c coll IH]; [reflexivity|].
    change (String c coll = String c (coll ++ "")). rewrite <- IH. reflexivity.
  - eauto.
Qed.

Lemma serverTimestamp_cases w :
  exists v w1, serverTimestamp w = (Returned v, w1) /\ same_store w w1
    /\ (has_FieldValue_serverTimestamp (sdk w) = true ->
        v = VServerTimestamp /\ w1 = w).
Proof.
  unfold serverTimestamp, same_store.
  destruct (has_FieldValue_serverTimestamp (sdk w)).
  - exists VServerTimestamp, w. repeat split; reflexivity.
  - destruct (has_Timestamp_now (sdk w)); eexists _, _;
      (split; [reflexivity|]); (split; [repeat split|discriminate]).
Qed.

(** Property reads that cannot throw. *)
Ltac step_props :=
  repeat first
    [ rewrite bind_prop_or_else; cbv beta
    | rewrite bind_prop
        by (reflexivity || assumption
            || (apply not_an_object_nullish; assumption)
            || (apply truthy_not_nullish; assumption));
      cbv beta
    | rewrite bind_itemCount by assumption; cbv beta
    | rewrite bind_ret; cbv beta ].

(** The guard at the head of the handler. *)
Ltac split_if :=
  match goal with
  | |- context [ bind (if ?c then _ else _) ?f ?w ] =>
      let E := fresh "G" in destruct c eqn:E
  | |- context [ (if negb ?c then _ else _) ?w ] =>
      let E := fresh "G" in destruct c eqn:E; cbn [negb]
  | |- context [ (if ?c || ?d then _ else _) ?w ] =>
      let E := fresh "G" in destruct (c || d) eqn:E
  | |- context [ (if ?c then _ else _) ?w ] =>
      let E := fresh "G" in destruct c eqn:E
  end.

(** The next call of [serverTimestamp]. *)
Ltac step_stamp :=
  match goal with
  | |- context [ bind serverTimestamp ?f ?w ] =>
      let v := fresh "stamp" in
      let w1 := fresh "w" in
      let E := fresh "Estamp" in
      let S := fresh "Hsame" in
      let F := fresh "Hfv" in
      destruct (serverTimestamp_cases w) as (v & w1 & E & S & F);
      unfold bind at 1; rewrite E;
      try match goal with
          | H : has_FieldValue_serverTimestamp (sdk w) = true |- _ =>
              destruct (F H) as [-> ->]
          end
  end.

(** A property read on a value that may be [null]. *)
Ltac step_nullable :=
  match goal with
  | |- context [ bind (prop ?v ?k) ?f ?w ] =>
      let E := fresh "Enull" in
      destruct (nullish v) eqn:E;
      [ rewrite bind_prop_null by assumption
      | rewrite bind_prop by assumption; cbv beta ]
  | |- context [ bind (itemCount ?v ?k) ?f ?w ] =>
      let E := fresh "Enull" in
      destruct (nullish v) eqn:E;
      [ rewrite bind_itemCount_null by assumption
      | rewrite bind_itemCount by assumption; cbv beta ]
  end.

(** A numeric coercion, which throws on a value without a primitive. *)
Ltac step_number :=
  match goal with
  | |- context [ bind (lift (Number ?v)) ?f ?w ] =>
      first
        [ match goal with
          | H : no_primitive v = false |- _ =>
              rewrite (bind_Number v f w H); cbv beta
          end
        | match goal with
          | H : isPositiveInt (ToNumber v) = true |- _ =>
              let E := fresh "Eprim" in
              pose proof (positiveInt_primitive v H) as E;
              rewrite (bind_Number v f w E); cbv beta
          end
        | let E := fresh "Eprim" in
          destruct (no_primitive v) eqn:E;
          [ rewrite (bind_Number_throws v f w E)
          | rewrite (bind_Number v f w E); cbv beta ] ]
  end.

(** A pure step that may throw. *)
Ltac step_lift :=
  match goal with
  | |- context [ bind (lift ?o) ?f ?w ] =>
      let x := fresh "pricing" in
      let E := fresh "Epricing" in
      unfold bind at 1; destruct o as [x|] eqn:E; cbn [lift ret throw]
  end.

(** Whether the store answers, when the run has not settled it yet. *)
Ltac split_online :=
  cbn [online docs logged advance with_docs with_counter];
  match goal with
  | H : online ?w0 = _ |- context [ if online ?w0 then _ else _ ] =>
      rewrite H
  | |- context [ if online ?w0 then _ else _ ] =>
      let E := fresh "Eonline" in destruct (online w0) eqn:E
  end.

(** The write that ends a creation handler. *)
Ltac step_add :=
  match goal with
  | |- context [ bind (db_add ?c ?d) ?f ?w ] =>
      let E := fresh "Eonline" in
      unfold bind at 1; unfold db_add at 1; split_online
  end.

(** The reference to a document, which the client may refuse. *)
Ltac step_doc :=
  match goal with
  | |- context [ bind (lift (doc ?c ?i)) ?f ?w ] =>
      first
        [ match goal with
          | H : doc c i = Some _ |- _ =>
              unfold bind at 1; rewrite H; cbn [lift ret throw]
          end
        | let r := fresh "ref" in
          let E := fresh "Edoc" in
          let A := fresh "Easked" in
          unfold bind at 1; destruct (doc c i) as [r|] eqn:E;
          cbn [lift ret throw];
          [ pose proof (doc_asked c i r E) as A | ] ]
  end.

(** A read of the store, and what it found. *)
Ltac step_get :=
  match goal with
  | |- context [ bind (db_get ?r) ?f ?w ] =>
      unfold bind at 1; unfold db_get at 1;
      try match goal with H : asked r = _ |- _ => rewrite !H end;
      cbn [fst snd]; split_online;
      [ first
          [ rewrite lookup_insert_eq
          | match goal with
            | |- context [ docs ?w1 !! ?k ] =>
                let F := fresh "Efound" in destruct (docs w1 !! k) eqn:F
            end ]
      | .. ]
  end.

(** The update of a checklist, after a read that found the document. *)
Ltac step_update :=
  match goal with
  | |- context [ bind (db_update ?r ?u) ?f ?w ] =>
      unfold bind at 1; unfold db_update at 1;
      try match goal with H : asked r = _ |- _ => rewrite !H end;
      cbn [fst snd]; split_online;
      [ match goal with
        | H : docs ?w1 !! ?k = _ |- context [ docs ?w1 !! ?k ] => rewrite H
        end
      | .. ]
  end.

(** Run a handler to its end; [close] disposes of the branches the
    property at hand does not speak about. *)
Ltac walk close :=
  cbv zeta;
  repeat first
    [ progress step_props
    | step_stamp
    | split_if; try (solve [close])
    | step_number; try (solve [close])
    | step_doc; try (solve [close])
    | step_lift; try (solve [close])
    | step_nullable; try (solve [close])
    | step_add; try (solve [close])
    | step_get; try (solve [close])
    | step_update; try (solve [close]) ].

(** An answer other than 201 says nothing about a created document. *)
Ltac not_created := cbn; intros; discriminate.


Ltac invalid := solve [ congruence | unfold same_store in *; intuition congruence ].

(** A number has a primitive: itself. *)
Lemma number_primitive v : String.eqb (typeof v) "number" = true -> exists n, v = VNum n.
Proof. destruct v; try discriminate. eauto. Qed.

(** The pricing of a job whose counts have primitives. *)
Lemma jobPricing_primitive price bedrooms bathrooms addOns :
  no_primitive bedrooms = false -> no_primitive bathrooms = false ->
  jobPricing price bedrooms bathrooms addOns
  = if String.eqb (typeof price) "number" then
      Some (VObj [ ("total", VNum (ToNumber price));
                   ("breakdown", VObj [ ("customOverride", VNum (ToNumber price)) ]);
                   ("currency", VStr (currency PRICING)) ])
    else
      computeTurnoverPrice
        (VObj [ ("bedrooms", VNum (ToNumber bedrooms));
                ("bathrooms", VNum (ToNumber bathrooms));
                ("addOns", addOns) ]).
Proof.
  intros Hb Hba. unfold jobPricing.
  rewrite (Number_primitive _ Hb), (Number_primitive _ Hba).
  destruct (String.eqb (typeof price) "number") eqn:Ety; [|reflexivity].
  destruct (number_primitive _ Ety) as [n ->]. reflexivity.
Qed.

Lemma jobPricing_some price bedrooms bathrooms addOns :
  nullish addOns = false ->
  no_primitive bedrooms = false -> no_primitive bathrooms = false ->
  exists pr, jobPricing price bedrooms bathrooms addOns = Some pr.
Proof.
  intros H Hb Hba. rewrite (jobPricing_primitive _ _ _ _ Hb Hba).
  unfold computeTurnoverPrice.
  destruct (String.eqb (typeof price) "number"); [eauto|].
  cbn [get lookup String.eqb Ascii.eqb Bool.eqb default_to].
  destruct addOns; try discriminate; cbn; eauto.
Qed.

Lemma computeTurnoverPrice_resolve arg pr t :
  computeTurnoverPrice arg = Some pr -> resolve t pr = pr.
Proof.
  unfold computeTurnoverPrice.
  destruct (get arg "bedrooms"), (get arg "bathrooms"), (get arg "addOns");
    try discriminate.
  cbv zeta.
  repeat match goal with
         | |- context [ match get ?v ?k with _ => _ end ] =>
             destruct (get v k); try discriminate
         | |- context [ match Number ?v with _ => _ end ] =>
             destruct (Number v); try discriminate
         end.
  intros [= <-]. reflexivity.
Qed.

Lemma jobPricing_resolve price bedrooms bathrooms addOns pr t :
  jobPricing price bedrooms bathrooms addOns = Some pr -> resolve t pr = pr.
Proof.
  unfold jobPricing. destruct (String.eqb (typeof price) "number").
  - destruct (Number price); [|discriminate]. intros [= <-]. reflexivity.
  - destruct (Number bedrooms), (Number bathrooms); try discriminate.
    apply computeTurnoverPrice_resolve.
Qed.

(** C4. A valid job-creation request is answered 201; the pricing returned
    and stored is the caller's price as a single [customOverride] entry
    when a numeric price is supplied, whatever the rest of the request,
    and the computed turnover price otherwise. *)
Theorem C4_job_pricing (req : value) (w : world) :
  valid_job req -> online w = true ->
  created_with (postJobs req w) (fun resp w' =>
    exists doc,
      docs w' !! ("jobs", pretty (counter w)) = Some doc
      /\ read doc "pricing" = read (body resp) "pricing"
      /\ (forall p, read req "price" = VNum p ->
            read (body resp) "pricing" = overridePricing p)
      /\ (String.eqb (typeof (read req "price")) "number" = false ->
            computeTurnoverPrice
              (turnoverArg
                 (VNum (ToNumber (read (read req "property") "bedrooms")))
                 (VNum (ToNumber (read (read req "property") "bathrooms")))
                 (default_to (VObj []) (read req "addOns")))
            = Some (read (body resp) "pricing"))).
Proof.
  intros (Hstart & Hend & (Haddr & Hbed & Hbath) & Haddons) Hon.
  pose proof (nonempty_field_object _ _ Hstart) as Hsched.
  pose proof (nonempty_field_object _ _ Haddr) as Hprop.
  assert (Hnull : nullish (default_to (VObj []) (read req "addOns")) = false).
  { destruct (nullish _) eqn:E; [|reflexivity].
    apply default_to_nullish in E. contradiction. }
  unfold postJobs, try_catch.
  walk ltac:(first
    [ invalid
    | match goal with
      | E : jobPricing ?p ?b ?c ?a = None |- _ =>
          destruct (jobPricing_some p b c a Hnull); congruence
      end ]).
  rename Epricing into Hpr.
  cbn [json ret]. eexists _, _. split; [reflexivity|]. split; [reflexivity|].
  destruct Hsame as (Hd & Hc & _), Hsame0 as (Hd0 & Hc0 & _).
  cbn [docs advance with_counter with_docs logged body].
  rewrite Hc0, Hc. eexists. split; [apply lookup_insert_eq|].
  cbn. rewrite (jobPricing_resolve _ _ _ _ _ _ Hpr).
  split; [reflexivity|]. split.
  - intros p Hp. rewrite jobPricing_primitive in Hpr by assumption.
    rewrite Hp in Hpr. cbn in Hpr. injection Hpr as <-. reflexivity.
  - intros Hty. rewrite jobPricing_primitive in Hpr by assumption.
    rewrite Hty in Hpr. exact Hpr.
Qed.

Lemma C4_job_pricing_witness :
  valid_job (sampleJob [ ("price", VNum (Num.of_Z 200)) ])
  /\ online emptyWorld = true
  /\ created_with (postJobs (sampleJob [ ("price", VNum (Num.of_Z 200)) ]) emptyWorld)
       (fun resp w' =>
          read (body resp) "pricing" = overridePricing (Num.of_Z 200)).
Proof.
  assert (Hv : valid_job (sampleJob [ ("price", VNum (Num.of_Z 200)) ])).
  { repeat split; try (vm_compute; reflexivity). discriminate. }
  split; [exact Hv|]. split; [reflexivity|].
  destruct (C4_job_pricing _ emptyWorld Hv eq_refl)
    as (resp & w' & E & Hs & doc & _ & _ & Hp & _).
  exists resp, w'. split; [exact E|]. split; [exact Hs|].
  apply Hp. reflexivity.
Defined.

(** C5. The checklist of a created job has exactly the seven fields, all
    false except [linensChanged], which is the truthiness of
    [addOns.premiumLinen] in the request; so it is returned and stored. *)
Theorem C5_job_checklist_default (req : value) (w : world)
  (resp : response) (w' : world) :
  postJobs req w = (Returned resp, w') -> status resp = 201 ->
  let expected :=
    checklistOf (truthy (read (read req "addOns") "premiumLinen")) in
  read (body resp) "checklist" = expected
  /\ exists doc,
       docs w' !! ("jobs", pretty (counter w)) = Some doc
       /\ read doc "checklist" = expected.
Proof.
  intros Hrun Hstatus expected.
  assert (H : on_created (postJobs req w) (fun resp w' =>
            read (body resp) "checklist" = expected
            /\ exists doc,
                 docs w' !! ("jobs", pretty (counter w)) = Some doc
                 /\ read doc "checklist" = expected)).
  { unfold postJobs, try_catch. walk not_created.
    cbn [json ret on_created status]. intros _.
    destruct Hsame as (Hd & Hc & _), Hsame0 as (Hd0 & Hc0 & _).
    cbn [docs advance with_counter with_docs logged body].
    rewrite Hc0, Hc. split.
    - cbn. rewrite read_default_to. reflexivity.
    - eexists. split; [apply lookup_insert_eq|].
      cbn. rewrite read_default_to. reflexivity. }
  rewrite Hrun in H. exact (H Hstatus).
Qed.

Lemma C5_job_checklist_default_witness :
  let run := postJobs (sampleJob []) emptyWorld in
  run = (Returned (response_of run), snd run)
  /\ status (response_of run) = 201
  /\ read (body (response_of run)) "checklist" = checklistOf true.
Proof.
  intros run.
  assert (Hrun : run = (Returned (response_of run), snd run))
    by (vm_compute; reflexivity).
  assert (Hs : status (response_of run) = 201) by (vm_compute; reflexivity).
  split; [exact Hrun|]. split; [exact Hs|].
  exact (proj1 (C5_job_checklist_default _ _ _ _ Hrun Hs)).
Defined.

(** The six item counts of a valid linen order have primitives. *)
Ltac item_facts H :=
  let fact k :=
    let F := fresh "Hitem" in
    pose proof (H k ltac:(cbn; tauto)) as F;
    rewrite <- read_default_to in F in
  fact "queenSets"; fact "doubleSets"; fact "singleSets";
  fact "towelSets"; fact "bathMats"; fact "teaTowels".

Lemma postLinenOrders_valid req w :
  valid_linen_order req -> online w = true ->
  created_with (postLinenOrders req w) (fun resp w' =>
    pricing_of (body resp) = flatLinenPricing
    /\ (exists doc,
          docs w' !! ("linen_orders", pretty (counter w)) = Some doc
          /\ pricing_of doc = flatLinenPricing)
    /\ Num.intValue (ToNumber (read flatLinenPricing "total")) = Some 45).
Proof.
  intros (Haddr & Hpick & Hret & Hitems & Hprim) Hon.
  pose proof (nonempty_field_object _ _ Haddr) as Hprop.
  assert (Hnull : nullish (default_to (VObj []) (read req "items")) = false).
  { destruct (nullish _) eqn:E; [|reflexivity].
    apply default_to_nullish in E. contradiction. }
  item_facts Hprim.
  unfold postLinenOrders, try_catch.
  walk ltac:(first
    [ invalid
    | match goal with
      | G : negb _ || negb _ = true |- _ =>
          rewrite Hpick, Hret in G; discriminate
      end ]).
  cbn [json ret]. eexists _, _. split; [reflexivity|]. split; [reflexivity|].
  destruct Hsame as (Hd & Hc & _), Hsame0 as (Hd0 & Hc0 & _).
  cbn [docs advance with_counter with_docs logged body].
  rewrite Hc0, Hc. split; [reflexivity|]. split; [|reflexivity].
  eexists. split; [apply lookup_insert_eq|]. reflexivity.
Qed.

(** C7. Whatever the request and its items, a linen order that is created
    has the flat pricing 45 = 10 + 25 + 10 in AUD, returned and stored;
    and a valid request (the guards pass, [items] is not [null] and each
    of the six counts can be converted to a primitive) is answered 201
    when the store accepts the write. *)
Theorem C7_linen_flat_pricing (req : value) (w : world) :
  on_created (postLinenOrders req w) (fun resp w' =>
    pricing_of (body resp) = flatLinenPricing
    /\ exists doc,
         docs w' !! ("linen_orders", pretty (counter w)) = Some doc
         /\ pricing_of doc = flatLinenPricing)
  /\ (valid_linen_order req -> online w = true ->
      created_with (postLinenOrders req w) (fun resp w' =>
        pricing_of (body resp) = flatLinenPricing
        /\ (exists doc,
              docs w' !! ("linen_orders", pretty (counter w)) = Some doc
              /\ pricing_of doc = flatLinenPricing)
        /\ Num.intValue (ToNumber (read flatLinenPricing "total")) = Some 45)).
Proof.
  split; [|apply postLinenOrders_valid].
  unfold postLinenOrders, try_catch. walk not_created.
  cbn [json ret on_created status]. intros _.
  destruct Hsame as (Hd & Hc & _), Hsame0 as (Hd0 & Hc0 & _).
  cbn [docs advance with_counter with_docs logged body].
  rewrite Hc0, Hc. split; [reflexivity|].
  eexists. split; [apply lookup_insert_eq|]. reflexivity.
Qed.

Lemma C7_linen_flat_pricing_witness :
  valid_linen_order sampleLinenOrder
  /\ online emptyWorld = true
  /\ created_with (postLinenOrders sampleLinenOrder emptyWorld)
       (fun resp w' => pricing_of (body resp) = flatLinenPricing).
Proof.
  assert (Hv : valid_linen_order sampleLinenOrder).
  { do 3 (split; [vm_compute; reflexivity|]). split; [discriminate|].
    intros k Hk. cbn in Hk.
    repeat (destruct Hk as [<-|Hk]; [reflexivity|]). destruct Hk. }
  split; [exact Hv|]. split; [reflexivity|].
  destruct (proj2 (C7_linen_flat_pricing _ emptyWorld) Hv eq_refl)
    as (resp & w' & E & Hs & Hp & _).
  exists resp, w'. split; [exact E|]. split; [exact Hs|]. exact Hp.
Defined.

Lemma computeTurnoverPrice_sums_up arg pr :
  computeTurnoverPrice arg = Some pr -> sums_up pr.
Proof.
  unfold computeTurnoverPrice.
  destruct (get arg "bedrooms"), (get arg "bathrooms"), (get arg "addOns");
    try discriminate.
  cbv zeta.
  repeat match goal with
         | |- context [ match get ?v ?k with _ => _ end ] =>
             destruct (get v k); try discriminate
         | |- context [ match Number ?v with _ => _ end ] =>
             destruct (Number v); try discriminate
         end.
  intros [= <-]. reflexivity.
Qed.

(** C8. In every created quote, job and linen order, [pricing.total] is
    the sum of the values of [pricing.breakdown]; a job created with a
    numeric price has the single breakdown entry [customOverride], equal
    to the total. *)
Theorem C8_total_is_sum_of_breakdown (req : value) (w : world) :
  on_created (postQuotes req w) (fun resp w' =>
    sums_up (pricing_of (body resp))
    /\ exists doc, docs w' !! ("quotes", pretty (counter w)) = Some doc
                   /\ sums_up (pricing_of doc))
  /\ on_created (postLinenOrders req w) (fun resp w' =>
    sums_up (pricing_of (body resp))
    /\ exists doc, docs w' !! ("linen_orders", pretty (counter w)) = Some doc
                   /\ sums_up (pricing_of doc))
  /\ on_created (postJobs req w) (fun resp w' =>
    let shape pricing :=
      if String.eqb (typeof (read req "price")) "number"
      then read pricing "breakdown"
           = VObj [ ("customOverride", read pricing "total") ]
      else sums_up pricing in
    shape (pricing_of (body resp))
    /\ exists doc, docs w' !! ("jobs", pretty (counter w)) = Some doc
                   /\ shape (pricing_of doc)).
Proof.
  split; [|split].
  - unfold postQuotes, try_catch. walk not_created.
    all: cbn [json ret on_created status]; intros _.
    all: destruct Hsame as (Hd & Hc & _), Hsame0 as (Hd0 & Hc0 & _).
    all: cbn [docs advance with_counter with_docs logged body].
    all: rewrite Hc0, Hc.
    all: pose proof (computeTurnoverPrice_sums_up _ _ Epricing) as Hsum.
    all: split; [exact Hsum|].
    all: eexists; split; [apply lookup_insert_eq|].
    all: unfold pricing_of;
      cbn [resolve map read get lookup String.eqb Ascii.eqb Bool.eqb].
    all: rewrite (computeTurnoverPrice_resolve _ _ _ Epricing); exact Hsum.
  - unfold postLinenOrders, try_catch. walk not_created.
    cbn [json ret on_created status]. intros _.
    destruct Hsame as (Hd & Hc & _), Hsame0 as (Hd0 & Hc0 & _).
    cbn [docs advance with_counter with_docs logged body].
    rewrite Hc0, Hc. split; [reflexivity|].
    eexists. split; [apply lookup_insert_eq|]. reflexivity.
  - unfold postJobs, try_catch. walk not_created.
    cbn [json ret on_created status]. intros _.
    destruct Hsame as (Hd & Hc & _), Hsame0 as (Hd0 & Hc0 & _).
    cbn [docs advance with_counter with_docs logged body].
    rewrite Hc0, Hc.
    assert (Hshape :
      if String.eqb (typeof (read req "price")) "number"
      then read pricing "breakdown" = VObj [ ("customOverride", read pricing "total") ]
      else sums_up pricing).
    { rewrite jobPricing_primitive in Epricing by assumption.
      destruct (String.eqb (typeof (read req "price")) "number").
      - injection Epricing as <-. reflexivity.
      - eapply computeTurnoverPrice_sums_up, Epricing. }
    split; [exact Hshape|].
    eexists. split; [apply lookup_insert_eq|].
    unfold pricing_of. cbn [resolve map read get lookup String.eqb Ascii.eqb Bool.eqb].
    rewrite (jobPricing_resolve _ _ _ _ _ _ Epricing). exact Hshape.
Qed.

(* ===================================================================== *)
(** ** What the handlers write *)
(* ===================================================================== *)

Lemma writes_ok_refl w : writes_ok w w.
Proof. split; [reflexivity | left; split; reflexivity]. Qed.

Ltac same_world :=
  unfold writes_ok;
  cbn [snd sendError json ret try_catch docs sdk counter logged advance
       with_docs with_counter];
  unfold same_store in *;
  solve [ split; [ | left; split ]; intuition congruence ].

Ltac one_created :=
  unfold writes_ok;
  cbn [snd sendError json ret docs sdk counter logged advance with_docs
       with_counter];
  split; [reflexivity|]; right; left; eexists _, _;
  split; [reflexivity|]; split; [reflexivity|]; intros _; reflexivity.

Lemma postQuotes_writes_ok req w :
  has_FieldValue_serverTimestamp (sdk w) = true ->
  writes_ok w (snd (postQuotes req w)).
Proof.
  intros Hfv. unfold postQuotes, try_catch. walk same_world.
  all: one_created.
Qed.

Lemma postLinenOrders_writes_ok req w :
  has_FieldValue_serverTimestamp (sdk w) = true ->
  writes_ok w (snd (postLinenOrders req w)).
Proof.
  intros Hfv. unfold postLinenOrders, try_catch. walk same_world.
  all: one_created.
Qed.

Lemma postJobs_writes_ok req w :
  has_FieldValue_serverTimestamp (sdk w) = true ->
  writes_ok w (snd (postJobs req w)).
Proof.
  intros Hfv. unfold postJobs, try_catch. walk same_world.
  all: one_created.
Qed.

Lemma getById_writes_ok coll missing failed id w :
  writes_ok w (snd (getById coll missing failed id w)).
Proof.
  unfold getById, try_catch. walk same_world.
Qed.

(** No reference taken from the jobs names a quote or a linen order. *)
Lemma jobs_ref_mutable id r :
  doc "jobs" id = Some r -> ~ immutable_collection (fst (target r)).
Proof.
  intros E. destruct (doc_collection _ _ _ E) as [rest ->].
  intros [H|H]; discriminate H.
Qed.

Lemma patchChecklist_writes_ok id req w :
  writes_ok w (snd (patchChecklist id req w)).
Proof.
  unfold patchChecklist, try_catch. cbv zeta.
  split_if; [same_world|].
  destruct (checklistLoop _ _ _) as [k|[update0 hasAny]]; [same_world|].
  walk same_world.
  all: unfold writes_ok, same_store in *.
  all: cbn [snd sendError json ret docs sdk counter logged advance with_docs
            with_counter].
  all: destruct Hsame as (Hd & Hc & _ & Hs & _).
  all: split; [exact Hs|]; right; right; eexists (target ref), _, _.
  all: split; [eapply jobs_ref_mutable; eassumption|].
  all: split; [rewrite <- Hd; eassumption|].
  all: split; [rewrite Hd; reflexivity | exact Hc].
Qed.

Lemma handle_writes_ok r w :
  has_FieldValue_serverTimestamp (sdk w) = true ->
  writes_ok w (snd (handle r w)).
Proof.
  intros Hfv. destruct r; cbn [handle].
  - apply postQuotes_writes_ok, Hfv.
  - apply getById_writes_ok.
  - apply postJobs_writes_ok, Hfv.
  - apply patchChecklist_writes_ok.
  - apply getById_writes_ok.
  - apply postLinenOrders_writes_ok, Hfv.
  - apply getById_writes_ok.
  - apply writes_ok_refl.
Qed.

Lemma environment_writes_ok w w' :
  docs w' = docs w -> counter w' = counter w -> sdk w' = sdk w ->
  writes_ok w w'.
Proof. intros Hd Hc Hs. split; [exact Hs | left; split; assumption]. Qed.

Lemma step_writes_ok w w' :
  step w w' -> has_FieldValue_serverTimestamp (sdk w) = true -> writes_ok w w'.
Proof.
  intros [r w1|w1 w2 Hd Hc Hs] Hfv;
    [apply handle_writes_ok, Hfv | apply environment_writes_ok; assumption].
Qed.

(** Agreement of the timestamps survives a write. *)
Lemma writes_ok_stamps w w' :
  writes_ok w w' -> immutable_stamps_agree w -> immutable_stamps_agree w'.
Proof.
  intros [_ [[Hd _]|[(coll & doc & Hd & _ & Hdoc)
                    |(key & old & doc & Hmut & _ & Hd & _)]]]
    Hinv coll' id' doc' Himm; rewrite Hd.
  - apply Hinv, Himm.
  - destruct (decide ((coll, pretty (counter w)) = (coll', id'))) as [[= <- <-]|Hne].
    + rewrite lookup_insert_eq. intros [= <-]. apply Hdoc, Himm.
    + rewrite lookup_insert_ne by exact Hne. apply Hinv, Himm.
  - rewrite lookup_insert_ne; [apply Hinv, Himm|].
    intros ->. exact (Hmut Himm).
Qed.

(** Ids are issued in order, so a new document never lands on an old one. *)
Lemma writes_ok_ids w w' :
  writes_ok w w' -> ids_issued w -> ids_issued w'.
Proof.
  intros [_ [[Hd Hc]|[(coll & doc & Hd & Hc & _)
                     |(key & old & doc & _ & Hold & Hd & Hc)]]]
    Hinv coll' id' Hsome; unfold ids_issued in Hinv;
    rewrite Hd in Hsome; rewrite Hc.
  - apply Hinv in Hsome. exact Hsome.
  - destruct (decide ((coll, pretty (counter w)) = (coll', id'))) as [[= <- <-]|Hne].
    + exists (counter w). split; [reflexivity | lia].
    + rewrite lookup_insert_ne in Hsome by exact Hne.
      destruct (Hinv _ _ Hsome) as (n & -> & Hn). exists n. split; [reflexivity|lia].
  - destruct (decide (key = (coll', id'))) as [->|Hne].
    + apply (Hinv coll' id'). rewrite Hold. eauto.
    + rewrite lookup_insert_ne in Hsome by exact Hne.
      apply Hinv in Hsome. exact Hsome.
Qed.

(** A document of an immutable collection is never written again. *)
Lemma writes_ok_immutable w w' coll id doc :
  writes_ok w w' -> ids_issued w -> immutable_collection coll ->
  docs w !! (coll, id) = Some doc -> docs w' !! (coll, id) = Some doc.
Proof.
  intros [_ [[Hd _]|[(coll' & doc' & Hd & _)
                    |(key & old & doc' & Hmut & _ & Hd & _)]]]
    Hids Himm Hdoc; rewrite Hd.
  - exact Hdoc.
  - rewrite lookup_insert_ne; [exact Hdoc|].
    intros [= -> <-].
    destruct (Hids coll (pretty (counter w))) as (n & Heq & Hn);
      [rewrite Hdoc; eauto|].
    apply (inj pretty) in Heq. lia.
  - rewrite lookup_insert_ne; [exact Hdoc|].
    intros ->. exact (Hmut Himm).
Qed.

Lemma reachable_invariant w0 w :
  reachable w0 w ->
  has_FieldValue_serverTimestamp (sdk w0) = true ->
  ids_issued w0 ->
  has_FieldValue_serverTimestamp (sdk w) = true
  /\ ids_issued w
  /\ (immutable_stamps_agree w0 -> immutable_stamps_agree w)
  /\ (forall coll id doc,
        immutable_collection coll ->
        docs w0 !! (coll, id) = Some doc -> docs w !! (coll, id) = Some doc).
Proof.
  intros Hr Hfv Hids. induction Hr as [|w w' Hr IH Hstep].
  - repeat split; auto.
  - destruct IH as (Hfv' & Hids' & Hstamps & Hsame).
    pose proof (step_writes_ok _ _ Hstep Hfv') as Hw.
    split; [destruct Hw as [-> _]; exact Hfv'|].
    split; [eapply writes_ok_ids; eassumption|].
    split; [intros H0; eapply writes_ok_stamps; eauto|].
    intros coll id doc Himm Hdoc.
    eapply writes_ok_immutable; eauto.
Qed.

(* ===================================================================== *)
(** ** The checklist update *)
(* ===================================================================== *)

Lemma checklistLoop_filter es : forall update hasAny,
  checklistLoop es update hasAny
  = checklistLoop (List.filter recognized es) update hasAny.
Proof.
  induction es as [|[k v] es IH]; intros update hasAny; [reflexivity|].
  cbn [List.filter checklistLoop]. unfold recognized at 1. cbn [fst].
  destruct (includes allowedKeys k) eqn:Ek; cbn [negb].
  - cbn [checklistLoop]. rewrite Ek. cbn [negb].
    destruct (String.eqb (typeof v) "boolean"); cbn [negb]; [apply IH|reflexivity].
  - apply IH.
Qed.

Lemma checklistLoop_bad es : forall update hasAny,
  bad_field es ->
  exists k v, In (k, v) es /\ recognized (k, v) = true /\ is_boolean v = false
              /\ checklistLoop es update hasAny = inl k.
Proof.
  induction es as [|[k0 v0] es IH]; intros update hasAny (k & v & Hin & Hk & Hv).
  - destruct Hin.
  - cbn [checklistLoop].
    destruct (includes allowedKeys k0) eqn:Ek0; cbn [negb].
    + destruct (String.eqb (typeof v0) "boolean") eqn:Ev0; cbn [negb].
      * destruct Hin as [[= -> ->]|Hin]; [unfold is_boolean in Hv; congruence|].
        destruct (IH (set ("checklist." ++ k0) v0 update) true)
          as (k' & v' & Hin' & Hk' & Hv' & Hloop); [exists k, v; auto|].
        exists k', v'. repeat split; auto. right. exact Hin'.
      * exists k0, v0. repeat split; auto. left. reflexivity.
    + destruct Hin as [[= -> ->]|Hin];
        [unfold recognized in Hk; cbn [fst] in Hk; congruence|].
      destruct (IH update hasAny)
        as (k' & v' & Hin' & Hk' & Hv' & Hloop); [exists k, v; auto|].
      exists k', v'. repeat split; auto. right. exact Hin'.
Qed.

Lemma checklistLoop_none es : forall update hasAny,
  no_field es -> checklistLoop es update hasAny = inr (update, hasAny).
Proof.
  induction es as [|[k0 v0] es IH]; intros update hasAny Hno; [reflexivity|].
  cbn [checklistLoop].
  pose proof (Hno k0 v0 (or_introl eq_refl)) as Hk0.
  unfold recognized in Hk0. cbn [fst] in Hk0. rewrite Hk0. cbn [negb].
  apply IH. intros k v Hin. apply Hno. right. exact Hin.
Qed.

(** An invalid body is answered 400 before anything else happens. *)
Lemma patchChecklist_invalid id req w :
  invalid_checklist_body req ->
  exists message,
    patchChecklist id req w = (Returned (rejected 400 message), w)
    /\ (bad_field (entries (or_else req (VObj []))) ->
        not_an_object (or_else req (VObj [])) = false ->
        exists k v, In (k, v) (entries (or_else req (VObj [])))
                    /\ recognized (k, v) = true /\ is_boolean v = false
                    /\ message = "Checklist field " ++ k ++ " must be boolean")
    /\ (no_field (entries (or_else req (VObj []))) ->
        not_an_object (or_else req (VObj [])) = false ->
        message = "No valid checklist fields provided").
Proof.
  intros Hinv. unfold patchChecklist, try_catch. cbv zeta.
  destruct (not_an_object (or_else req (VObj []))) eqn:Hobj.
  - eexists. split; [reflexivity|]. split; intros; discriminate.
  - destruct Hinv as [Hbad|Hno].
    + destruct (checklistLoop_bad _ [] false Hbad) as (k & v & Hin & Hk & Hv & Hloop).
      rewrite Hloop. eexists. split; [reflexivity|]. split.
      * intros _ _. exists k, v. auto.
      * intros Hno _. specialize (Hno k v Hin). congruence.
    + rewrite (checklistLoop_none _ [] false Hno). cbn [negb].
      eexists. split; [reflexivity|]. split.
      * intros (k & v & Hin & Hk & _) _. specialize (Hno k v Hin). congruence.
      * reflexivity.
Qed.

(** C6. In a checklist update, keys outside the seven recognized names are
    ignored; a recognized key with a non-boolean value fails the whole
    request with a 400 naming such a field, and zero recognized keys fail
    it with a 400; in both cases nothing of the store changes. *)
Theorem C6_checklist_update_validation (id : string)
  (fields : list (string * value)) (w : world) :
  patchChecklist id (VObj fields) w
  = patchChecklist id (VObj (List.filter recognized fields)) w
  /\ (bad_field fields ->
      exists k v,
        In (k, v) fields /\ recognized (k, v) = true /\ is_boolean v = false
        /\ patchChecklist id (VObj fields) w
           = (Returned (rejected 400 ("Checklist field " ++ k ++ " must be boolean")),
              w))
  /\ (no_field fields ->
      patchChecklist id (VObj fields) w
      = (Returned (rejected 400 "No valid checklist fields provided"), w)).
Proof.
  split; [|split].
  - unfold patchChecklist. cbv zeta. cbn [or_else truthy not_an_object typeof
      negb String.eqb Ascii.eqb Bool.eqb orb entries].
    rewrite checklistLoop_filter. reflexivity.
  - intros Hbad.
    destruct (patchChecklist_invalid id (VObj fields) w (or_introl Hbad))
      as (message & Hrun & Hmsg & _).
    destruct (Hmsg Hbad eq_refl) as (k & v & Hin & Hk & Hv & ->).
    exists k, v. auto.
  - intros Hno.
    destruct (patchChecklist_invalid id (VObj fields) w (or_intror Hno))
      as (message & Hrun & _ & Hmsg).
    rewrite (Hmsg Hno eq_refl) in Hrun. exact Hrun.
Qed.

Lemma C6_checklist_update_validation_witness :
  let fields := [ ("note", VStr "x"); ("floorsDone", VStr "yes") ] in
  bad_field fields
  /\ exists k v,
       In (k, v) fields /\ recognized (k, v) = true /\ is_boolean v = false
       /\ patchChecklist "0" (VObj fields) emptyWorld
          = (Returned (rejected 400 ("Checklist field " ++ k ++ " must be boolean")),
             emptyWorld).
Proof.
  intros fields.
  assert (Hbad : bad_field fields).
  { exists "floorsDone", (VStr "yes"). repeat split; try reflexivity.
    right. left. reflexivity. }
  split; [exact Hbad|].
  exact (proj1 (proj2 (C6_checklist_update_validation "0" fields emptyWorld)) Hbad).
Defined.

(** C10. The body of a checklist update is validated before the job is
    looked up: an invalid body is answered 400 whether or not the job
    exists, whatever the id and whether or not the store is reachable, and
    the store is neither read nor written.  A valid body, by contrast,
    reaches the lookup: it is answered 404 after one read when the id names
    a document that is not stored, and 500 without any read when the client
    refuses the id. *)
Theorem C10_validation_before_lookup (id : string) (req : value) (w : world) :
  invalid_checklist_body req ->
  (exists message,
     patchChecklist id req w = (Returned (rejected 400 message), w))
  /\ status (response_of (patchChecklist id req w)) = 400
  /\ trace (snd (patchChecklist id req w)) = trace w
  /\ docs (snd (patchChecklist id req w)) = docs w
  /\ (forall k b r,
        includes allowedKeys k = true ->
        doc "jobs" id = Some r ->
        docs w !! target r = None -> online w = true ->
        let run := patchChecklist id (VObj [ (k, VBool b) ]) w in
        status (response_of run) = 404
        /\ trace (snd run) = (trace w ++ [ OpGet "jobs" id ])%list)
  /\ (forall k b,
        includes allowedKeys k = true ->
        doc "jobs" id = None ->
        let run := patchChecklist id (VObj [ (k, VBool b) ]) w in
        status (response_of run) = 500
        /\ trace (snd run) = trace w /\ docs (snd run) = docs w).
Proof.
  intros Hinv.
  destruct (patchChecklist_invalid id req w Hinv) as (message & Hrun & _).
  split; [eauto|]. rewrite Hrun.
  split; [reflexivity|]. split; [reflexivity|]. split; [reflexivity|].
  split.
  - intros k b r Hk Hdoc Hmissing Hon run. unfold run, patchChecklist, try_catch.
    cbv zeta. cbn [or_else truthy not_an_object typeof negb String.eqb Ascii.eqb
      Bool.eqb orb entries checklistLoop].
    rewrite Hk. cbn [negb].
    pose proof (doc_asked _ _ _ Hdoc) as Hasked.
    walk idtac.
    all: unfold same_store in *; cbn.
    all: repeat match goal with H : _ /\ _ |- _ => destruct H end.
    all: first [ congruence | split; congruence ].
  - intros k b Hk Hdoc. cbv zeta.
    assert (E : exists w',
              patchChecklist id (VObj [ (k, VBool b) ]) w
              = (Returned (rejected 500 "Failed to update checklist"), w')
              /\ same_store w w').
    { unfold patchChecklist, try_catch.
      cbv zeta. cbn [or_else truthy not_an_object typeof negb String.eqb
        Ascii.eqb Bool.eqb orb entries checklistLoop].
      rewrite Hk. cbn [negb].
      step_stamp. unfold bind at 1. rewrite Hdoc. cbn [lift throw].
      eexists. split; [reflexivity | exact Hsame]. }
    destruct E as (w' & -> & Hd & _ & _ & _ & Ht).
    cbn. auto.
Qed.

(* ===================================================================== *)
(** ** Validation of the room counts *)
(* ===================================================================== *)

Lemma negative_not_positiveInt x :
  Num.lt x Num.pzero = true -> isPositiveInt x = false.
Proof.
  unfold Num.lt, SFltb, isPositiveInt, Num.ge, SFleb.
  destruct x as [s|[]| |[] m e]; simpl; intros; try discriminate;
    reflexivity || apply andb_false_r.
Qed.

Lemma fractional_not_positiveInt x :
  Num.intValue x = None -> isPositiveInt x = false.
Proof. unfold isPositiveInt, Num.isInteger. intros ->. reflexivity. Qed.

(** The verdict on the counts, for a handler unfolded to its body. *)
Ltac count_verdict_of unfolder :=
  split; [|split];
  [ intros n Hn Hbad; apply Number_some in Hn as [Hprim ->];
    unfolder; walk invalid; reflexivity
  | intros Hn; apply Number_none in Hn;
    unfolder; walk invalid; reflexivity
  | intros n Hn Hok; apply Number_some in Hn as [Hprim ->];
    split; [|split];
    [ intros m Hm Hbad; apply Number_some in Hm as [Hprim' ->];
      unfolder; walk invalid; reflexivity
    | intros Hm; apply Number_none in Hm;
      unfolder; walk invalid; reflexivity
    | intros m Hm Hok'; apply Number_some in Hm as [Hprim' ->];
      unfolder; walk invalid; cbn; discriminate ] ].

Lemma postQuotes_count_verdict req w :
  isNonEmptyString (read req "hostName") = true ->
  isNonEmptyString (read req "email") = true ->
  isNonEmptyString (read (read req "property") "address") = true ->
  count_verdict (postQuotes req w) w "Failed to create quote"
    (read (read req "property") "bedrooms")
    (read (read req "property") "bathrooms").
Proof.
  intros Hhost Hemail Haddr.
  pose proof (nonempty_field_object _ _ Haddr) as Hprop.
  count_verdict_of ltac:(unfold postQuotes, try_catch).
Qed.

Lemma postJobs_count_verdict req w :
  isNonEmptyString (read (read req "schedule") "start") = true ->
  isNonEmptyString (read (read req "schedule") "end") = true ->
  isNonEmptyString (read (read req "property") "address") = true ->
  count_verdict (postJobs req w) w "Failed to create job"
    (read (read req "property") "bedrooms")
    (read (read req "property") "bathrooms").
Proof.
  intros Hstart Hend Haddr.
  pose proof (nonempty_field_object _ _ Hstart) as Hsched.
  pose proof (nonempty_field_object _ _ Haddr) as Hprop.
  count_verdict_of ltac:(unfold postJobs, try_catch).
Qed.

(** C3, as the code has it.  On quote and job creation a room count
    passes the validator exactly when its numeric coercion gives an
    integer that is at least 0.  A count whose coercion is negative, not
    an integer or NaN fails, and the request is answered 400 with a
    message naming the count (the first failing one), as soon as the
    guards before it pass; a count whose coercion throws is answered with
    the handler's 500; and no 400 is sent for the counts when both pass.
    What decides is the coerced number, not the kind of the value. *)
Theorem C3_count_validation_amended (req : value) (w : world) :
  let property := read req "property" in
  let bedrooms := read property "bedrooms" in
  let bathrooms := read property "bathrooms" in
  isNonEmptyString (read property "address") = true ->
  (forall n, isPositiveInt n = true
             <-> exists z, Num.intValue n = Some z /\ 0 <= z)
  /\ (forall n, Num.lt n Num.pzero = true -> isPositiveInt n = false)
  /\ (forall n, Num.intValue n = None -> isPositiveInt n = false)
  /\ isPositiveInt Num.NaN = false
  /\ (forall v, Number v = None <-> no_primitive v = true)
  /\ (isNonEmptyString (read req "hostName") = true ->
      isNonEmptyString (read req "email") = true ->
      count_verdict (postQuotes req w) w "Failed to create quote"
        bedrooms bathrooms)
  /\ (isNonEmptyString (read (read req "schedule") "start") = true ->
      isNonEmptyString (read (read req "schedule") "end") = true ->
      count_verdict (postJobs req w) w "Failed to create job"
        bedrooms bathrooms).
Proof.
  intros property bedrooms bathrooms Haddr.
  split; [intros n; apply isPositiveInt_spec|].
  split; [intros n; apply negative_not_positiveInt|].
  split; [intros n; apply fractional_not_positiveInt|].
  split; [reflexivity|].
  split; [intros v; split; [apply Number_none | apply Number_throws]|].
  split; intros; [apply postQuotes_count_verdict|apply postJobs_count_verdict];
    assumption.
Qed.

(** The claim as stated fails: [null] is not a number, yet it coerces to 0
    and passes the validator, and so does [true], which coerces to 1; the
    quote is created. *)
Lemma C3_non_numeric_count_counterexample :
  let req := VObj [ ("hostName", VStr "Alex"); ("email", VStr "a@b.com");
                    ("property", sampleProperty VNull (VBool true)) ] in
  typeof VNull <> "number" /\ typeof (VBool true) <> "number"
  /\ status (response_of (postQuotes req emptyWorld)) = 201
  /\ read (read (body (response_of (postQuotes req emptyWorld))) "property")
       "bedrooms" = VNum Num.pzero.
Proof. vm_compute. repeat split; discriminate. Qed.

(** Nor is every rejected count answered 400: a count that cannot be
    converted to a primitive makes [Number] throw, and the answer is 500. *)
Example count_without_primitive_is_answered_500 :
  let req := VObj [ ("hostName", VStr "Alex"); ("email", VStr "a@b.com");
                    ("property",
                      sampleProperty (VObj [ ("toString", VNum Num.pzero) ])
                        (VNum (Num.of_Z 1))) ] in
  postQuotes req emptyWorld
  = (Returned (rejected 500 "Failed to create quote"), emptyWorld).
Proof. vm_compute. reflexivity. Qed.

(* ===================================================================== *)
(** ** Malformed counts in the pricing engine *)
(* ===================================================================== *)

Lemma or_zero_default v :
  or_zero (ToNumber (default_to (VNum Num.pzero) v)) = or_zero (ToNumber v).
Proof. destruct v; reflexivity. Qed.

Lemma or_zero_falsy x : Num.truthy x = false -> or_zero x = Num.pzero.
Proof. unfold or_zero. intros ->. reflexivity. Qed.

Lemma negative_truthy x : Num.lt x Num.pzero = true -> or_zero x = x.
Proof.
  unfold Num.lt, SFltb, or_zero.
  destruct x as [s|[]| |[] m e]; simpl; intros; try discriminate; reflexivity.
Qed.

Lemma no_primitive_default v :
  no_primitive (default_to (VNum Num.pzero) v) = no_primitive v.
Proof. destruct v; reflexivity. Qed.

(** C2, as the code has it.  Given add-ons that are not [null],
    [computeTurnoverPrice] returns a result for every bedrooms and
    bathrooms value that can be converted to a primitive: a value whose
    numeric coercion is NaN or zero contributes as 0 would; a negative
    number is kept and contributes the rate times itself.  A value that
    cannot be converted makes the function throw. *)
Theorem C2_malformed_counts_amended (bedrooms bathrooms addOns : value) :
  addOns <> VNull ->
  (no_primitive bedrooms = false -> no_primitive bathrooms = false ->
   exists pr,
     computeTurnoverPrice (turnoverArg bedrooms bathrooms addOns) = Some pr
     /\ read (read pr "breakdown") "bedroomsCost"
        = VNum (Num.mul (or_zero (ToNumber bedrooms)) (Num.of_Z 20))
     /\ read (read pr "breakdown") "bathroomsCost"
        = VNum (Num.mul (or_zero (ToNumber bathrooms)) (Num.of_Z 15))
     /\ (Num.truthy (ToNumber bedrooms) = false ->
         computeTurnoverPrice (turnoverArg (VNum Num.pzero) bathrooms addOns)
         = Some pr)
     /\ (Num.truthy (ToNumber bathrooms) = false ->
         computeTurnoverPrice (turnoverArg bedrooms (VNum Num.pzero) addOns)
         = Some pr)
     /\ (Num.lt (ToNumber bedrooms) Num.pzero = true ->
         read (read pr "breakdown") "bedroomsCost"
         = VNum (Num.mul (ToNumber bedrooms) (Num.of_Z 20)))
     /\ (Num.lt (ToNumber bathrooms) Num.pzero = true ->
         read (read pr "breakdown") "bathroomsCost"
         = VNum (Num.mul (ToNumber bathrooms) (Num.of_Z 15))))
  /\ (no_primitive bedrooms = true \/ no_primitive bathrooms = true ->
      computeTurnoverPrice (turnoverArg bedrooms bathrooms addOns) = None).
Proof.
  intros Haddons.
  assert (Hget : forall k, exists x,
            get (default_to (VObj []) addOns) k = Some x).
  { intros k. destruct addOns; try contradiction; cbn; eauto. }
  destruct (Hget "deepClean") as [dc Hdc], (Hget "premiumLinen") as [pl Hpl].
  split.
  - intros Hb Hba.
    unfold computeTurnoverPrice, turnoverArg.
    cbn [get lookup String.eqb Ascii.eqb Bool.eqb]. cbv zeta.
    rewrite Hdc, Hpl.
    rewrite !Number_primitive
      by (rewrite no_primitive_default; first [assumption | reflexivity]).
    rewrite !or_zero_default.
    eexists. split; [reflexivity|].
    split; [reflexivity|]. split; [reflexivity|].
    split; [|split; [|split]].
    + intros Hfalsy. rewrite (or_zero_falsy _ Hfalsy). reflexivity.
    + intros Hfalsy. rewrite (or_zero_falsy _ Hfalsy). reflexivity.
    + intros Hneg. rewrite (negative_truthy _ Hneg). reflexivity.
    + intros Hneg. rewrite (negative_truthy _ Hneg). reflexivity.
  - intros Hthrow.
    unfold computeTurnoverPrice, turnoverArg.
    cbn [get lookup String.eqb Ascii.eqb Bool.eqb]. cbv zeta.
    rewrite Hdc, Hpl. unfold Number. rewrite !no_primitive_default.
    destruct Hthrow as [-> | ->]; [reflexivity|].
    destruct (no_primitive bedrooms); reflexivity.
Qed.

Lemma C2_malformed_counts_amended_witness :
  VObj [] <> VNull
  /\ no_primitive (VStr "abc") = false /\ no_primitive VNull = false
  /\ computeTurnoverPrice (turnoverArg (VStr "abc") VNull (VObj []))
     = computeTurnoverPrice (turnoverArg (VNum Num.pzero) VNull (VObj [])).
Proof.
  split; [discriminate|]. split; [reflexivity|]. split; [reflexivity|].
  destruct (proj1 (C2_malformed_counts_amended (VStr "abc") VNull (VObj [])
                     ltac:(discriminate)) eq_refl eq_refl)
    as (pr & Hrun & _ & _ & Hzero & _).
  rewrite Hrun. symmetry. apply Hzero. vm_compute. reflexivity.
Defined.

(** C2, as the specification states it, fails on a negative number: -3
    bedrooms are not priced as 0 bedrooms, they take 60 off the total. *)
Lemma C2_negative_count_counterexample :
  let negative := VNum (Num.of_Z (-3)) in
  let zero := VNum Num.pzero in
  Num.lt (ToNumber negative) Num.pzero = true
  /\ computeTurnoverPrice (turnoverArg negative zero (VObj []))
     <> computeTurnoverPrice (turnoverArg zero zero (VObj []))
  /\ (exists pr,
        computeTurnoverPrice (turnoverArg negative zero (VObj [])) = Some pr
        /\ read (read pr "breakdown") "bedroomsCost" = VNum (Num.of_Z (-60))
        /\ read pr "total" = VNum (Num.of_Z 25))
  /\ (exists pr,
        computeTurnoverPrice (turnoverArg zero zero (VObj [])) = Some pr
        /\ read (read pr "breakdown") "bedroomsCost" = VNum Num.pzero
        /\ read pr "total" = VNum (Num.of_Z 85)).
Proof.
  cbv zeta. split; [reflexivity|]. split; [|split].
  - vm_compute. discriminate.
  - eexists. split; [reflexivity|]. split; vm_compute; reflexivity.
  - eexists. split; [reflexivity|]. split; vm_compute; reflexivity.
Qed.

(** Nor does every malformed count give a result: a count with a
    [toString] property of its own cannot be converted, and the function
    throws. *)
Example count_without_primitive_throws :
  computeTurnoverPrice
    (turnoverArg (VObj [ ("toString", VNum Num.pzero) ]) (VNum Num.pzero)
       (VObj []))
  = None.
Proof. reflexivity. Qed.

(* ===================================================================== *)
(** ** Timestamps *)
(* ===================================================================== *)

Ltac stamped :=
  cbn [json ret on_created status]; intros _;
  cbn [docs advance with_counter with_docs logged body];
  split; [reflexivity|];
  eexists; split; [apply lookup_insert_eq|]; split; reflexivity.

(** C9. With the server timestamps of the Firestore SDK
    ([FieldValue.serverTimestamp], which firebase-admin provides), a
    created quote, job or linen order is returned with the same sentinel
    in [createdAt] and [updatedAt] and stored with both set to the commit
    time; and whatever requests follow, every quote and every linen order
    stays the document it was, with the two timestamps equal. *)
Theorem C9_timestamps_agree (w0 : world) :
  has_FieldValue_serverTimestamp (sdk w0) = true ->
  let created coll (resp : response) (w' : world) :=
    stamps_agree (body resp)
    /\ exists doc,
         docs w' !! (coll, pretty (counter w0)) = Some doc
         /\ read doc "createdAt" = VTimestamp (now w0)
         /\ read doc "updatedAt" = VTimestamp (now w0) in
  (forall req, on_created (postQuotes req w0) (created "quotes"))
  /\ (forall req, on_created (postJobs req w0) (created "jobs"))
  /\ (forall req, on_created (postLinenOrders req w0) (created "linen_orders"))
  /\ (ids_issued w0 ->
      forall w, reachable w0 w ->
        (immutable_stamps_agree w0 -> immutable_stamps_agree w)
        /\ (forall coll id doc,
              immutable_collection coll ->
              docs w0 !! (coll, id) = Some doc ->
              docs w !! (coll, id) = Some doc)).
Proof.
  intros Hfv created. split; [|split; [|split]].
  - intros req. unfold postQuotes, try_catch. walk not_created. all: stamped.
  - intros req. unfold postJobs, try_catch. walk not_created. all: stamped.
  - intros req. unfold postLinenOrders, try_catch. walk not_created.
    all: stamped.
  - intros Hids w Hr.
    destruct (reachable_invariant w0 w Hr Hfv Hids) as (_ & _ & Hstamps & Hsame).
    split; assumption.
Qed.

Lemma C9_timestamps_agree_witness :
  has_FieldValue_serverTimestamp (sdk emptyWorld) = true
  /\ forall w, reachable emptyWorld w -> immutable_stamps_agree w.
Proof.
  split; [reflexivity|].
  assert (Hids : ids_issued emptyWorld).
  { intros coll id [doc Hdoc]. unfold emptyWorld in Hdoc. cbn [docs] in Hdoc.
    rewrite lookup_empty in Hdoc. discriminate. }
  intros w Hr.
  apply (proj2 (proj2 (proj2 (C9_timestamps_agree emptyWorld eq_refl))) Hids w Hr).
  intros coll id doc _ Hdoc. unfold emptyWorld in Hdoc. cbn [docs] in Hdoc.
  rewrite lookup_empty in Hdoc. discriminate.
Defined.

(** Without the SDK's server timestamps the handler reads the clock twice,
    and the two readings differ as soon as time passes in between. *)
Remark clock_fallback_stamps_may_differ :
  let w := {| docs := ∅; counter := 0; now := 1000; ticks := [ 5; 0; 7 ]%nat;
              online := true;
              sdk := {| has_FieldValue_serverTimestamp := false;
                        has_Timestamp_now := true |};
              trace := [] |} in
  let resp := response_of (postQuotes sampleQuote w) in
  status resp = 201
  /\ read (body resp) "createdAt" = VTimestamp 1000
  /\ read (body resp) "updatedAt" = VTimestamp 1005.
Proof. vm_compute. repeat split; reflexivity. Qed.

(* ===================================================================== *)
(** ** The theorems on sample requests *)
(* ===================================================================== *)

Lemma C1_turnover_price_formula_witness :
  let b := Num.of_Z 2 in
  let ba := Num.of_Z 1 in
  Num.intValue b = Some 2 /\ Num.intValue ba = Some 1
  /\ exists breakdown,
       computeTurnoverPrice (turnoverArg (VNum b) (VNum ba) (addOnFlags false true))
       = Some (VObj [ ("total", VNum (Num.of_Z 175));
                      ("breakdown", VObj breakdown);
                      ("currency", VStr "AUD") ])
       /\ Num.sum (numeric_values (VObj breakdown)) = Num.of_Z 175.
Proof.
  cbv zeta. split; [reflexivity|]. split; [reflexivity|].
  destruct (C1_turnover_price_formula (Num.of_Z 2) (Num.of_Z 1) 2 1 false true
              eq_refl ltac:(lia) eq_refl ltac:(lia))
    as (breakdown & Hrun & _ & Hsum & _).
  exists breakdown. split; [exact Hrun | exact Hsum].
Defined.

Lemma C8_total_is_sum_of_breakdown_witness :
  let run := postQuotes sampleQuote emptyWorld in
  status (response_of run) = 201
  /\ sums_up (pricing_of (body (response_of run)))
  /\ Num.intValue (ToNumber (read (pricing_of (body (response_of run))) "total"))
     = Some 140.
Proof.
  intros run.
  assert (Hrun : run = (Returned (response_of run), snd run))
    by (vm_compute; reflexivity).
  assert (Hs : status (response_of run) = 201) by (vm_compute; reflexivity).
  split; [exact Hs|].
  pose proof (proj1 (C8_total_is_sum_of_breakdown sampleQuote emptyWorld)) as H.
  fold run in H. rewrite Hrun in H.
  split; [exact (proj1 (H Hs)) | vm_compute; reflexivity].
Defined.

Lemma C3_count_validation_amended_witness :
  let req := VObj [ ("hostName", VStr "Alex"); ("email", VStr "a@b.com");
                    ("property",
                      sampleProperty (VNum (Num.of_Z (-1))) (VStr "1.5")) ] in
  isNonEmptyString (read (read req "property") "address") = true
  /\ postQuotes req emptyWorld
     = (Returned (rejected 400
                    "property.bedrooms must be a non-negative integer"),
        emptyWorld).
Proof.
  intros req.
  assert (Haddr : isNonEmptyString (read (read req "property") "address") = true)
    by (vm_compute; reflexivity).
  split; [exact Haddr|].
  destruct (C3_count_validation_amended req emptyWorld Haddr)
    as (_ & _ & _ & _ & _ & Hquotes & _).
  apply (proj1 (Hquotes eq_refl eq_refl) (Num.of_Z (-1)));
    vm_compute; reflexivity.
Defined.

Lemma C10_validation_before_lookup_witness :
  let req := VObj [ ("floorsDone", VStr "yes") ] in
  let ok := VObj [ ("floorsDone", VBool true) ] in
  invalid_checklist_body req
  /\ docs emptyWorld !! ("jobs", "no-such-job") = None
  /\ status (response_of (patchChecklist "no-such-job" req emptyWorld)) = 400
  /\ trace (snd (patchChecklist "no-such-job" req emptyWorld)) = []
  /\ status (response_of (patchChecklist "no-such-job" ok emptyWorld)) = 404
  /\ trace (snd (patchChecklist "no-such-job" ok emptyWorld))
     = [ OpGet "jobs" "no-such-job" ]
  /\ status (response_of (patchChecklist "a/b" req emptyWorld)) = 400
  /\ status (response_of (patchChecklist "a/b" ok emptyWorld)) = 500
  /\ trace (snd (patchChecklist "a/b" ok emptyWorld)) = [].
Proof.
  intros req ok.
  assert (Hinv : invalid_checklist_body req).
  { left. exists "floorsDone", (VStr "yes"). repeat split; try reflexivity.
    left. reflexivity. }
  split; [exact Hinv|]. split; [reflexivity|].
  destruct (C10_validation_before_lookup "no-such-job" req emptyWorld Hinv)
    as (_ & Hs & Ht & _ & Hmissing & _).
  destruct (C10_validation_before_lookup "a/b" req emptyWorld Hinv)
    as (_ & Hs' & _ & _ & _ & Hrefused).
  split; [exact Hs|]. split; [exact Ht|].
  destruct (Hmissing "floorsDone" true (plain_ref "jobs" "no-such-job")
              eq_refl eq_refl eq_refl eq_refl) as [H404 Hread].
  split; [exact H404|]. split; [exact Hread|]. split; [exact Hs'|].
  destruct (Hrefused "floorsDone" true eq_refl eq_refl) as (H500 & Hnone & _).
  split; [exact H500 | exact Hnone].
Defined.

(** The worked examples of the specification. *)
Example quote_for_two_bedrooms_one_bathroom :
  let resp := response_of (postQuotes sampleQuote emptyWorld) in
  status resp = 201
  /\ Num.intValue (ToNumber (read (pricing_of (body resp)) "total")) = Some 140
  /\ read (body resp) "status" = VStr "quoted".
Proof. vm_compute. repeat split; reflexivity. Qed.

Example checklist_update_ignores_unknown_field :
  let created := snd (postJobs (sampleJob []) emptyWorld) in
  let resp :=
    response_of (patchChecklist "0"
                   (VObj [ ("bathroomsDone", VBool true);
                           ("unknownField", VStr "x") ]) created) in
  status resp = 200
  /\ read (read (body resp) "checklist") "bathroomsDone" = VBool true
  /\ read (read (body resp) "checklist") "unknownField" = VUndefined
  /\ read (body resp) "unknownField" = VUndefined.
Proof. vm_compute. repeat split; reflexivity. Qed.

Example missing_documents_are_not_found :
  status (response_of (getQuote "nope" emptyWorld)) = 404
  /\ status (response_of (getJob "nope" emptyWorld)) = 404
  /\ status (response_of (getLinenOrder "nope" emptyWorld)) = 404.
Proof. vm_compute. repeat split; reflexivity. Qed.

(** An id is a path below the collection: it names a document when the
    whole path has an even number of segments. *)
Example ids_are_document_paths :
  option_map target (doc "jobs" "abc") = Some ("jobs", "abc")
  /\ doc "jobs" "a/b" = None
  /\ option_map target (doc "jobs" "a/b/c") = Some ("jobs/a/b", "c")
  /\ doc "jobs" "a//b/c" = None
  /\ doc "jobs" "" = None.
Proof. vm_compute. repeat split; reflexivity. Qed.

Example refused_id_is_answered_500 :
  getJob "a/b" emptyWorld
  = (Returned (rejected 500 "Failed to fetch job"), emptyWorld)
  /\ status (response_of (getJob "a/b/c" emptyWorld)) = 404
  /\ trace (snd (getJob "a/b/c" emptyWorld)) = [ OpGet "jobs" "a/b/c" ].
Proof. vm_compute. repeat split; reflexivity. Qed.

Example unmatched_path_is_echoed :
  fst (handle (Unmatched "/nowhere") emptyWorld)
  = Returned {| status := 404;
                body := VObj [ ("ok", VBool false); ("error", VStr "Not Found");
                               ("path", VStr "/nowhere") ] |}.
Proof. reflexivity. Qed.

(** Values that coerce to a non-negative integer pass the count validator,
    whatever their type. *)
Example coercible_counts_pass :
  map (fun v => isPositiveInt (ToNumber v))
      [ VNum (Num.of_Z 3); VStr "3"; VNull; VStr ""; VBool true; VArr [];
        VNum (Num.of_Z (-1)); VStr "1.5"; VStr "abc"; VUndefined; VObj [] ]
  = [ true; true; true; true; true; true;
      false; false; false; false; false ].
Proof. vm_compute. reflexivity. Qed.

Example numeric_strings_are_coerced :
  map (fun s => Num.intValue (ToNumber (VStr s)))
      [ "3"; " 42 "; "1e3"; "0x1F"; "-2"; "1.5"; "abc"; "" ]
  = [ Some 3; Some 42; Some 1000; Some 31; Some (-2); None; None; Some 0 ].
Proof. vm_compute. reflexivity. Qed.

(* ===================================================================== *)
(** ** Every request is answered *)
(* ===================================================================== *)

Import Http Life.

(** The end of a run, whatever it is. *)
Ltac profiled :=
  unfold profile;
  cbn [sendError json ret status body fst snd docs counter online sdk trace
       logged advance with_docs with_counter];
  unfold same_store in *;
  split;
  [ unfold known_status; repeat (first [ left; reflexivity | right ]);
    reflexivity
  | split;
    [ first [ discriminate
            | intros _; split; [ reflexivity | eexists; reflexivity ] ]
    | split;
      [ intros Hbad; first [ discriminate Hbad | reflexivity ]
      | intros Hoff;
        first [ exfalso; intuition congruence
              | repeat split; first [ discriminate | intuition congruence ] ] ] ] ].

Lemma postQuotes_profile req w : profile w (postQuotes req w).
Proof. unfold postQuotes, try_catch. walk profiled. Qed.

Lemma postJobs_profile req w : profile w (postJobs req w).
Proof. unfold postJobs, try_catch. walk profiled. Qed.

Lemma postLinenOrders_profile req w : profile w (postLinenOrders req w).
Proof. unfold postLinenOrders, try_catch. walk profiled. Qed.

Lemma getById_profile coll missing failed id w :
  profile w (getById coll missing failed id w).
Proof. unfold getById, try_catch. walk profiled. Qed.

Lemma patchChecklist_profile id req w : profile w (patchChecklist id req w).
Proof.
  unfold patchChecklist, try_catch. cbv zeta.
  split_if; [profiled|].
  destruct (checklistLoop _ _ _) as [k|[update0 hasAny]]; [profiled|].
  walk profiled.
Qed.

Lemma handle_profile r w : profile w (handle r w).
Proof.
  destruct r; cbn [handle].
  - apply postQuotes_profile.
  - apply getById_profile.
  - apply postJobs_profile.
  - apply patchChecklist_profile.
  - apply getById_profile.
  - apply postLinenOrders_profile.
  - apply getById_profile.
  - unfold notFound. profiled.
Qed.

(** X1. Whatever the request and the state of the store, the handler
    returns a response (no exception escapes), its status is 200, 201,
    400, 404 or 500, and an error status comes with a body
    [{ ok: false, error: <message> }]. *)
Theorem every_request_is_answered (r : request) (w : world) :
  exists resp w',
    handle r w = (Returned resp, w')
    /\ known_status (status resp)
    /\ ((400 <=? status resp) = true -> error_shape (body resp)).
Proof.
  pose proof (handle_profile r w) as H. unfold profile in H.
  destruct (handle r w) as [[resp|] w']; [|contradiction].
  exists resp, w'. destruct H as (Hk & He & _). auto.
Qed.

(** X2. A request answered 400 has changed nothing: no document, no
    counter, and the store was not even called. *)
Theorem rejected_request_touches_nothing (r : request) (w : world)
  (resp : response) (w' : world) :
  handle r w = (Returned resp, w') -> status resp = 400 -> w' = w.
Proof.
  intros Hrun Hs. pose proof (handle_profile r w) as H.
  rewrite Hrun in H. destruct H as (_ & _ & H & _). exact (H Hs).
Qed.

Lemma rejected_request_touches_nothing_witness :
  let r := PostJobs (VObj [ ("schedule", VStr "tomorrow") ]) in
  handle r emptyWorld = (Returned (response_of (handle r emptyWorld)), emptyWorld)
  /\ status (response_of (handle r emptyWorld)) = 400
  /\ snd (handle r emptyWorld) = emptyWorld.
Proof.
  intros r.
  assert (Hrun : handle r emptyWorld
                 = (Returned (response_of (handle r emptyWorld)),
                    snd (handle r emptyWorld)))
    by (vm_compute; reflexivity).
  assert (Hs : status (response_of (handle r emptyWorld)) = 400)
    by (vm_compute; reflexivity).
  pose proof (rejected_request_touches_nothing _ _ _ _ Hrun Hs) as Hw.
  split; [rewrite Hw in Hrun; exact Hrun|]. split; [exact Hs | exact Hw].
Defined.

(** X3. While the store rejects every call, no request is answered 200 or
    201, and no document is written. *)
Theorem store_down_reports_no_success (r : request) (w : world)
  (resp : response) (w' : world) :
  online w = false -> handle r w = (Returned resp, w') ->
  status resp <> 200 /\ status resp <> 201
  /\ docs w' = docs w /\ counter w' = counter w.
Proof.
  intros Hoff Hrun. pose proof (handle_profile r w) as H.
  rewrite Hrun in H. destruct H as (_ & _ & _ & H). exact (H Hoff).
Qed.

(* ===================================================================== *)
(** ** When a document is created *)
(* ===================================================================== *)

Lemma or_else_not_nullish a : nullish (or_else a (VObj [])) = false.
Proof. unfold or_else. destruct a as [| |[]| | | | | |]; try reflexivity;
  cbn; match goal with |- context [if ?c then _ else _] => destruct c end;
  reflexivity.
Qed.

(** [computeTurnoverPrice] throws only on a [null] or [undefined]
    argument, on [null] add-ons, and on a count without a primitive. *)
Lemma computeTurnoverPrice_none_iff arg :
  computeTurnoverPrice arg = None
  <-> nullish arg = true \/ read arg "addOns" = VNull
      \/ no_primitive (read arg "bedrooms") = true
      \/ no_primitive (read arg "bathrooms") = true.
Proof.
  unfold computeTurnoverPrice, read.
  destruct arg as [| |b|n|s|items|fields| |t]; cbn [get nullish];
    try (split; [intros _; left; reflexivity | reflexivity]);
    try (cbn; split; [discriminate | intros [H|[H|[H|H]]]; discriminate]).
  cbv zeta. unfold Number. rewrite !no_primitive_default.
  destruct (no_primitive (lookup "bedrooms" fields)),
           (no_primitive (lookup "bathrooms" fields)),
           (lookup "addOns" fields) eqn:E; cbn;
    (split; [try discriminate; intros _; tauto
            | try reflexivity; intros [H|[H|[H|H]]]; discriminate]).
Qed.

Lemma turnover_on_or_else n m a :
  computeTurnoverPrice
    (VObj [ ("bedrooms", VNum n); ("bathrooms", VNum m);
            ("addOns", or_else a (VObj [])) ])
  <> None.
Proof.
  intros H. apply computeTurnoverPrice_none_iff in H as [H|[H|[H|H]]];
    try discriminate.
  unfold read in H. cbn in H.
  pose proof (or_else_not_nullish a) as Hn. rewrite H in Hn. discriminate.
Qed.

Lemma jobPricing_none price b ba addOns :
  no_primitive b = false -> no_primitive ba = false ->
  jobPricing price b ba addOns = None -> addOns = VNull.
Proof.
  intros Hb Hba. rewrite (jobPricing_primitive _ _ _ _ Hb Hba).
  destruct (String.eqb (typeof price) "number"); [discriminate|].
  intros H. apply computeTurnoverPrice_none_iff in H as [H|[H|[H|H]]];
    try discriminate.
  exact H.
Qed.

(** The guards a valid request passes, one by one. *)
Ltac guards :=
  repeat match goal with
         | H : _ /\ _ |- _ => destruct H
         end;
  repeat match goal with
         | H : isNonEmptyString (read ?v ?k) = true |- _ =>
             lazymatch goal with
             | _ : not_an_object v = false |- _ => fail
             | _ => pose proof (nonempty_field_object v k H)
             end
         | H : isPositiveInt (ToNumber ?v) = true |- _ =>
             lazymatch goal with
             | _ : no_primitive v = false |- _ => fail
             | _ => pose proof (positiveInt_primitive v H)
             end
         end.

Ltac no_creation unfolder :=
  cbn [response_of fst sendError json ret status];
  split;
  [ discriminate
  | intros [Hvalid Hon]; exfalso; unfolder;
    unfold same_store in *; guards; congruence ].

Ltac creation unfolder :=
  cbn [response_of fst sendError json ret status];
  split;
  [ intros _; unfolder; unfold same_store in *;
    repeat split; first [ assumption | intuition congruence ]
  | reflexivity ].

Lemma postQuotes_created_iff req w :
  status (response_of (postQuotes req w)) = 201
  <-> valid_quote req /\ online w = true.
Proof.
  unfold postQuotes, try_catch.
  walk ltac:(first
    [ no_creation ltac:(unfold valid_quote, valid_property in * )
    | exfalso; eapply turnover_on_or_else; eassumption ]).
  all: creation ltac:(unfold valid_quote, valid_property in * ).
Qed.

Lemma default_to_null_inv v : default_to (VObj []) v = VNull -> v = VNull.
Proof. destruct v; intros; try discriminate; reflexivity. Qed.

(** A [null] where an object is read closes the branch. *)
Ltac null_read field :=
  repeat match goal with
         | H : jobPricing _ _ _ _ = None |- _ =>
             apply jobPricing_none in H;
             [ apply default_to_null_inv in H | assumption .. ]
         | H : nullish (default_to (VObj []) (read ?req field)) = true |- _ =>
             apply default_to_nullish in H
         end.

Ltac not_null field :=
  match goal with
  | H : nullish (default_to (VObj []) (read ?req field)) = false
    |- read ?req field <> VNull =>
      let E := fresh in intros E; rewrite E in H; discriminate H
  end.

Lemma postJobs_created_iff req w :
  status (response_of (postJobs req w)) = 201
  <-> valid_job req /\ online w = true.
Proof.
  unfold postJobs, try_catch.
  walk ltac:(no_creation ltac:(unfold valid_job, valid_property in *;
                               null_read "addOns")).
  all: cbn [response_of fst sendError json ret status].
  all: split; [intros _ | reflexivity].
  all: unfold valid_job, valid_property, same_store in *.
  all: repeat split; first [ assumption | not_null "addOns" | intuition congruence ].
Qed.

Lemma postLinenOrders_created_iff req w :
  status (response_of (postLinenOrders req w)) = 201
  <-> valid_linen_order req /\ online w = true.
Proof.
  unfold postLinenOrders, try_catch.
  walk ltac:(first
    [ no_creation ltac:(unfold valid_linen_order in *; null_read "items")
    | cbn [response_of fst sendError json ret status];
      split; [discriminate|];
      intros [(Ha & Hp & Hr & Hi & Hprim) _];
      match goal with
      | G : negb _ || negb _ = true |- _ =>
          rewrite Hp, Hr in G; discriminate G
      | E : no_primitive (read (default_to (VObj []) _) ?k) = true |- _ =>
          rewrite read_default_to in E;
          rewrite (Hprim k) in E; [discriminate E | cbn; tauto]
      end ]).
  all: cbn [response_of fst sendError json ret status].
  all: split; [intros _ | reflexivity].
  all: match goal with
       | G : negb ?a || negb ?b = false |- _ =>
           apply orb_false_elim in G as [Gp Gr];
           apply negb_false_iff in Gp; apply negb_false_iff in Gr
       end.
  all: unfold valid_linen_order, same_store in *.
  all: split; [|intuition congruence].
  all: do 3 (split; [assumption|]); split; [not_null "items"|].
  all: intros k Hk; cbn in Hk; rewrite <- read_default_to.
  all: repeat (destruct Hk as [<-|Hk]; [assumption|]); destruct Hk.
Qed.

(** X4. A quote, a job and a linen order are created (answer 201) exactly
    when the request passes the guards of its handler, [addOns] of a job
    and [items] of a linen order are not [null], the six item counts of a
    linen order can be converted to a primitive, and the store accepts the
    write. *)
Theorem created_iff_valid_and_stored (req : value) (w : world) :
  (status (response_of (postQuotes req w)) = 201
   <-> valid_quote req /\ online w = true)
  /\ (status (response_of (postJobs req w)) = 201
      <-> valid_job req /\ online w = true)
  /\ (status (response_of (postLinenOrders req w)) = 201
      <-> valid_linen_order req /\ online w = true).
Proof.
  split; [apply postQuotes_created_iff|].
  split; [apply postJobs_created_iff | apply postLinenOrders_created_iff].
Qed.

(* ===================================================================== *)
(** ** Fetching *)
(* ===================================================================== *)

Ltac fetched :=
  cbn [json ret on_created status]; intros _;
  unfold fetched_back, same_store in *;
  repeat match goal with H : _ /\ _ |- _ => destruct H end;
  repeat match goal with H : counter _ = counter _ |- _ => rewrite H in * end;
  split; [reflexivity|];
  eexists;
  unfold getQuote, getJob, getLinenOrder, getById, try_catch;
  unfold bind at 1; rewrite doc_pretty; cbn [lift ret];
  unfold bind, db_get, ref_id;
  cbn [plain_ref asked target fst snd online docs advance with_counter
       with_docs logged];
  repeat match goal with H : online _ = _ |- _ => rewrite H end;
  rewrite lookup_insert_eq; reflexivity.

(** X5. A created quote, job or linen order can be fetched under the id
    that was returned: the fetch answers 200 with the fields of the 201
    response, its server timestamps replaced by the commit time. *)
Theorem created_document_is_fetched (req : value) (w : world) :
  on_created (postQuotes req w) (fetched_back getQuote "quotes" w)
  /\ on_created (postJobs req w) (fetched_back getJob "jobs" w)
  /\ on_created (postLinenOrders req w)
       (fetched_back getLinenOrder "linen_orders" w).
Proof.
  split; [|split].
  - unfold postQuotes, try_catch. walk not_created. all: fetched.
  - unfold postJobs, try_catch. walk not_created. all: fetched.
  - unfold postLinenOrders, try_catch. walk not_created. all: fetched.
Qed.

(** X6. Fetching by id only reads.  When the id names a document, the
    world after the fetch is the world before with one read logged: a
    document that is not stored is answered 404, a stored one 200 with its
    fields and its own id, an unreachable store 500.  An id the client
    refuses is answered 500 and nothing is read.  Fetching again gives the
    same answer. *)
Theorem fetch_is_read_only (coll missing failed id : string) (w : world) :
  let run := getById coll missing failed id w in
  (doc coll id = None -> run = (Returned (rejected 500 failed), w))
  /\ (forall r, doc coll id = Some r ->
        snd run = logged (OpGet coll id) w
        /\ (online w = true -> docs w !! target r = None ->
            fst run = Returned (rejected 404 missing))
        /\ (online w = true -> forall data,
            docs w !! target r = Some data ->
            fst run
            = Returned {| status := 200;
                          body := VObj (spread [ ("ok", VBool true);
                                                 ("id", VStr (ref_id r)) ]
                                          (fields_of data)) |})
        /\ (online w = false -> fst run = Returned (rejected 500 failed)))
  /\ fst (getById coll missing failed id (snd run)) = fst run.
Proof.
  unfold getById, try_catch, bind.
  destruct (doc coll id) as [r|] eqn:Edoc; cbn [lift ret throw].
  - pose proof (doc_asked _ _ _ Edoc) as Hasked.
    unfold db_get. rewrite Hasked. cbn [fst snd online docs logged].
    destruct (online w) eqn:Hon;
      [destruct (docs w !! target r) eqn:Hdoc|];
      cbn [sendError json ret fst snd online docs logged];
      rewrite ?Hon, ?Hdoc; cbn [sendError json ret fst snd].
    all: split; [discriminate|]; split; [|reflexivity].
    all: intros r' [= <-]; rewrite ?Hdoc.
    all: repeat split; intros; try discriminate; try reflexivity.
    all: congruence.
  - cbn [sendError json ret fst snd].
    split; [reflexivity|]. split; [discriminate | reflexivity].
Qed.

(* ===================================================================== *)
(** ** More on the pricing engine *)
(* ===================================================================== *)

(** X7. [computeTurnoverPrice] throws exactly when its argument is [null]
    or [undefined], or the add-ons are [null], or the bedrooms or the
    bathrooms cannot be converted to a primitive; otherwise it returns a
    pricing in AUD whose breakdown has the five entries. *)
Theorem turnover_price_throws_exactly_when (arg : value) :
  (computeTurnoverPrice arg = None
   <-> nullish arg = true \/ read arg "addOns" = VNull
       \/ no_primitive (read arg "bedrooms") = true
       \/ no_primitive (read arg "bathrooms") = true)
  /\ (forall pr, computeTurnoverPrice arg = Some pr ->
        read pr "currency" = VStr "AUD"
        /\ map fst (fields_of (read pr "breakdown"))
           = [ "base"; "bedroomsCost"; "bathroomsCost"; "deepClean";
               "premiumLinen" ]
        /\ typeof (read pr "total") = "number").
Proof.
  split; [apply computeTurnoverPrice_none_iff|].
  intros pr. unfold computeTurnoverPrice.
  destruct (get arg "bedrooms"), (get arg "bathrooms"), (get arg "addOns");
    try discriminate.
  cbv zeta.
  repeat match goal with
         | |- context [ match get ?v ?k with _ => _ end ] =>
             destruct (get v k); try discriminate
         | |- context [ match Number ?v with _ => _ end ] =>
             destruct (Number v); try discriminate
         end.
  intros [= <-]. repeat split.
Qed.

(** The price depends on the add-ons only through the truthiness of the
    two flags. *)
Lemma turnover_flags_by_truthiness b ba addOns :
  nullish addOns = false ->
  computeTurnoverPrice (turnoverArg b ba addOns)
  = computeTurnoverPrice
      (turnoverArg b ba
         (addOnFlags (truthy (read addOns "deepClean"))
                     (truthy (read addOns "premiumLinen")))).
Proof.
  intros Hn. unfold computeTurnoverPrice, turnoverArg, addOnFlags.
  cbn [get lookup String.eqb Ascii.eqb Bool.eqb default_to]. cbv zeta.
  assert (Hd : default_to (VObj []) addOns = addOns)
    by (destruct addOns; try discriminate; reflexivity).
  rewrite Hd, !(get_not_nullish _ _ Hn). cbn [truthy].
  reflexivity.
Qed.

Lemma read_or_else x k : read (or_else x (VObj [])) k = read x k.
Proof.
  unfold read at 1. rewrite get_or_else. reflexivity.
Qed.

Ltac stored_doc :=
  cbn [json ret on_created status]; intros _;
  unfold same_store in *;
  repeat match goal with H : _ /\ _ |- _ => destruct H end;
  repeat match goal with H : counter _ = counter _ |- _ => rewrite H in * end;
  cbn [docs advance with_counter with_docs logged body];
  eexists; split; [apply lookup_insert_eq|].

(** X8. A stored quote prices itself: [computeTurnoverPrice] on its stored
    property and stored add-on flags gives its stored pricing; so does a
    stored job created without a numeric price. *)
Theorem stored_pricing_is_reproducible (req : value) (w : world) :
  on_created (postQuotes req w) (fun _ w' =>
    exists doc,
      docs w' !! ("quotes", pretty (counter w)) = Some doc
      /\ reprices doc (read (read doc "preferences") "addOns"))
  /\ on_created (postJobs req w) (fun _ w' =>
    exists doc,
      docs w' !! ("jobs", pretty (counter w)) = Some doc
      /\ (String.eqb (typeof (read req "price")) "number" = false ->
          reprices doc (read doc "addOns"))).
Proof.
  split.
  - unfold postQuotes, try_catch. walk not_created.
    all: stored_doc.
    all: unfold reprices, pricing_of;
      cbn [resolve map read get lookup String.eqb Ascii.eqb Bool.eqb].
    all: rewrite (computeTurnoverPrice_resolve _ _ _ Epricing), <- Epricing.
    all: symmetry; etransitivity;
      [ apply turnover_flags_by_truthiness, or_else_not_nullish | ].
    all: rewrite !read_or_else; reflexivity.
  - unfold postJobs, try_catch. walk not_created.
    stored_doc. intros Hty.
    unfold reprices, pricing_of;
      cbn [resolve map read get lookup String.eqb Ascii.eqb Bool.eqb].
    rewrite (jobPricing_resolve _ _ _ _ _ _ Epricing), <- Epricing.
    rewrite jobPricing_primitive by assumption. rewrite Hty.
    symmetry. apply turnover_flags_by_truthiness. assumption.
Qed.

Lemma or_zero_not_nan x : or_zero x <> Num.NaN.
Proof. destruct x as [s|s| |s m e]; cbn; discriminate. Qed.

(** X9. A stored linen order holds exactly the six item counts, each a
    number that is never NaN: the coercion of the requested count, or 0
    when that is missing, zero or not numeric. *)
Theorem linen_items_are_numbers (req : value) (w : world) :
  on_created (postLinenOrders req w) (fun _ w' =>
    exists doc,
      docs w' !! ("linen_orders", pretty (counter w)) = Some doc
      /\ map fst (fields_of (read doc "items")) = itemKeys
      /\ forall k, In k itemKeys ->
           read (read doc "items") k
           = VNum (or_zero (ToNumber (read (read req "items") k)))
           /\ or_zero (ToNumber (read (read req "items") k)) <> Num.NaN).
Proof.
  unfold postLinenOrders, try_catch. walk not_created.
  stored_doc. split; [reflexivity|].
  intros k Hin. split; [|apply or_zero_not_nan].
  cbn in Hin.
  repeat (destruct Hin as [<-|Hin]; [cbn; rewrite read_default_to; reflexivity|]).
  destruct Hin.
Qed.

(* ===================================================================== *)
(** ** Objects and dot-path updates *)
(* ===================================================================== *)

Lemma read_fields doc k : read doc k = lookup k (fields_of doc).
Proof. destruct doc; reflexivity. Qed.

Lemma lookup_set k k' v fields :
  lookup k (set k' v fields) = if String.eqb k k' then v else lookup k fields.
Proof.
  induction fields as [|[k0 v0] rest IH]; cbn [set lookup]; [reflexivity|].
  destruct (String.eqb_spec k' k0) as [<-|Hne]; cbn [lookup].
  - destruct (String.eqb k k'); reflexivity.
  - rewrite IH. destruct (String.eqb_spec k k0) as [->|]; [|reflexivity].
    destruct (String.eqb_spec k0 k'); congruence.
Qed.

Lemma in_set_inv key x k v fields :
  In (key, x) (set k v fields) -> (key = k /\ x = v) \/ In (key, x) fields.
Proof.
  induction fields as [|[k0 v0] rest IH]; cbn [set].
  - intros [[= <- <-]|[]]. left. auto.
  - destruct (String.eqb k k0).
    + intros [[= <- <-]|H]; [left; auto | right; right; exact H].
    + intros [H|H]; [right; left; exact H|].
      destruct (IH H) as [?|?]; [left; assumption | right; right; assumption].
Qed.

Lemma in_set_same k v fields : In (k, v) (set k v fields).
Proof.
  induction fields as [|[k0 v0] rest IH]; cbn [set]; [left; reflexivity|].
  destruct (String.eqb k k0); [left; reflexivity | right; exact IH].
Qed.

Lemma in_set_keep key x k v fields :
  In (key, x) fields -> exists x', In (key, x') (set k v fields).
Proof.
  induction fields as [|[k0 v0] rest IH]; [intros []|].
  cbn [set]. destruct (String.eqb_spec k k0) as [->|Hne].
  - intros [[= Hk Hx]|H]; [subst; exists v; left; reflexivity|].
    exists x. right. exact H.
  - intros [[= Hk Hx]|H]; [subst; exists x; left; reflexivity|].
    destruct (IH H) as [x' Hx']. exists x'. right. exact Hx'.
Qed.

Lemma Forall_set (P : string * value -> Prop) k v fields :
  Forall P fields -> P (k, v) -> Forall P (set k v fields).
Proof.
  intros Hall Hkv. induction Hall as [|[k0 v0] rest H0 Hrest IH]; cbn [set].
  - constructor; [exact Hkv | constructor].
  - destruct (String.eqb k k0); constructor; assumption.
Qed.

Lemma set_fresh k v fields :
  Forall (fun kv => fst kv <> k) fields -> set k v fields = (fields ++ [ (k, v) ])%list.
Proof.
  induction 1 as [|[k0 v0] rest H0 Hrest IH]; cbn [set app]; [reflexivity|].
  cbn [fst] in H0. destruct (String.eqb_spec k k0); [congruence|].
  rewrite IH. reflexivity.
Qed.

Lemma allowed_cases k :
  includes allowedKeys k = true ->
  k = "bathroomsDone" \/ k = "kitchenDone" \/ k = "floorsDone"
  \/ k = "trashOut" \/ k = "linensChanged" \/ k = "restockSupplies"
  \/ k = "photosTaken".
Proof.
  unfold includes, allowedKeys. cbn [existsb]. intros H.
  repeat (apply orb_true_iff in H as [H|H];
          [apply String.eqb_eq in H; tauto|]).
  discriminate.
Qed.

Lemma checklist_path k :
  includes allowedKeys k = true ->
  split_path ("checklist." ++ k) = [ "checklist"; k ].
Proof.
  intros H. apply allowed_cases in H.
  repeat (destruct H as [->|H]; [reflexivity|]). subst. reflexivity.
Qed.

(** One entry of a checklist update, applied to a document. *)
Lemma apply_entry t kv doc :
  checklist_entry kv ->
  exists k b,
    kv = ("checklist." ++ k, VBool b) /\ includes allowedKeys k = true
    /\ set_path (split_path (fst kv)) (resolve t (snd kv)) doc
       = VObj (set "checklist"
                 (VObj (set k (VBool b) (fields_of (read doc "checklist"))))
                 (fields_of doc)).
Proof.
  intros (k & b & -> & Hk). exists k, b. split; [reflexivity|]. split; [exact Hk|].
  cbn [fst snd]. rewrite (checklist_path k Hk). cbn [set_path resolve].
  rewrite read_fields. reflexivity.
Qed.

Lemma checklist_key_inj k k' : "checklist." ++ k = "checklist." ++ k' -> k = k'.
Proof. cbn. intros [= H]. exact H. Qed.

Lemma apply_update_cons t kv upd doc :
  apply_update t (kv :: upd) doc
  = apply_update t upd (set_path (split_path (fst kv)) (resolve t (snd kv)) doc).
Proof. reflexivity. Qed.

(** A checklist update leaves every other top-level field alone. *)
Lemma apply_update_other t upd : forall doc k',
  Forall checklist_entry upd -> k' <> "checklist" ->
  read (apply_update t upd doc) k' = read doc k'.
Proof.
  induction upd as [|kv upd IH]; intros doc k' Hall Hk'; [reflexivity|].
  inversion Hall as [|? ? Hkv Hrest]; subst.
  rewrite apply_update_cons.
  destruct (apply_entry t kv doc Hkv) as (k & b & _ & _ & ->).
  rewrite (IH _ _ Hrest Hk'). rewrite !read_fields. cbn [fields_of].
  rewrite lookup_set. destruct (String.eqb_spec k' "checklist"); congruence.
Qed.

(** It leaves alone the checklist fields it does not name. *)
Lemma apply_update_unnamed t upd : forall doc k,
  Forall checklist_entry upd ->
  (forall v, ~ In ("checklist." ++ k, v) upd) ->
  read (read (apply_update t upd doc) "checklist") k
  = read (read doc "checklist") k.
Proof.
  induction upd as [|kv upd IH]; intros doc k Hall Hno; [reflexivity|].
  inversion Hall as [|? ? Hkv Hrest]; subst.
  rewrite apply_update_cons.
  destruct (apply_entry t kv doc Hkv) as (k0 & b & -> & _ & ->).
  rewrite (IH _ _ Hrest) by (intros v Hin; apply (Hno v); right; exact Hin).
  rewrite (read_fields (VObj _) "checklist"). cbn [fields_of].
  rewrite lookup_set, String.eqb_refl.
  rewrite (read_fields (VObj _) k). cbn [fields_of]. rewrite lookup_set.
  destruct (String.eqb_spec k k0) as [->|]; [|symmetry; apply read_fields].
  exfalso. apply (Hno (VBool b)). left. reflexivity.
Qed.

(** It sets the fields it names. *)
Lemma apply_update_named t upd : forall doc k b,
  Forall checklist_entry upd ->
  read (read doc "checklist") k = VBool b
  \/ In ("checklist." ++ k, VBool b) upd ->
  (forall v, In ("checklist." ++ k, v) upd -> v = VBool b) ->
  read (read (apply_update t upd doc) "checklist") k = VBool b.
Proof.
  induction upd as [|kv upd IH]; intros doc k b Hall Hor Huniq.
  - destruct Hor as [H|[]]. exact H.
  - inversion Hall as [|? ? Hkv Hrest]; subst.
    rewrite apply_update_cons.
    destruct (apply_entry t kv doc Hkv) as (k0 & b0 & -> & _ & ->).
    apply (IH _ _ _ Hrest);
      [|intros v Hin; apply Huniq; right; exact Hin].
    rewrite (read_fields (VObj _) "checklist"). cbn [fields_of].
    rewrite lookup_set, String.eqb_refl.
    rewrite (read_fields (VObj _) k). cbn [fields_of]. rewrite lookup_set.
    destruct (String.eqb_spec k k0) as [->|Hne].
    + left. apply (Huniq (VBool b0)). left. reflexivity.
    + destruct Hor as [H|[H|H]].
      * left. rewrite <- read_fields. exact H.
      * assert (Hk : "checklist." ++ k0 = "checklist." ++ k) by congruence.
        apply checklist_key_inj in Hk. congruence.
      * right. exact H.
Qed.

(** It keeps the checklist seven booleans. *)
Lemma apply_update_shape t upd : forall doc,
  Forall checklist_entry upd ->
  checklist_shape (read doc "checklist") ->
  checklist_shape (read (apply_update t upd doc) "checklist").
Proof.
  induction upd as [|kv upd IH]; intros doc Hall Hshape; [exact Hshape|].
  inversion Hall as [|? ? Hkv Hrest]; subst.
  rewrite apply_update_cons.
  destruct (apply_entry t kv doc Hkv) as (k & b & _ & Hk & ->).
  apply (IH _ Hrest).
  rewrite (read_fields (VObj _) "checklist"). cbn [fields_of].
  rewrite lookup_set, String.eqb_refl.
  destruct Hshape as (flags & Hlen & ->).
  do 8 (destruct flags as [|? flags]; try discriminate Hlen).
  apply allowed_cases in Hk.
  repeat (destruct Hk as [->|Hk];
          [eexists [ _; _; _; _; _; _; _ ]; split; reflexivity|]).
  subst. eexists [ _; _; _; _; _; _; _ ]; split; reflexivity.
Qed.

(** The update the handler sends: the checklist entries, then the stamp. *)
Lemma stamped_update stamp upd :
  Forall checklist_entry upd ->
  set "updatedAt" stamp upd = (upd ++ [ ("updatedAt", stamp) ])%list.
Proof.
  intros Hall. apply set_fresh.
  eapply Forall_impl; [exact Hall|].
  intros kv (k & b & -> & _). cbn. discriminate.
Qed.

Lemma apply_update_stamped t upd stamp doc :
  apply_update t (upd ++ [ ("updatedAt", stamp) ])%list doc
  = VObj (set "updatedAt" (resolve t stamp) (fields_of (apply_update t upd doc))).
Proof. unfold apply_update. rewrite fold_left_app. reflexivity. Qed.

(* ===================================================================== *)
(** ** The loop over the entries of a checklist update *)
(* ===================================================================== *)

Lemma is_boolean_inv v : is_boolean v = true -> exists b, v = VBool b.
Proof. destruct v; try discriminate. eauto. Qed.

Lemma checklistLoop_inl es : forall update hasAny k,
  checklistLoop es update hasAny = inl k ->
  exists v, In (k, v) es /\ recognized (k, v) = true /\ is_boolean v = false.
Proof.
  induction es as [|[k0 v0] es IH]; intros update hasAny k; [discriminate|].
  cbn [checklistLoop].
  destruct (includes allowedKeys k0) eqn:Ek0; cbn [negb].
  - destruct (String.eqb (typeof v0) "boolean") eqn:Ev0; cbn [negb].
    + intros H. destruct (IH _ _ _ H) as (v & Hin & Hr & Hb).
      exists v. split; [right; exact Hin | auto].
    + intros [= <-]. exists v0. split; [left; reflexivity | auto].
  - intros H. destruct (IH _ _ _ H) as (v & Hin & Hr & Hb).
    exists v. split; [right; exact Hin | auto].
Qed.

Lemma checklistLoop_inr es : forall update hasAny update' hasAny',
  checklistLoop es update hasAny = inr (update', hasAny') ->
  Forall checklist_entry update ->
  Forall checklist_entry update'
  /\ (forall key v, In (key, v) update' ->
        In (key, v) update
        \/ exists k, key = "checklist." ++ k /\ In (k, v) es
                     /\ recognized (k, v) = true)
  /\ (forall key v, In (key, v) update -> exists v', In (key, v') update')
  /\ (forall k v, In (k, v) es -> recognized (k, v) = true ->
        exists v', In ("checklist." ++ k, v') update')
  /\ ((exists k v, In (k, v) es /\ recognized (k, v) = true) ->
      hasAny' = true)
  /\ (hasAny = true -> hasAny' = true).
Proof.
  induction es as [|[k0 v0] es IH]; intros update hasAny update' hasAny'.
  - cbn [checklistLoop]. intros [= <- <-] Hall.
    split; [exact Hall|]. split; [intros key v Hin; left; exact Hin|].
    split; [intros key v Hin; eauto|]. split; [intros k v []|].
    split; [intros (k & v & [] & _) | auto].
  - cbn [checklistLoop].
    destruct (includes allowedKeys k0) eqn:Ek0; cbn [negb].
    + destruct (String.eqb (typeof v0) "boolean") eqn:Ev0; cbn [negb];
        [|discriminate].
      intros Hloop Hall.
      destruct (is_boolean_inv v0 Ev0) as [b0 ->].
      assert (Hentry : checklist_entry ("checklist." ++ k0, VBool b0))
        by (exists k0, b0; auto).
      destruct (IH _ _ _ _ Hloop (Forall_set _ _ _ _ Hall Hentry))
        as (Hall' & Hfrom & Hkeep & Hnamed & _ & Hany).
      split; [exact Hall'|]. split; [|split; [|split; [|split]]].
      * intros key v Hin. destruct (Hfrom key v Hin) as [H|(k & -> & H & Hr)].
        -- apply in_set_inv in H as [[-> ->]|H]; [|left; exact H].
           right. exists k0. split; [reflexivity|].
           split; [left; reflexivity | exact Ek0].
        -- right. exists k. split; [reflexivity|]. split; [right; exact H | exact Hr].
      * intros key v Hin.
        destruct (in_set_keep key v ("checklist." ++ k0) (VBool b0) update Hin)
          as [x Hx]. exact (Hkeep _ _ Hx).
      * intros k v [[= <- <-]|Hin] Hr.
        -- exact (Hkeep _ _ (in_set_same _ _ _)).
        -- exact (Hnamed k v Hin Hr).
      * intros _. apply Hany. reflexivity.
      * intros _. apply Hany. reflexivity.
    + intros Hloop Hall.
      destruct (IH _ _ _ _ Hloop Hall)
        as (Hall' & Hfrom & Hkeep & Hnamed & Hsome & Hany).
      split; [exact Hall'|]. split; [|split; [|split; [|split]]].
      * intros key v Hin. destruct (Hfrom key v Hin) as [H|(k & -> & H & Hr)];
          [left; exact H|].
        right. exists k. split; [reflexivity|]. split; [right; exact H | exact Hr].
      * exact Hkeep.
      * intros k v [[= <- <-]|Hin] Hr;
          [unfold recognized in Hr; cbn [fst] in Hr; congruence|].
        exact (Hnamed k v Hin Hr).
      * intros (k & v & [[= <- <-]|Hin] & Hr);
          [unfold recognized in Hr; cbn [fst] in Hr; congruence|].
        apply Hsome. eauto.
      * exact Hany.
Qed.

(* ===================================================================== *)
(** ** A checklist update that succeeds *)
(* ===================================================================== *)

(** X10. A checklist update whose recognized fields are all booleans, with
    at least one of them, on an existing job (the document that the id
    names): it is answered 200 with the stored job; [updatedAt] becomes
    the time of the write; the fields it names take the given values; the
    other checklist fields and every other field of the job are as
    before. *)
Theorem checklist_update_applies (id : string)
  (fields : list (string * value)) (w : world) (r : reference) (old : value) :
  has_FieldValue_serverTimestamp (sdk w) = true ->
  online w = true ->
  doc "jobs" id = Some r ->
  docs w !! target r = Some old ->
  (forall k v, In (k, v) fields -> recognized (k, v) = true ->
               is_boolean v = true) ->
  (exists k v, In (k, v) fields /\ recognized (k, v) = true) ->
  exists new w',
    patchChecklist id (VObj fields) w
    = (Returned {| status := 200;
                   body := VObj (spread [ ("ok", VBool true);
                                          ("id", VStr (ref_id r)) ]
                                   (fields_of new)) |}, w')
    /\ docs w' = <[target r := new]> (docs w)
    /\ read new "updatedAt" = VTimestamp (now w)
    /\ (forall k', k' <> "checklist" -> k' <> "updatedAt" ->
          read new k' = read old k')
    /\ (forall k, (forall v, In (k, v) fields -> recognized (k, v) = false) ->
          read (read new "checklist") k = read (read old "checklist") k)
    /\ (forall k b, In (k, VBool b) fields -> recognized (k, VBool b) = true ->
          (forall v, In (k, v) fields -> v = VBool b) ->
          read (read new "checklist") k = VBool b).
Proof.
  intros Hfv Hon Hdoc Hold Hbool Hsome.
  pose proof (doc_asked _ _ _ Hdoc) as Hasked.
  unfold patchChecklist, try_catch. cbv zeta.
  cbn [or_else truthy not_an_object typeof negb String.eqb Ascii.eqb Bool.eqb
       orb entries].
  destruct (checklistLoop fields [] false) as [k|[upd hasAny]] eqn:Eloop.
  { apply checklistLoop_inl in Eloop as (v & Hin & Hr & Hb).
    rewrite (Hbool k v Hin Hr) in Hb. discriminate. }
  destruct (checklistLoop_inr _ _ _ _ _ Eloop (List.Forall_nil _))
    as (Hall & Hfrom & _ & Hnamed & Hany & _).
  rewrite (Hany Hsome). cbn [negb].
  unfold bind at 1, serverTimestamp. rewrite Hfv. cbn [ret].
  unfold bind at 1. rewrite Hdoc. cbn [lift ret].
  unfold bind at 1. unfold db_get at 1. rewrite Hon, Hold.
  unfold bind at 1. unfold db_update at 1.
  cbn [online docs now logged]. rewrite Hon, Hold.
  unfold bind at 1, db_get.
  cbn [online docs now logged advance with_docs]. rewrite Hon, lookup_insert_eq.
  cbn [json ret default from_option Datatypes.id].
  rewrite (stamped_update _ _ Hall), apply_update_stamped. cbn [resolve].
  eexists _, _. split; [reflexivity|]. split; [reflexivity|].
  assert (Hck :
    read (VObj (set "updatedAt" (VTimestamp (now w))
                  (fields_of (apply_update (now w) upd old)))) "checklist"
    = read (apply_update (now w) upd old) "checklist").
  { rewrite (read_fields (VObj _)). cbn [fields_of].
    rewrite lookup_set. cbn. symmetry. apply read_fields. }
  split; [|split; [|split]].
  - rewrite read_fields. cbn [fields_of]. rewrite lookup_set, String.eqb_refl.
    reflexivity.
  - intros k' Hc Hu. rewrite read_fields. cbn [fields_of]. rewrite lookup_set.
    destruct (String.eqb_spec k' "updatedAt"); [congruence|].
    rewrite <- read_fields. apply apply_update_other; assumption.
  - intros k Hk. rewrite Hck. apply apply_update_unnamed; [exact Hall|].
    intros v Hin. destruct (Hfrom _ _ Hin) as [[]|(k2 & Heq & Hin2 & Hr)].
    apply checklist_key_inj in Heq. subst k2.
    rewrite (Hk v Hin2) in Hr. discriminate.
  - intros k b Hin Hr Huniq. rewrite Hck.
    assert (Hu : forall v, In ("checklist." ++ k, v) upd -> v = VBool b).
    { intros v Hv. destruct (Hfrom _ _ Hv) as [[]|(k2 & Heq & Hin2 & _)].
      apply checklist_key_inj in Heq. subst k2. exact (Huniq v Hin2). }
    apply apply_update_named; [exact Hall| |exact Hu].
    right. destruct (Hnamed k (VBool b) Hin Hr) as [v' Hv'].
    rewrite (Hu v' Hv') in Hv'. exact Hv'.
Qed.

(* ===================================================================== *)
(** ** The jobs collection over a run of the service *)
(* ===================================================================== *)

Lemma job_writes_refl w : job_writes w w.
Proof. split; [reflexivity|]. split; [lia|]. left. reflexivity. Qed.

(** The end of a run that left the jobs alone. *)
Ltac jobs_untouched :=
  unfold job_writes;
  cbn [snd sendError json ret try_catch docs sdk counter now logged advance
       with_docs with_counter];
  split; [reflexivity|]; split; [lia|]; left; intros;
  first [ reflexivity | apply lookup_insert_ne; congruence ].

Lemma postQuotes_job_writes req w :
  has_FieldValue_serverTimestamp (sdk w) = true ->
  job_writes w (snd (postQuotes req w)).
Proof. intros Hfv. unfold postQuotes, try_catch. walk jobs_untouched. all: jobs_untouched. Qed.

Lemma postLinenOrders_job_writes req w :
  has_FieldValue_serverTimestamp (sdk w) = true ->
  job_writes w (snd (postLinenOrders req w)).
Proof.
  intros Hfv. unfold postLinenOrders, try_catch. walk jobs_untouched.
  all: jobs_untouched.
Qed.

Lemma getById_job_writes coll missing failed id w :
  job_writes w (snd (getById coll missing failed id w)).
Proof. unfold getById, try_catch. walk jobs_untouched. Qed.

Lemma postJobs_job_writes req w :
  has_FieldValue_serverTimestamp (sdk w) = true ->
  job_writes w (snd (postJobs req w)).
Proof.
  intros Hfv. unfold postJobs, try_catch. walk jobs_untouched.
  all: unfold job_writes.
  all: cbn [snd sendError json ret docs sdk counter now logged advance
            with_docs with_counter].
  all: split; [reflexivity|]; split; [lia|]; right; left.
  all: eexists; split; [reflexivity|].
  all: cbn [resolve map].
  all: split; [|reflexivity].
  all: split; [ eexists _, _; split; [reflexivity|]; split; [reflexivity|]; lia |].
  all: eexists [false; false; false; false; _; false; false].
  all: split; reflexivity.
Qed.

Lemma patchChecklist_job_writes id req w :
  has_FieldValue_serverTimestamp (sdk w) = true ->
  job_writes w (snd (patchChecklist id req w)).
Proof.
  intros Hfv. unfold patchChecklist, try_catch. cbv zeta.
  split_if; [jobs_untouched|].
  destruct (checklistLoop _ _ _) as [k|[upd hasAny]] eqn:Eloop;
    [jobs_untouched|].
  destruct (checklistLoop_inr _ _ _ _ _ Eloop (List.Forall_nil _))
    as (Hall & _).
  walk jobs_untouched.
  all: unfold job_writes.
  all: cbn [snd sendError json ret docs sdk counter now logged advance
            with_docs with_counter].
  all: split; [reflexivity|]; split; [lia|].
  all: destruct (target ref) as [c i] eqn:Etarget.
  all: destruct (String.eqb_spec c "jobs") as [->|Hc];
    [ right; right; eexists i, _, upd;
      split; [eassumption|]; split; [exact Hall|];
      rewrite (stamped_update _ _ Hall); reflexivity
    | left; intros id0; apply lookup_insert_ne; congruence ].
Qed.

Lemma handle_job_writes r w :
  has_FieldValue_serverTimestamp (sdk w) = true ->
  job_writes w (snd (handle r w)).
Proof.
  intros Hfv. destruct r; cbn [handle].
  - apply postQuotes_job_writes, Hfv.
  - apply getById_job_writes.
  - apply postJobs_job_writes, Hfv.
  - apply patchChecklist_job_writes, Hfv.
  - apply getById_job_writes.
  - apply postLinenOrders_job_writes, Hfv.
  - apply getById_job_writes.
  - apply job_writes_refl.
Qed.

Lemma job_writes_checklists w w' :
  job_writes w w' -> checklists_ok w -> checklists_ok w'.
Proof.
  intros (_ & _ & [Hsame|[(new & Hd & [_ Hshape] & _)
                          |(id0 & old & upd & Hold & Hall & Hd)]]) Hok id doc;
    try rewrite Hd.
  - rewrite Hsame. apply Hok.
  - destruct (decide (("jobs", pretty (counter w)) = ("jobs", id))) as [->|Hne].
    + rewrite lookup_insert_eq. intros [= <-]. exact Hshape.
    + rewrite lookup_insert_ne by exact Hne. apply Hok.
  - destruct (decide (("jobs", id0) = ("jobs", id))) as [->|Hne].
    + rewrite lookup_insert_eq. intros [= <-].
      rewrite apply_update_stamped, (read_fields (VObj _)). cbn [fields_of].
      rewrite lookup_set. cbn [String.eqb Ascii.eqb Bool.eqb].
      rewrite <- read_fields.
      apply apply_update_shape; [exact Hall|]. exact (Hok _ _ Hold).
    + rewrite lookup_insert_ne by exact Hne. apply Hok.
Qed.

Lemma stamps_ordered_later t t' doc :
  (t <= t')%nat -> stamps_ordered t doc -> stamps_ordered t' doc.
Proof. intros Hle (c & u & Hc & Hu & Hcu). exists c, u. repeat split; auto; lia. Qed.

Lemma job_writes_stamps w w' :
  job_writes w w' -> stamps_ok w -> stamps_ok w'.
Proof.
  intros (_ & Hnow & [Hsame|[(new & Hd & [Hst _] & _)
                             |(id0 & old & upd & Hold & Hall & Hd)]]) Hok id doc;
    try rewrite Hd.
  - rewrite Hsame. intros Hdoc.
    eapply stamps_ordered_later; [exact Hnow|]. exact (Hok _ _ Hdoc).
  - destruct (decide (("jobs", pretty (counter w)) = ("jobs", id))) as [->|Hne].
    + rewrite lookup_insert_eq. intros [= <-].
      eapply stamps_ordered_later; eassumption.
    + rewrite lookup_insert_ne by exact Hne. intros Hdoc.
      eapply stamps_ordered_later; [exact Hnow|]. exact (Hok _ _ Hdoc).
  - destruct (decide (("jobs", id0) = ("jobs", id))) as [->|Hne].
    + rewrite lookup_insert_eq. intros [= <-].
      destruct (Hok _ _ Hold) as (c & u & Hc & Hu & Hcu).
      exists c, (now w).
      rewrite apply_update_stamped, !(read_fields (VObj _)). cbn [fields_of].
      rewrite !lookup_set. cbn [String.eqb Ascii.eqb Bool.eqb resolve].
      rewrite <- read_fields.
      rewrite (apply_update_other _ _ _ _ Hall) by congruence.
      split; [exact Hc|]. split; [reflexivity|]. lia.
    + rewrite lookup_insert_ne by exact Hne. intros Hdoc.
      eapply stamps_ordered_later; [exact Hnow|]. exact (Hok _ _ Hdoc).
Qed.

Lemma reachable_checklists w0 w :
  reachable w0 w ->
  has_FieldValue_serverTimestamp (sdk w0) = true ->
  checklists_ok w0 ->
  has_FieldValue_serverTimestamp (sdk w) = true /\ checklists_ok w.
Proof.
  intros Hr Hfv Hok. induction Hr as [|w w' Hr [Hfv' Hok'] Hstep]; [auto|].
  destruct Hstep as [r w|w w' Hd _ Hs].
  - pose proof (handle_job_writes r w Hfv') as Hw.
    split; [destruct Hw as [-> _]; exact Hfv'|].
    eapply job_writes_checklists; eassumption.
  - split; [rewrite Hs; exact Hfv'|].
    intros id doc. rewrite Hd. apply Hok'.
Qed.

Lemma forward_stamps w0 w :
  forward w0 w ->
  has_FieldValue_serverTimestamp (sdk w0) = true ->
  stamps_ok w0 ->
  has_FieldValue_serverTimestamp (sdk w) = true /\ stamps_ok w.
Proof.
  intros Hr Hfv Hok. induction Hr as [|w w' Hr [Hfv' Hok'] Hstep Hnow]; [auto|].
  destruct Hstep as [r w|w w' Hd _ Hs].
  - pose proof (handle_job_writes r w Hfv') as Hw.
    split; [destruct Hw as [-> _]; exact Hfv'|].
    eapply job_writes_stamps; eassumption.
  - split; [rewrite Hs; exact Hfv'|].
    intros id doc. rewrite Hd. intros Hdoc.
    eapply stamps_ordered_later; [exact Hnow|]. exact (Hok' _ _ Hdoc).
Qed.

(** X11. With the server timestamps of the Firestore SDK, whatever
    requests are served, the checklist of every stored job stays an object
    of the seven recognized keys, in the order of creation, each with a
    boolean: no update adds, drops or retypes a key. *)
Theorem job_checklist_stays_seven_booleans (w0 w : world) :
  has_FieldValue_serverTimestamp (sdk w0) = true ->
  checklists_ok w0 ->
  reachable w0 w ->
  forall id doc,
    docs w !! ("jobs", id) = Some doc ->
    exists flags : list bool,
      length flags = 7%nat
      /\ read doc "checklist" = VObj (combine allowedKeys (map VBool flags)).
Proof.
  intros Hfv Hok Hr id doc Hdoc.
  exact (proj2 (reachable_checklists w0 w Hr Hfv Hok) id doc Hdoc).
Qed.

(** X12. With the server timestamps of the Firestore SDK, in a run where
    time does not go backwards, every stored job has [createdAt] no later
    than [updatedAt], and [updatedAt] no later than the present. *)
Theorem job_created_before_updated (w0 w : world) :
  has_FieldValue_serverTimestamp (sdk w0) = true ->
  stamps_ok w0 ->
  forward w0 w ->
  forall id doc,
    docs w !! ("jobs", id) = Some doc ->
    exists c u,
      read doc "createdAt" = VTimestamp c
      /\ read doc "updatedAt" = VTimestamp u
      /\ (c <= u <= now w)%nat.
Proof.
  intros Hfv Hok Hr id doc Hdoc.
  exact (proj2 (forward_stamps w0 w Hr Hfv Hok) id doc Hdoc).
Qed.

(* ===================================================================== *)
(** ** Nothing is ever deleted *)
(* ===================================================================== *)

(** The end of a run that kept every document. *)
Ltac kept :=
  unfold keeps;
  cbn [snd sendError json ret try_catch docs sdk counter now logged advance
       with_docs with_counter];
  unfold same_store in *;
  let k := fresh "k" in
  let Hk := fresh "Hk" in
  intros k Hk;
  repeat match goal with H : _ /\ _ |- _ => destruct H end;
  repeat match goal with H : docs _ = docs _ |- _ => rewrite H end;
  first [ exact Hk | apply lookup_insert_is_Some'; right; exact Hk ].

Lemma postQuotes_keeps req w : keeps w (snd (postQuotes req w)).
Proof. unfold postQuotes, try_catch. walk kept. all: kept. Qed.

Lemma postJobs_keeps req w : keeps w (snd (postJobs req w)).
Proof. unfold postJobs, try_catch. walk kept. all: kept. Qed.

Lemma postLinenOrders_keeps req w : keeps w (snd (postLinenOrders req w)).
Proof. unfold postLinenOrders, try_catch. walk kept. all: kept. Qed.

Lemma getById_keeps coll missing failed id w :
  keeps w (snd (getById coll missing failed id w)).
Proof. unfold getById, try_catch. walk kept. Qed.

Lemma patchChecklist_keeps id req w : keeps w (snd (patchChecklist id req w)).
Proof.
  unfold patchChecklist, try_catch. cbv zeta.
  split_if; [kept|].
  destruct (checklistLoop _ _ _) as [k|[upd hasAny]]; [kept|].
  walk kept. all: kept.
Qed.

Lemma handle_keeps r w : keeps w (snd (handle r w)).
Proof.
  destruct r; cbn [handle].
  - apply postQuotes_keeps.
  - apply getById_keeps.
  - apply postJobs_keeps.
  - apply patchChecklist_keeps.
  - apply getById_keeps.
  - apply postLinenOrders_keeps.
  - apply getById_keeps.
  - intros k Hk. exact Hk.
Qed.

(** X13. No request deletes a document: whatever requests are served, a
    document that is in the store stays in the store, under the same
    collection and id. *)
Theorem documents_are_never_deleted (w0 w : world) :
  reachable w0 w ->
  forall coll id,
    is_Some (docs w0 !! (coll, id)) -> is_Some (docs w !! (coll, id)).
Proof.
  intros Hr coll id H0. induction Hr as [|w w' Hr IH Hstep]; [exact H0|].
  destruct Hstep as [r w|w w' Hd _ _].
  - apply handle_keeps, IH.
  - rewrite Hd. exact IH.
Qed.

(* ===================================================================== *)
(** ** The content-type gate *)
(* ===================================================================== *)

Lemma strip_prefix_spec p : forall s r,
  Str.strip_prefix p s = Some r <-> s = p ++ r.
Proof.
  induction p as [|a p IH]; intros s r; cbn [Str.strip_prefix append].
  - split; [intros [= ->]; reflexivity | intros ->; reflexivity].
  - destruct s as [|b s]; [split; discriminate|].
    destruct (Ascii.eqb_spec a b) as [->|Hne].
    + rewrite IH. split; [intros ->; reflexivity | intros [= ->]; reflexivity].
    + split; [discriminate | intros [= Hab _]; congruence].
Qed.

Lemma str_includes_spec needle : forall s,
  str_includes s needle = true <-> exists p q, s = p ++ needle ++ q.
Proof.
  induction s as [|c s IH]; cbn [str_includes].
  - destruct (Str.strip_prefix needle "") as [r|] eqn:E.
    + apply strip_prefix_spec in E. split; [|reflexivity].
      intros _. exists "", r. exact E.
    + split; [discriminate|]. intros (p & q & Hs).
      destruct p; [|discriminate]. cbn [append] in Hs.
      apply (strip_prefix_spec needle "" q) in Hs. congruence.
  - destruct (Str.strip_prefix needle (String c s)) as [r|] eqn:E.
    + apply strip_prefix_spec in E. split; [|reflexivity].
      intros _. exists "", r. exact E.
    + rewrite IH. split.
      * intros (p & q & ->). exists (String c p), q. reflexivity.
      * intros (p & q & Hs). destruct p as [|c' p].
        -- cbn [append] in Hs.
           apply (strip_prefix_spec needle (String c s) q) in Hs. congruence.
        -- injection Hs as _ ->. eauto.
Qed.

(** X14. The content-type gate: a POST, PATCH or PUT whose Content-Type
    header is missing or does not contain [application/json] is answered
    415 and nothing after the gate runs; with a header that contains it,
    and for every other method whatever the header, the request goes on to
    the routes. *)
Theorem content_type_gate (method : string) (contentType : option string)
  (next : M response) (w : world) :
  let json_typed :=
    exists p q, contentType = Some (p ++ "application/json" ++ q) in
  (includes [ "POST"; "PATCH"; "PUT" ] method = false ->
   requireJson method contentType next w = next w)
  /\ (json_typed -> requireJson method contentType next w = next w)
  /\ (includes [ "POST"; "PATCH"; "PUT" ] method = true -> ~ json_typed ->
      requireJson method contentType next w
      = (Returned (rejected 415 "Content-Type must be application/json"), w)).
Proof.
  intros json_typed. unfold requireJson.
  set (ct := match contentType with
             | Some s => if String.eqb s "" then "" else s
             | None => ""
             end).
  assert (Hct : str_includes ct "application/json" = true <-> json_typed).
  { unfold json_typed. rewrite str_includes_spec. subst ct.
    destruct contentType as [s|].
    - destruct (String.eqb_spec s "") as [->|_].
      + split; intros (p & q & H); exists p, q; [rewrite <- H|injection H as <-];
          reflexivity.
      + split; intros (p & q & H); exists p, q; congruence.
    - split; intros (p & q & H); [|discriminate].
      destruct p; discriminate. }
  split; [intros ->; reflexivity|]. split.
  - intros Hj. apply Hct in Hj. rewrite Hj.
    destruct (includes _ method); reflexivity.
  - intros -> Hn. destruct (str_includes ct "application/json") eqn:E.
    + exfalso. apply Hn, Hct. reflexivity.
    + reflexivity.
Qed.

(* ===================================================================== *)
(** ** Updating twice, and reading back *)
(* ===================================================================== *)

(** An answer other than 200 says nothing about an update. *)
Ltac not_updated := cbn; intros; discriminate.

(** X15. The job returned by a checklist update is the job a fetch
    returns next: after a 200, GET /jobs/:id answers with the same
    status and body, and only reads. *)
Theorem updated_job_is_fetched (id : string) (req : value) (w : world) :
  on_updated (patchChecklist id req w)
    (fun resp w' => getJob id w' = (Returned resp, logged (OpGet "jobs" id) w')).
Proof.
  unfold patchChecklist, try_catch. cbv zeta.
  split_if; [not_updated|].
  destruct (checklistLoop _ _ _) as [k|[upd hasAny]]; [not_updated|].
  walk not_updated.
  all: cbn [json ret on_updated status]; intros _.
  all: unfold getJob, getById, try_catch.
  all: unfold bind at 1; rewrite Edoc; cbn [lift ret].
  all: unfold bind, db_get; rewrite Easked.
  all: cbn [fst snd online docs advance with_counter with_docs logged].
  all: unfold same_store in *.
  all: repeat match goal with H : _ /\ _ |- _ => destruct H end.
  all: repeat match goal with H : online _ = _ |- _ => rewrite H end.
  all: rewrite lookup_insert_eq; reflexivity.
Qed.

(** When the update answers 200: the store was up, the body was an object
    whose recognized fields made an update, and the job was there. *)
Lemma patchChecklist_200_inv id req w :
  status (response_of (patchChecklist id req w)) = 200 ->
  online w = true
  /\ not_an_object (or_else req (VObj [])) = false
  /\ (exists upd, checklistLoop (entries (or_else req (VObj []))) [] false
                  = inr (upd, true))
  /\ exists r, doc "jobs" id = Some r /\ is_Some (docs w !! target r).
Proof.
  unfold patchChecklist, try_catch. cbv zeta.
  split_if; [not_updated|].
  destruct (checklistLoop _ _ _) as [k|[upd hasAny]]; [not_updated|].
  walk not_updated.
  all: intros _; unfold same_store in *.
  all: repeat match goal with H : _ /\ _ |- _ => destruct H end.
  all: split; [congruence|]; split; [reflexivity|]; split; [eauto|].
  all: eexists; split; [reflexivity|].
  all: try match goal with H : docs _ = docs _ |- _ => rewrite <- H end; eauto.
Qed.

(** The run of an update that goes through. *)
Lemma patchChecklist_run id req w r old upd :
  has_FieldValue_serverTimestamp (sdk w) = true ->
  online w = true ->
  doc "jobs" id = Some r ->
  docs w !! target r = Some old ->
  not_an_object (or_else req (VObj [])) = false ->
  checklistLoop (entries (or_else req (VObj []))) [] false = inr (upd, true) ->
  let new := apply_update (now w)
               (upd ++ [ ("updatedAt", VServerTimestamp) ])%list old in
  patchChecklist id req w
  = (Returned {| status := 200;
                 body := VObj (spread [ ("ok", VBool true);
                                        ("id", VStr (ref_id r)) ]
                                 (fields_of new)) |},
     logged (OpGet "jobs" id)
       (advance (with_docs (<[target r := new]> (docs w))
                   (logged (OpUpdate "jobs" id) (logged (OpGet "jobs" id) w))))).
Proof.
  intros Hfv Hon Hdoc Hold Hobj Hloop new.
  pose proof (doc_asked _ _ _ Hdoc) as Hasked.
  destruct (checklistLoop_inr _ _ _ _ _ Hloop (List.Forall_nil _)) as (Hall & _).
  unfold patchChecklist, try_catch. cbv zeta. rewrite Hobj, Hloop. cbn [negb].
  unfold bind at 1, serverTimestamp. rewrite Hfv. cbn [ret].
  unfold bind at 1. rewrite Hdoc. cbn [lift ret].
  unfold bind at 1. unfold db_get at 1. rewrite Hasked. cbn [fst snd].
  rewrite Hon, Hold.
  unfold bind at 1. unfold db_update at 1. rewrite Hasked.
  cbn [fst snd online docs now logged]. rewrite Hon, Hold.
  unfold bind at 1, db_get. rewrite Hasked.
  cbn [fst snd online docs now logged advance with_docs].
  rewrite Hon, lookup_insert_eq.
  cbn [json ret default from_option Datatypes.id].
  rewrite (stamped_update _ _ Hall). reflexivity.
Qed.

(** Two checklists that agree on the seven keys are the same object. *)
Lemma checklist_shape_ext c1 c2 :
  checklist_shape c1 -> checklist_shape c2 ->
  (forall k, includes allowedKeys k = true -> read c1 k = read c2 k) ->
  c1 = c2.
Proof.
  intros (f1 & L1 & ->) (f2 & L2 & ->) H.
  do 8 (destruct f1 as [|? f1]; try discriminate L1).
  do 8 (destruct f2 as [|? f2]; try discriminate L2).
  pose proof (H "bathroomsDone" eq_refl) as H1.
  pose proof (H "kitchenDone" eq_refl) as H2.
  pose proof (H "floorsDone" eq_refl) as H3.
  pose proof (H "trashOut" eq_refl) as H4.
  pose proof (H "linensChanged" eq_refl) as H5.
  pose proof (H "restockSupplies" eq_refl) as H6.
  pose proof (H "photosTaken" eq_refl) as H7.
  cbn in H1, H2, H3, H4, H5, H6, H7.
  congruence.
Qed.

(** Once an update names a checklist field, what the field holds after
    the update does not depend on the document. *)
Lemma apply_update_settles upd : forall k,
  Forall checklist_entry upd ->
  In ("checklist." ++ k) (map fst upd) ->
  exists b, forall t doc,
    read (read (apply_update t upd doc) "checklist") k = VBool b.
Proof.
  induction upd as [|kv upd IH]; intros k Hall Hin; [destruct Hin|].
  inversion Hall as [|? ? Hkv Hrest]; subst.
  destruct (in_dec string_dec ("checklist." ++ k) (map fst upd)) as [Hlater|Hno].
  - destruct (IH k Hrest Hlater) as [b Hb]. exists b. intros t doc.
    rewrite apply_update_cons. apply Hb.
  - destruct Hin as [Hhead|Hlater]; [|contradiction].
    destruct Hkv as (k0 & b & -> & Hk0). cbn [fst] in Hhead.
    apply checklist_key_inj in Hhead. subst k0.
    exists b. intros t doc. rewrite apply_update_cons.
    rewrite apply_update_unnamed;
      [|exact Hrest|intros v Hv; apply Hno; apply (in_map fst) in Hv; exact Hv].
    cbn [fst snd]. rewrite (checklist_path k Hk0). cbn [set_path resolve].
    rewrite (read_fields (VObj _) "checklist"). cbn [fields_of].
    rewrite lookup_set, String.eqb_refl.
    rewrite (read_fields (VObj _) k). cbn [fields_of].
    rewrite lookup_set, String.eqb_refl. reflexivity.
Qed.

(** Applying a checklist update to its own result changes nothing but
    the timestamp. *)
Lemma apply_update_again t t' upd stamp stamp' old k' :
  Forall checklist_entry upd ->
  checklist_shape (read old "checklist") ->
  k' <> "updatedAt" ->
  let d1 := apply_update t (upd ++ [ ("updatedAt", stamp) ])%list old in
  let d2 := apply_update t' (upd ++ [ ("updatedAt", stamp') ])%list d1 in
  read d2 k' = read d1 k'.
Proof.
  intros Hall Hshape Hk' d1 d2. subst d2.
  assert (Hwrap : forall tt s doc key, key <> "updatedAt" ->
            read (apply_update tt (upd ++ [ ("updatedAt", s) ])%list doc) key
            = read (apply_update tt upd doc) key).
  { intros tt s doc key Hkey. rewrite apply_update_stamped.
    rewrite (read_fields (VObj _)). cbn [fields_of]. rewrite lookup_set.
    destruct (String.eqb_spec key "updatedAt"); [congruence|].
    symmetry. apply read_fields. }
  rewrite Hwrap by exact Hk'.
  destruct (String.eqb_spec k' "checklist") as [->|Hne];
    [|apply apply_update_other; assumption].
  assert (H1 : checklist_shape (read d1 "checklist")).
  { subst d1. rewrite Hwrap by discriminate.
    apply apply_update_shape; assumption. }
  apply checklist_shape_ext;
    [apply apply_update_shape; assumption | exact H1 |].
  intros k Hk.
  destruct (in_dec string_dec ("checklist." ++ k) (map fst upd)) as [Hin|Hno].
  - destruct (apply_update_settles upd k Hall Hin) as [b Hb].
    rewrite Hb. subst d1. rewrite Hwrap by discriminate. symmetry. apply Hb.
  - apply apply_update_unnamed; [exact Hall|].
    intros v Hv. apply Hno. apply (in_map fst) in Hv. exact Hv.
Qed.

(** X16. A checklist update is idempotent: sent again after it was
    answered 200, it is answered 200 again and leaves the job as the first
    update left it, [updatedAt] apart. *)
Theorem checklist_update_is_idempotent (id : string) (req : value)
  (w : world) (old : value) :
  has_FieldValue_serverTimestamp (sdk w) = true ->
  docs w !! ("jobs", id) = Some old ->
  checklist_shape (read old "checklist") ->
  let run1 := patchChecklist id req w in
  let run2 := patchChecklist id req (snd run1) in
  status (response_of run1) = 200 ->
  status (response_of run2) = 200
  /\ exists d1 d2,
       docs (snd run1) !! ("jobs", id) = Some d1
       /\ docs (snd run2) !! ("jobs", id) = Some d2
       /\ forall k', k' <> "updatedAt" -> read d2 k' = read d1 k'.
Proof.
  intros Hfv Hold Hshape run1 run2 H200.
  destruct (patchChecklist_200_inv _ _ _ H200)
    as (Hon & Hobj & [upd Hloop] & r & Hdoc & [stored Hstored]).
  destruct (checklistLoop_inr _ _ _ _ _ Hloop (List.Forall_nil _)) as (Hall & _).
  pose proof (patchChecklist_run id req w r stored upd Hfv Hon Hdoc Hstored
                Hobj Hloop) as E1.
  cbv zeta in E1. subst run2. subst run1. rewrite E1. cbn [snd].
  match goal with
  | |- context [ patchChecklist id req ?w1 ] =>
      pose proof (patchChecklist_run id req w1 r _ upd Hfv Hon Hdoc
                    (lookup_insert_eq _ _ _) Hobj Hloop) as E2
  end.
  cbv zeta in E2. rewrite E2.
  split; [reflexivity|].
  cbn [snd docs logged advance with_docs].
  destruct (decide (target r = ("jobs", id))) as [Heq|Hne].
  - rewrite Heq in *. assert (stored = old) as -> by congruence.
    eexists _, _.
    split; [apply lookup_insert_eq|]. split; [apply lookup_insert_eq|].
    intros k' Hk'. apply apply_update_again; assumption.
  - exists old, old. rewrite !lookup_insert_ne by exact Hne. auto.
Qed.

(* ===================================================================== *)
(** ** Further sample requests *)
(* ===================================================================== *)

Lemma store_down_reports_no_success_witness :
  let w := {| docs := ∅; counter := 0; now := 1000; ticks := [ 5 ]%nat;
              online := false; sdk := firebaseAdmin; trace := [] |} in
  let run := handle (PostQuotes sampleQuote) w in
  online w = false
  /\ fst run = Returned (response_of run)
  /\ status (response_of run) <> 200 /\ status (response_of run) <> 201
  /\ docs (snd run) = docs w /\ counter (snd run) = counter w.
Proof.
  intros w run.
  assert (Hrun : handle (PostQuotes sampleQuote) w
                 = (Returned (response_of run), snd run))
    by (vm_compute; reflexivity).
  split; [reflexivity|]. split; [vm_compute; reflexivity|].
  exact (store_down_reports_no_success _ w _ _ (eq_refl false) Hrun).
Defined.

Lemma checklist_update_applies_witness :
  let w := snd (handle (PostJobs (sampleJob [])) emptyWorld) in
  let fields := [ ("floorsDone", VBool true); ("note", VStr "swept twice") ] in
  exists old new,
    docs w !! ("jobs", "0") = Some old
    /\ status (response_of (patchChecklist "0" (VObj fields) w)) = 200
    /\ docs (snd (patchChecklist "0" (VObj fields) w))
       = <[("jobs", "0") := new]> (docs w)
    /\ read new "updatedAt" = VTimestamp (now w)
    /\ read new "pricing" = read old "pricing"
    /\ read (read new "checklist") "linensChanged"
       = read (read old "checklist") "linensChanged"
    /\ read (read new "checklist") "floorsDone" = VBool true.
Proof.
  intros w fields.
  assert (Hold : docs w !! ("jobs", "0")
                 = Some (default VUndefined (docs w !! ("jobs", "0"))))
    by (vm_compute; reflexivity).
  assert (Hbool : forall k v, In (k, v) fields -> recognized (k, v) = true ->
                              is_boolean v = true).
  { intros k v [[= <- <-]|[[= <- <-]|[]]] Hr; [reflexivity|discriminate Hr]. }
  assert (Hsome : exists k v, In (k, v) fields /\ recognized (k, v) = true).
  { exists "floorsDone", (VBool true). split; [left; reflexivity|reflexivity]. }
  destruct (checklist_update_applies "0" fields w (plain_ref "jobs" "0") _
              eq_refl eq_refl eq_refl Hold Hbool Hsome)
    as (new & w' & Hrun & Hdocs & Hup & Hother & Hkeep & Hset).
  eexists _, new. split; [exact Hold|].
  rewrite Hrun. split; [reflexivity|]. split; [exact Hdocs|].
  split; [exact Hup|]. split; [apply Hother; discriminate|].
  split.
  - apply Hkeep. intros v [[= <-]|[[= <-]|[]]].
  - apply Hset; [left; reflexivity|reflexivity|].
    intros v [[= <-]|[[= <-]|[]]]. reflexivity.
Defined.

Lemma job_checklist_stays_seven_booleans_witness :
  let w1 := snd (handle (PostJobs (sampleJob [])) emptyWorld) in
  let w2 := snd (handle (PatchChecklist "0" (VObj [ ("floorsDone", VBool true) ]))
                   w1) in
  exists doc flags,
    docs w2 !! ("jobs", "0") = Some doc
    /\ length flags = 7%nat
    /\ read doc "checklist" = VObj (combine allowedKeys (map VBool flags)).
Proof.
  intros w1 w2.
  assert (Hr : reachable emptyWorld w2).
  { apply reachable_step with (w := w1); [|apply step_request].
    apply reachable_step with (w := emptyWorld);
      [apply reachable_start|apply step_request]. }
  assert (Hok : checklists_ok emptyWorld).
  { intros id doc Hdoc. unfold emptyWorld in Hdoc. cbn [docs] in Hdoc.
    rewrite lookup_empty in Hdoc. discriminate. }
  assert (Hdoc : docs w2 !! ("jobs", "0")
                 = Some (default VUndefined (docs w2 !! ("jobs", "0"))))
    by (vm_compute; reflexivity).
  destruct (job_checklist_stays_seven_booleans emptyWorld w2 eq_refl Hok Hr
              _ _ Hdoc) as (flags & Hlen & Hshape).
  eexists _, flags. split; [exact Hdoc|]. split; [exact Hlen|exact Hshape].
Defined.

Lemma job_created_before_updated_witness :
  let w1 := snd (handle (PostJobs (sampleJob [])) emptyWorld) in
  let w2 := snd (handle (PatchChecklist "0" (VObj [ ("floorsDone", VBool true) ]))
                   w1) in
  exists doc c u,
    docs w2 !! ("jobs", "0") = Some doc
    /\ read doc "createdAt" = VTimestamp c
    /\ read doc "updatedAt" = VTimestamp u
    /\ (c <= u <= now w2)%nat.
Proof.
  intros w1 w2.
  assert (Hr : forward emptyWorld w2).
  { apply forward_step with (w := w1);
      [|apply step_request|apply Nat.leb_le; vm_compute; reflexivity].
    apply forward_step with (w := emptyWorld);
      [apply forward_start|apply step_request
      |apply Nat.leb_le; vm_compute; reflexivity]. }
  assert (Hok : stamps_ok emptyWorld).
  { intros id doc Hdoc. unfold emptyWorld in Hdoc. cbn [docs] in Hdoc.
    rewrite lookup_empty in Hdoc. discriminate. }
  assert (Hdoc : docs w2 !! ("jobs", "0")
                 = Some (default VUndefined (docs w2 !! ("jobs", "0"))))
    by (vm_compute; reflexivity).
  destruct (job_created_before_updated emptyWorld w2 eq_refl Hok Hr _ _ Hdoc)
    as (c & u & Hc & Hu & Hcu).
  eexists _, c, u. split; [exact Hdoc|]. split; [exact Hc|]. split; [exact Hu|exact Hcu].
Defined.

Lemma documents_are_never_deleted_witness :
  let w1 := snd (handle (PostQuotes sampleQuote) emptyWorld) in
  let w2 := snd (handle (PostJobs (sampleJob [])) w1) in
  is_Some (docs w1 !! ("quotes", "0")) /\ is_Some (docs w2 !! ("quotes", "0")).
Proof.
  intros w1 w2.
  assert (H1 : is_Some (docs w1 !! ("quotes", "0")))
    by (vm_compute; eexists; reflexivity).
  split; [exact H1|].
  apply (documents_are_never_deleted w1 w2); [|exact H1].
  apply reachable_step with (w := w1); [apply reachable_start|apply step_request].
Defined.

Lemma content_type_gate_witness :
  requireJson "POST" (Some "application/json; charset=utf-8")
    (handle (PostQuotes sampleQuote)) emptyWorld
  = handle (PostQuotes sampleQuote) emptyWorld
  /\ requireJson "GET" None (handle (GetQuote "0")) emptyWorld
     = handle (GetQuote "0") emptyWorld
  /\ requireJson "PATCH" (Some "text/plain")
       (handle (PatchChecklist "0" (VObj [ ("floorsDone", VBool true) ])))
       emptyWorld
     = (Returned (rejected 415 "Content-Type must be application/json"),
        emptyWorld).
Proof.
  split; [|split].
  - apply (proj1 (proj2 (content_type_gate "POST"
                           (Some "application/json; charset=utf-8") _ _))).
    exists "", "; charset=utf-8". reflexivity.
  - apply (proj1 (content_type_gate "GET" None _ _)). reflexivity.
  - apply (proj2 (proj2 (content_type_gate "PATCH" (Some "text/plain") _ _)));
      [reflexivity|].
    intros (p & q & [= H]).
    assert (Hn : str_includes "text/plain" "application/json" = true)
      by (apply str_includes_spec; eauto).
    discriminate Hn.
Defined.

Lemma checklist_update_is_idempotent_witness :
  let w := snd (handle (PostJobs (sampleJob [])) emptyWorld) in
  let req := VObj [ ("floorsDone", VBool true); ("note", VStr "swept twice") ] in
  let run1 := patchChecklist "0" req w in
  let run2 := patchChecklist "0" req (snd run1) in
  status (response_of run1) = 200
  /\ status (response_of run2) = 200
  /\ exists d1 d2,
       docs (snd run1) !! ("jobs", "0") = Some d1
       /\ docs (snd run2) !! ("jobs", "0") = Some d2
       /\ read d2 "checklist" = read d1 "checklist".
Proof.
  intros w req run1 run2.
  assert (Hold : docs w !! ("jobs", "0")
                 = Some (default VUndefined (docs w !! ("jobs", "0"))))
    by (vm_compute; reflexivity).
  assert (Hshape : checklist_shape
                     (read (default VUndefined (docs w !! ("jobs", "0")))
                        "checklist")).
  { exists [false; false; false; false; true; false; false].
    split; vm_compute; reflexivity. }
  assert (H200 : status (response_of run1) = 200) by (vm_compute; reflexivity).
  split; [exact H200|].
  destruct (checklist_update_is_idempotent "0" req w _ eq_refl Hold Hshape H200)
    as (H2 & d1 & d2 & Hd1 & Hd2 & Hsame).
  split; [exact H2|]. exists d1, d2.
  split; [exact Hd1|]. split; [exact Hd2|]. apply Hsame. discriminate.
Defined.

Lemma created_document_is_fetched_witness :
  let run := postJobs (sampleJob []) emptyWorld in
  status (response_of run) = 201
  /\ fetched_back getJob "jobs" emptyWorld (response_of run) (snd run).
Proof.
  intros run.
  assert (Hrun : run = (Returned (response_of run), snd run))
    by (vm_compute; reflexivity).
  assert (Hs : status (response_of run) = 201) by (vm_compute; reflexivity).
  split; [exact Hs|].
  pose proof (proj1 (proj2 (created_document_is_fetched (sampleJob []) emptyWorld)))
    as H.
  fold run in H. rewrite Hrun in H. exact (H Hs).
Defined.

Lemma stored_pricing_is_reproducible_witness :
  let run := postQuotes sampleQuote emptyWorld in
  status (response_of run) = 201
  /\ exists doc,
       docs (snd run) !! ("quotes", pretty (counter emptyWorld)) = Some doc
       /\ reprices doc (read (read doc "preferences") "addOns").
Proof.
  intros run.
  assert (Hrun : run = (Returned (response_of run), snd run))
    by (vm_compute; reflexivity).
  assert (Hs : status (response_of run) = 201) by (vm_compute; reflexivity).
  split; [exact Hs|].
  pose proof (proj1 (stored_pricing_is_reproducible sampleQuote emptyWorld)) as H.
  fold run in H. rewrite Hrun in H. exact (H Hs).
Defined.

Lemma linen_items_are_numbers_witness :
  let run := postLinenOrders sampleLinenOrder emptyWorld in
  status (response_of run) = 201
  /\ exists doc,
       docs (snd run) !! ("linen_orders", pretty (counter emptyWorld)) = Some doc
       /\ read (read doc "items") "towelSets"
          = VNum (or_zero (ToNumber (VStr "many")))
       /\ or_zero (ToNumber (VStr "many")) <> Num.NaN.
Proof.
  intros run.
  assert (Hrun : run = (Returned (response_of run), snd run))
    by (vm_compute; reflexivity).
  assert (Hs : status (response_of run) = 201) by (vm_compute; reflexivity).
  split; [exact Hs|].
  pose proof (linen_items_are_numbers sampleLinenOrder emptyWorld) as H.
  fold run in H. rewrite Hrun in H.
  destruct (H Hs) as (doc & Hdoc & _ & Hitems).
  exists doc. split; [exact Hdoc|].
  apply (Hitems "towelSets"). cbn. tauto.
Defined.

Lemma updated_job_is_fetched_witness :
  let w := snd (handle (PostJobs (sampleJob [])) emptyWorld) in
  let run := patchChecklist "0" (VObj [ ("floorsDone", VBool true) ]) w in
  status (response_of run) = 200
  /\ getJob "0" (snd run)
     = (Returned (response_of run), logged (OpGet "jobs" "0") (snd run)).
Proof.
  intros w run.
  assert (Hrun : run = (Returned (response_of run), snd run))
    by (vm_compute; reflexivity).
  assert (Hs : status (response_of run) = 200) by (vm_compute; reflexivity).
  split; [exact Hs|].
  pose proof (updated_job_is_fetched "0" (VObj [ ("floorsDone", VBool true) ]) w)
    as H.
  fold run in H. rewrite Hrun in H. exact (H Hs).
Defined.
